(** * figma-to-rn-toolkit: the node-tree to component translation engine

    A shallow embedding of [src/parser/ComponentParser.ts],
    [src/parser/StyleParser.ts] and [src/generator/ReactNativeGenerator.ts],
    followed by the properties of the specification that concern them
    (C1 to C10), and by further properties of the same code and of the
    utility functions that come with it (X1 onwards).

    Conventions of the embedding.
    - A JavaScript [number] is a binary64 float ([PrimFloat.float]).
    - A JavaScript string is a [string]; its characters stand for the code
      units below 256.
    - An optional field [f?: T] is an [option T]; [None] is [undefined].
    - A plain object used as an ordered dictionary (a style mapping) and the
      generator's [Map] are association lists in insertion order. *)

From Stdlib Require Import ZArith List Bool Ascii String Lia Floats Uint63.
From Stdlib Require Import DecimalString DecimalNat Finite.
Import ListNotations.

Local Open Scope string_scope.
Local Open Scope Z_scope.

(* ================================================================= *)
(** ** The JavaScript built-ins the code relies on *)

Module JS.

(** *** Numbers *)

Definition number := float.

(** [x === y] on two numbers. *)
Definition strict_eq (x y : number) : bool := PrimFloat.eqb x y.

(** ToBoolean of a number: false for [+0], [-0] and [NaN]. *)
Definition truthy_num (x : number) : bool :=
  negb (PrimFloat.is_zero x || PrimFloat.is_nan x).

Definition float_of_Z (z : Z) : float :=
  let a := PrimFloat.of_uint63 (Uint63.of_Z (Z.abs z)) in
  if z <? 0 then PrimFloat.opp a else a.

(** [Math.round]: the integer nearest to [x], ties towards [+Infinity];
    [NaN], the infinities and the zeros are returned unchanged and the sign
    of a zero result is the sign of [x]. *)
Definition Math_round (x : number) : number :=
  match Prim2SF x with
  | S754_finite s m e =>
      if 0 <=? e then x
      else
        let twice := if s then - (2 * Z.pos m) else 2 * Z.pos m in
        let r := Z.shiftr (twice + 2 ^ (- e)) (1 - e) in
        if r =? 0 then (if s then PrimFloat.neg_zero else PrimFloat.zero)
        else float_of_Z r
  | _ => x
  end.

(** *** Number::toString (radix 10), after ECMA-262 6.1.6.1.20 *)

Definition digits_of_Z (z : Z) : string :=
  NilZero.string_of_uint (N.to_uint (Z.to_N z)).

Definition digits_of_nat (n : nat) : string :=
  NilZero.string_of_uint (Nat.to_uint n).

Fixpoint repeat_string (s : string) (n : nat) : string :=
  match n with
  | O => ""
  | S n' => s ++ repeat_string s n'
  end.

(** [s * 10^p] compared with [a * 2^q], for non-negative [s] and [a]. *)
Definition cmp_scaled (s p a q : Z) : comparison :=
  (s * 10 ^ Z.max p 0 * 2 ^ Z.max (- q) 0)
    ?= (a * 2 ^ Z.max q 0 * 10 ^ Z.max (- p) 0).

(** Does the decimal [t * 10^p] round (to nearest, ties to even) to the
    float of mantissa [m] and exponent [e]?  The float's rounding interval
    is [(4m - dl) * 2^(e-2), (4m + 2) * 2^(e-2)], its ends included exactly
    when [m] is even; the lower gap halves at a power of two. *)
Definition rounds_to (m e t p : Z) : bool :=
  let dl := if (m =? 2 ^ 52) && (-1074 <? e) then 1 else 2 in
  let even := Z.even m in
  let lo := cmp_scaled t p (4 * m - dl) (e - 2) in
  let hi := cmp_scaled t p (4 * m + 2) (e - 2) in
  (match lo with Gt => true | Eq => even | Lt => false end)
  && (match hi with Lt => true | Eq => even | Gt => false end).

(** The [n] with [10^(n-1) <= m * 2^e < 10^n]. *)
Definition decimal_exponent (m e : Z) : Z :=
  let est := ((Z.log2 m + e) * 30103) / 100000 in
  let fix scan (n : Z) (fuel : nat) : Z :=
    match fuel with
    | O => n
    | S fuel' =>
        match cmp_scaled 1 n m e with
        | Gt => n
        | _ => scan (n + 1) fuel'
        end
    end in
  scan (est - 1) 6%nat.

(** [floor (m * 2^e / 10^p)]. *)
Definition floor_scaled (m e p : Z) : Z :=
  (m * 2 ^ Z.max e 0 * 10 ^ Z.max (- p) 0)
    / (2 ^ Z.max (- e) 0 * 10 ^ Z.max p 0).

(** The shortest digit string: the least [k] for which some [k]-digit [s]
    has [s * 10^(n-k)] rounding to the float, that [s] (the nearest to the
    float when two qualify) and [n]. *)
Definition shortest_digits (m e : Z) : Z * Z * Z :=
  let n0 := decimal_exponent m e in
  let fix search (k : Z) (fuel : nat) : Z * Z * Z :=
    let p := n0 - k in
    let t0 := floor_scaled m e p in
    let ok0 := rounds_to m e t0 p in
    let ok1 := rounds_to m e (t0 + 1) p in
    let pick (t : Z) : Z * Z * Z :=
      if t =? 10 ^ k then (n0 + 1, k, 10 ^ (k - 1)) else (n0, k, t) in
    match fuel with
    | O => (n0, k, t0)
    | S fuel' =>
        match ok0, ok1 with
        | true, true =>
            match cmp_scaled (2 * t0 + 1) p (2 * m) e with
            | Gt => pick t0
            | Lt => pick (t0 + 1)
            | Eq => if Z.even t0 then pick t0 else pick (t0 + 1)
            end
        | true, false => pick t0
        | false, true => pick (t0 + 1)
        | false, false => search (k + 1) fuel'
        end
    end in
  search 1 17%nat.

Definition format_decimal (n k s : Z) : string :=
  let ds := digits_of_Z s in
  if (k <=? n) && (n <=? 21) then
    ds ++ repeat_string "0" (Z.to_nat (n - k))
  else if (0 <? n) && (n <=? 21) then
    substring 0 (Z.to_nat n) ds ++ "."
      ++ substring (Z.to_nat n) (Z.to_nat (k - n)) ds
  else if (-6 <? n) && (n <=? 0) then
    "0." ++ repeat_string "0" (Z.to_nat (- n)) ++ ds
  else
    let ex := n - 1 in
    let sign := if ex <? 0 then "-" else "+" in
    if k =? 1 then ds ++ "e" ++ sign ++ digits_of_Z (Z.abs ex)
    else substring 0 1 ds ++ "." ++ substring 1 (Z.to_nat (k - 1)) ds
           ++ "e" ++ sign ++ digits_of_Z (Z.abs ex).

Definition Number_toString (x : number) : string :=
  match Prim2SF x with
  | S754_nan => "NaN"
  | S754_zero _ => "0"
  | S754_infinity s => if s then "-Infinity" else "Infinity"
  | S754_finite s m e =>
      let '(n, k, d) := shortest_digits (Z.pos m) e in
      (if s then "-" else "") ++ format_decimal n k d
  end.

(** [JSON.stringify] of a number: non-finite numbers serialize as [null]. *)
Definition JSON_stringify_number (x : number) : string :=
  if PrimFloat.is_finite x then Number_toString x else "null".

(** *** Strings *)

Definition char_code (c : ascii) : N := N_of_ascii c.

Definition LF : ascii := ascii_of_N 10.
Definition nl : string := String LF "".

(** The characters matched by [\s] and stripped by [trim]: TAB, LF, VT, FF,
    CR, SPACE and NBSP among the code units below 256. *)
Definition isWhiteSpace (c : ascii) : bool :=
  let n := char_code c in
  ((9 <=? n) && (n <=? 13) || (n =? 32) || (n =? 160))%N.

(** The characters after which [^] matches under the [m] flag. *)
Definition isLineTerminator (c : ascii) : bool :=
  let n := char_code c in ((n =? 10) || (n =? 13))%N.

Definition isUpperAZ (c : ascii) : bool :=
  let n := char_code c in ((65 <=? n) && (n <=? 90))%N.
Definition isLowerAZ (c : ascii) : bool :=
  let n := char_code c in ((97 <=? n) && (n <=? 122))%N.
Definition isDigit09 (c : ascii) : bool :=
  let n := char_code c in ((48 <=? n) && (n <=? 57))%N.

Fixpoint string_map (f : ascii -> ascii) (s : string) : string :=
  match s with
  | EmptyString => EmptyString
  | String c r => String (f c) (string_map f r)
  end.

Fixpoint string_filter (f : ascii -> bool) (s : string) : string :=
  match s with
  | EmptyString => EmptyString
  | String c r => if f c then String c (string_filter f r) else string_filter f r
  end.

(** [toLowerCase]: A-Z and the Latin-1 capitals (C0-DE but D7) move down
    by 32. *)
Definition lower_char (c : ascii) : ascii :=
  let n := char_code c in
  if (isUpperAZ c || ((192 <=? n) && (n <=? 222) && negb (n =? 215)))%N
  then ascii_of_N (n + 32) else c.
Definition toLowerCase (s : string) : string := string_map lower_char s.

(** [toUpperCase]; the code applies it to characters that survived
    [replace(/[^a-zA-Z0-9\s]/g, '')] only, where a-z alone change. *)
Definition upper_char (c : ascii) : ascii :=
  if isLowerAZ c then ascii_of_N (char_code c - 32) else c.
Definition toUpperCase (s : string) : string := string_map upper_char s.

(** [s.charAt(0)] and [s.slice(1)]. *)
Definition charAt0 (s : string) : string :=
  match s with EmptyString => "" | String c _ => String c "" end.
Definition slice1 (s : string) : string :=
  match s with EmptyString => "" | String _ r => r end.

Fixpoint trimStart (s : string) : string :=
  match s with
  | EmptyString => EmptyString
  | String c r => if isWhiteSpace c then trimStart r else s
  end.

(** [trimEnd]: a character is kept when it is not white space or something
    is kept after it. *)
Fixpoint trimEnd (s : string) : string :=
  match s with
  | EmptyString => EmptyString
  | String c r =>
      match trimEnd r with
      | EmptyString => if isWhiteSpace c then EmptyString else String c EmptyString
      | r' => String c r'
      end
  end.

Definition trim (s : string) : string := trimEnd (trimStart s).

(** ToBoolean of a string. *)
Definition truthy_str (s : string) : bool :=
  match s with EmptyString => false | _ => true end.

(** [s.includes(sub)]. *)
Fixpoint includes (s sub : string) : bool :=
  prefix sub s
  || match s with
     | EmptyString => false
     | String _ r => includes r sub
     end.

Fixpoint join (sep : string) (l : list string) : string :=
  match l with
  | [] => ""
  | [x] => x
  | x :: rest => x ++ sep ++ join sep rest
  end.

(** [s.split(/\s+/)]: the pieces between maximal runs of white space; a
    leading or trailing run leaves an empty piece. *)
Fixpoint split_ws_from (cur : string) (in_ws : bool) (s : string) : list string :=
  match s with
  | EmptyString => [cur]
  | String c r =>
      if isWhiteSpace c then
        if in_ws then split_ws_from cur true r
        else cur :: split_ws_from "" true r
      else split_ws_from (cur ++ String c "") false r
  end.
Definition split_ws (s : string) : list string := split_ws_from "" false s.

(** [s.replace(/[^a-zA-Z0-9\s]/g, '')]. *)
Definition strip_non_alnum_ws (s : string) : string :=
  string_filter
    (fun c => isUpperAZ c || isLowerAZ c || isDigit09 c || isWhiteSpace c) s.

(** [s.match(/^[A-Z]/)] and [s.match(/^[a-zA-Z]/)], as booleans. *)
Definition starts_upper (s : string) : bool :=
  match s with EmptyString => false | String c _ => isUpperAZ c end.
Definition starts_letter (s : string) : bool :=
  match s with EmptyString => false | String c _ => isUpperAZ c || isLowerAZ c end.

(** [JSON.stringify] of a string. *)
Definition hex_digit (n : N) : ascii :=
  if (n <? 10)%N then ascii_of_N (48 + n) else ascii_of_N (87 + n).
Definition json_escape_char (c : ascii) : string :=
  let n := char_code c in
  if (n =? 34)%N then "\" ++ String c ""
  else if (n =? 92)%N then "\\"
  else if (n =? 8)%N then "\b"
  else if (n =? 9)%N then "\t"
  else if (n =? 10)%N then "\n"
  else if (n =? 12)%N then "\f"
  else if (n =? 13)%N then "\r"
  else if (n <? 32)%N then
    "\u00" ++ String (hex_digit (n / 16)) (String (hex_digit (n mod 16)) "")
  else String c "".
Fixpoint json_escape (s : string) : string :=
  match s with
  | EmptyString => ""
  | String c r => json_escape_char c ++ json_escape r
  end.
Definition dquote : string := String (ascii_of_N 34) "".
Definition JSON_stringify_string (s : string) : string :=
  dquote ++ json_escape s ++ dquote.

(** [a.sort()] on strings: by code units; insertion sort is stable. *)
Fixpoint sort_insert (x : string) (l : list string) : list string :=
  match l with
  | [] => [x]
  | y :: r => if String.leb x y then x :: l else y :: sort_insert x r
  end.
Definition sort_strings (l : list string) : list string :=
  fold_right sort_insert [] l.

(** [a.push(x)]. *)
Definition push {A} (a : list A) (x : A) : list A := (a ++ [x])%list.

(** *** Plain objects and [Map]s as ordered dictionaries *)

Section Dict.
Context {V : Type}.

Definition dict := list (string * V).

Fixpoint dict_get (d : dict) (k : string) : option V :=
  match d with
  | [] => None
  | (k', v) :: r => if String.eqb k' k then Some v else dict_get r k
  end.

Definition dict_has (d : dict) (k : string) : bool :=
  match dict_get d k with Some _ => true | None => false end.

(** [d[k] = v] / [map.set(k, v)]: an existing key keeps its place. *)
Fixpoint dict_set (d : dict) (k : string) (v : V) : dict :=
  match d with
  | [] => [(k, v)]
  | (k', v') :: r =>
      if String.eqb k' k then (k', v) :: r else (k', v') :: dict_set r k v
  end.

(** [delete d[k]]: no entry under [k] is left. *)
Definition dict_delete (d : dict) (k : string) : dict :=
  filter (fun kv => negb (String.eqb (fst kv) k)) d.

(** [Object.assign(d, src)]. *)
Definition dict_assign (d src : dict) : dict :=
  fold_left (fun acc kv => dict_set acc (fst kv) (snd kv)) src d.

Definition dict_keys (d : dict) : list string := map fst d.
End Dict.
Arguments dict V : clear implicits.

End JS.

Import JS.

(* ================================================================= *)
(** ** The design-tool types ([src/types]) *)

Module FigmaColor.
Record t := mk { r : number; g : number; b : number; a : option number }.
End FigmaColor.

Module FigmaVector.
Record t := mk { x : number; y : number }.
End FigmaVector.

(** [FigmaFill]; the gradient and image fields are read nowhere in the
    engine and are left out. *)
Module FigmaFill.
Record t := mk {
  type : string;
  color : option FigmaColor.t;
  opacity : option number;
  visible : option bool
}.
End FigmaFill.

Module FigmaStroke.
Record t := mk {
  type : string;
  color : option FigmaColor.t;
  opacity : option number;
  visible : option bool
}.
End FigmaStroke.

Module FigmaEffect.
Record t := mk {
  type : string;
  visible : option bool;
  radius : option number;
  color : option FigmaColor.t;
  offset : option FigmaVector.t
}.
End FigmaEffect.

Module FigmaTextStyle.
Record t := mk {
  fontFamily : string;
  fontSize : number;
  fontWeight : number;
  textAlignHorizontal : option string;
  textAlignVertical : option string;
  letterSpacing : option number;
  lineHeightPx : option number;
  textDecoration : option string;
  textCase : option string
}.
End FigmaTextStyle.

(** [FigmaNode]; [componentId], [locked], [blendMode], [constraints] and the
    two sizing modes are read nowhere in the engine and are left out. *)
Module FigmaNode.
#[local] Unset Elimination Schemes.
Inductive t : Type := mk {
  id : string;
  name : string;
  type : string;
  x : option number;
  y : option number;
  width : option number;
  height : option number;
  children : option (list t);
  fills : option (list FigmaFill.t);
  strokes : option (list FigmaStroke.t);
  style : option FigmaTextStyle.t;
  cornerRadius : option number;
  characters : option string;
  effects : option (list FigmaEffect.t);
  visible : option bool;
  opacity : option number;
  layoutMode : option string;
  paddingLeft : option number;
  paddingRight : option number;
  paddingTop : option number;
  paddingBottom : option number;
  itemSpacing : option number;
  counterAxisAlignItems : option string;
  primaryAxisAlignItems : option string
}.
End FigmaNode.

(** [v !== false] for an optional boolean. *)
Definition not_false (v : option bool) : bool :=
  match v with Some false => false | _ => true end.

(** [v !== undefined]. *)
Definition defined {A} (v : option A) : bool :=
  match v with Some _ => true | None => false end.

(** ToBoolean of an optional string field. *)
Definition truthy_ostr (v : option string) : bool :=
  match v with Some s => truthy_str s | None => false end.

(** [table[key] || fallback] for a table of non-empty strings; [key] is not
    the name of a member of [Object.prototype]. *)
Fixpoint lookup_or (table : list (string * string)) (key fallback : string) : string :=
  match table with
  | [] => fallback
  | (k, v) :: rest => if String.eqb k key then v else lookup_or rest key fallback
  end.

(* ================================================================= *)
(** ** [ComponentParser] *)

Module ComponentParser.

Definition NODE_TO_COMPONENT_MAP : list (string * string) :=
  [ ("FRAME", "View"); ("RECTANGLE", "View"); ("ELLIPSE", "View");
    ("POLYGON", "View"); ("STAR", "View"); ("VECTOR", "View");
    ("TEXT", "Text"); ("GROUP", "View"); ("COMPONENT", "View");
    ("INSTANCE", "View"); ("BOOLEAN_OPERATION", "View"); ("LINE", "View") ].

Definition getComponentType (node : FigmaNode.t) : string :=
  lookup_or NODE_TO_COMPONENT_MAP (FigmaNode.type node) "View".

Definition shouldRenderAsImage (node : FigmaNode.t) : bool :=
  let imageTypes := ["VECTOR"; "BOOLEAN_OPERATION"; "STAR"; "POLYGON"] in
  existsb (String.eqb (FigmaNode.type node)) imageTypes.

Definition capitalize_word (word : string) : string :=
  toUpperCase (charAt0 word) ++ toLowerCase (slice1 word).

Definition generateComponentName (nodeName : string) : string :=
  let name :=
    join "" (map capitalize_word (split_ws (strip_non_alnum_ws nodeName))) in
  if (String.length name =? 0)%nat || negb (starts_upper name)
  then "Component" ++ name
  else name.

(** The callback of [map] in [generateStyleName]: the first word is
    lower-cased, the others capitalized. *)
Fixpoint camel_words (index : nat) (words : list string) : list string :=
  match words with
  | [] => []
  | word :: rest =>
      (if (index =? 0)%nat then toLowerCase word else capitalize_word word)
        :: camel_words (S index) rest
  end.

Definition generateStyleName (nodeName : string) : string :=
  let name :=
    join "" (camel_words 0 (split_ws (strip_non_alnum_ws nodeName))) in
  if (String.length name =? 0)%nat || negb (starts_letter name)
  then "container" ++ toUpperCase (charAt0 name) ++ slice1 name
  else name.

Definition extractTextContent (node : FigmaNode.t) : string :=
  match FigmaNode.characters node with
  | Some chars =>
      if String.eqb (FigmaNode.type node) "TEXT" && truthy_str chars
      then chars else ""
  | None => ""
  end.

Definition hasVisualContent (node : FigmaNode.t) : bool :=
  if String.eqb (FigmaNode.type node) "TEXT"
     && match FigmaNode.characters node with
        | Some chars => truthy_str chars && truthy_str (trim chars)
        | None => false
        end
  then true
  else if match FigmaNode.fills node with
          | Some fills => existsb (fun fill => not_false (FigmaFill.visible fill)) fills
          | None => false
          end
  then true
  else if match FigmaNode.strokes node with
          | Some strokes =>
              existsb (fun stroke => not_false (FigmaStroke.visible stroke)) strokes
          | None => false
          end
  then true
  else if match FigmaNode.effects node with
          | Some effects =>
              existsb (fun effect => not_false (FigmaEffect.visible effect)) effects
          | None => false
          end
  then true
  else false.

(** [shouldRenderNode] and [hasRenderableChildren] call each other down the
    tree; the recursion is on the node, with the test on the children
    written in place ([hasRenderableChildren] is stated below and
    [shouldRenderNode_unfold] gives the source's form). *)
Fixpoint shouldRenderNode (node : FigmaNode.t) : bool :=
  if negb (not_false (FigmaNode.visible node)) then false
  else if negb (hasVisualContent node)
          && negb (match FigmaNode.children node with
                   | Some children =>
                       existsb (fun child =>
                                  not_false (FigmaNode.visible child)
                                  && shouldRenderNode child) children
                   | None => false
                   end)
  then false
  else true.

Definition hasRenderableChildren (node : FigmaNode.t) : bool :=
  match FigmaNode.children node with
  | Some children =>
      existsb (fun child =>
                 not_false (FigmaNode.visible child) && shouldRenderNode child)
              children
  | None => false
  end.

(** *** [analyzeComponent] *)

Inductive LayoutType := flex | absolute | mixed.

Record Analysis := mkAnalysis {
  componentType : string;
  hasText : bool;
  hasImages : bool;
  hasInteractiveElements : bool;
  childCount : nat;
  layoutType : LayoutType;
  suggestedProps : list string
}.

(** The three flags the closure [analyzeNodeRecursively] assigns. *)
Record Flags := mkFlags {
  f_hasText : bool; f_hasImages : bool; f_hasInteractiveElements : bool
}.

Definition looks_interactive (name : string) : bool :=
  includes (toLowerCase name) "button"
  || includes (toLowerCase name) "input"
  || includes (toLowerCase name) "field".

Fixpoint analyzeNodeRecursively (n : FigmaNode.t) (fl : Flags) : Flags :=
  let fl1 :=
    if String.eqb (FigmaNode.type n) "TEXT"
    then mkFlags true (f_hasImages fl) (f_hasInteractiveElements fl) else fl in
  let fl2 :=
    if shouldRenderAsImage n
    then mkFlags (f_hasText fl1) true (f_hasInteractiveElements fl1) else fl1 in
  let fl3 :=
    if looks_interactive (FigmaNode.name n)
    then mkFlags (f_hasText fl2) (f_hasImages fl2) true else fl2 in
  match FigmaNode.children n with
  | Some children =>
      fold_left (fun acc child =>
                   if shouldRenderNode child
                   then analyzeNodeRecursively child acc else acc)
                children fl3
  | None => fl3
  end.

(** [child.x !== undefined && child.y !== undefined] *)
Definition has_xy (child : FigmaNode.t) : bool :=
  defined (FigmaNode.x child) && defined (FigmaNode.y child).

Definition analyzeComponent (node : FigmaNode.t) : Analysis :=
  let componentType := getComponentType node in
  let layout0 := if truthy_ostr (FigmaNode.layoutMode node) then flex else absolute in
  let '(fl, childCount, layoutType) :=
    match FigmaNode.children node with
    | Some children =>
        let childCount := List.length (filter shouldRenderNode children) in
        let fl :=
          fold_left (fun acc child =>
                       if shouldRenderNode child
                       then analyzeNodeRecursively child acc else acc)
                    children (mkFlags false false false) in
        let layoutType :=
          if (1 <? childCount)%nat && negb (truthy_ostr (FigmaNode.layoutMode node)) then
            let hasAbsolutePositioning := existsb has_xy children in
            if hasAbsolutePositioning
            then (if (3 <? childCount)%nat then mixed else absolute)
            else layout0
          else layout0 in
        (fl, childCount, layoutType)
    | None => (mkFlags false false false, O, layout0)
    end in
  let suggestedProps :=
    ((if f_hasText fl then ["title"; "subtitle"; "description"] else [])
       ++ (if f_hasInteractiveElements fl then ["onPress"; "onLongPress"; "disabled"] else [])
       ++ (if f_hasImages fl then ["imageSource"; "imageStyle"] else []))%list in
  mkAnalysis componentType (f_hasText fl) (f_hasImages fl)
             (f_hasInteractiveElements fl) childCount layoutType suggestedProps.

(** *** [generatePropsInterface] *)

Definition propString (prop : string) : string :=
  if String.eqb prop "style?" then "  style?: ViewStyle;"
  else if includes prop "onPress" || includes prop "onLongPress"
  then "  " ++ prop ++ "?: () => void;"
  else if String.eqb prop "disabled" then "  disabled?: boolean;"
  else if includes prop "image" then "  " ++ prop ++ "?: any;"
  else "  " ++ prop ++ "?: string;".

Definition generatePropsInterface (componentName : string) (analysis : Analysis) : string :=
  let props := (suggestedProps analysis ++ ["style?"])%list in
  if (List.length props =? 1)%nat then
    "interface " ++ componentName ++ "Props {" ++ nl ++ "  style?: ViewStyle;" ++ nl ++ "}"
  else
    "interface " ++ componentName ++ "Props {" ++ nl
      ++ join nl (map propString props) ++ nl ++ "}".

(** *** [validateComponent]

    The test [!NODE_TO_COMPONENT_MAP[node.type]] is taken on the table's own
    keys: as for [lookup_or], the type tag is not the name of a member of
    [Object.prototype]. *)

Record Validation := mkValidation {
  isValid : bool;
  warnings : list string;
  errors : list string
}.

(** [Math.max(...l)] over a non-empty list of depths. *)
Definition max_list (l : list nat) : nat := fold_right Nat.max O l.

Fixpoint getDepth (n : FigmaNode.t) (currentDepth : nat) : nat :=
  match FigmaNode.children n with
  | None => currentDepth
  | Some [] => currentDepth
  | Some children =>
      max_list (map (fun child => getDepth child (S currentDepth)) children)
  end.

Definition validateComponent (node : FigmaNode.t) : Validation :=
  let warnings : list string := [] in
  let errors : list string := [] in
  let warnings :=
    if negb (existsb (fun kv => String.eqb (fst kv) (FigmaNode.type node))
                     NODE_TO_COMPONENT_MAP)
    then push warnings ("Unknown node type: " ++ FigmaNode.type node
                          ++ ", will be rendered as View")
    else warnings in
  let warnings :=
    match FigmaNode.children node with
    | Some children =>
        if (20 <? List.length children)%nat
        then push warnings ("Component has many children ("
                              ++ digits_of_nat (List.length children)
                              ++ "), consider breaking it down")
        else warnings
    | None => warnings
    end in
  let warnings :=
    if negb (defined (FigmaNode.width node)) || negb (defined (FigmaNode.height node))
    then push warnings "Component has undefined dimensions"
    else warnings in
  let warnings :=
    if negb (not_false (FigmaNode.visible node))
    then push warnings "Component is marked as invisible"
    else warnings in
  let depth := getDepth node 0 in
  let warnings :=
    if (10 <? depth)%nat
    then push warnings ("Component has deep nesting (" ++ digits_of_nat depth
                          ++ " levels), consider flattening")
    else warnings in
  mkValidation (List.length errors =? 0)%nat warnings errors.

End ComponentParser.

(* ================================================================= *)
(** ** The target style model ([ReactNativeStyleProperties]) *)

Inductive Prim :=
| PNum (x : number)
| PStr (s : string).

(** A style value: a number, a string, or a nested object such as
    [shadowOffset]. *)
Inductive StyleValue :=
| VNum (x : number)
| VStr (s : string)
| VObj (o : dict Prim).

Definition ReactNativeStyleProperties := dict StyleValue.

(** [JSON.stringify] of a style mapping. *)
Definition JSON_stringify_prim (v : Prim) : string :=
  match v with
  | PNum x => JSON_stringify_number x
  | PStr s => JSON_stringify_string s
  end.

Definition JSON_stringify_value (v : StyleValue) : string :=
  match v with
  | VNum x => JSON_stringify_number x
  | VStr s => JSON_stringify_string s
  | VObj o =>
      "{" ++ join "," (map (fun kv => JSON_stringify_string (fst kv) ++ ":"
                                        ++ JSON_stringify_prim (snd kv)) o) ++ "}"
  end.

Definition JSON_stringify_styles (styles : ReactNativeStyleProperties) : string :=
  "{" ++ join "," (map (fun kv => JSON_stringify_string (fst kv) ++ ":"
                                    ++ JSON_stringify_value (snd kv)) styles) ++ "}".

(* ================================================================= *)
(** ** [StyleParser] *)

Module StyleParser.

Definition colorToString (color : FigmaColor.t) : string :=
  let r := Math_round (FigmaColor.r color * 255)%float in
  let g := Math_round (FigmaColor.g color * 255)%float in
  let b := Math_round (FigmaColor.b color * 255)%float in
  let a := match FigmaColor.a color with Some a => a | None => 1%float end in
  if strict_eq a 1%float then
    "rgb(" ++ Number_toString r ++ ", " ++ Number_toString g ++ ", "
      ++ Number_toString b ++ ")"
  else
    "rgba(" ++ Number_toString r ++ ", " ++ Number_toString g ++ ", "
      ++ Number_toString b ++ ", " ++ Number_toString a ++ ")".

(** The predicate of [fills.find] in [fillToBackgroundColor]. *)
Definition isVisibleSolidFill (fill : FigmaFill.t) : bool :=
  not_false (FigmaFill.visible fill)
  && String.eqb (FigmaFill.type fill) "SOLID"
  && defined (FigmaFill.color fill).

Definition fillToBackgroundColor (fills : list FigmaFill.t) : option string :=
  match fills with
  | [] => None
  | _ =>
      match find isVisibleSolidFill fills with
      | Some solidFill =>
          match FigmaFill.color solidFill with
          | Some c =>
              let opacity :=
                match FigmaFill.opacity solidFill with Some o => o | None => 1%float end in
              let color :=
                FigmaColor.mk (FigmaColor.r c) (FigmaColor.g c) (FigmaColor.b c)
                  (Some match FigmaColor.a c with
                        | Some a => (a * opacity)%float
                        | None => opacity
                        end) in
              Some (colorToString color)
          | None => None
          end
      | None => None
      end
  end.

Definition weightMap : list (string * string) :=
  [ ("100", "100"); ("200", "200"); ("300", "300"); ("400", "normal");
    ("500", "500"); ("600", "600"); ("700", "bold"); ("800", "800");
    ("900", "900") ].

(** [if (v) style[k] = f(v)] for an optional string field. *)
Definition set_if_str (k : string) (v : option string) (f : string -> StyleValue)
  (style : ReactNativeStyleProperties) : ReactNativeStyleProperties :=
  match v with
  | Some s => if truthy_str s then dict_set style k (f s) else style
  | None => style
  end.

(** [if (v) style[k] = v] for an optional number field. *)
Definition set_if_num (k : string) (v : option number)
  (style : ReactNativeStyleProperties) : ReactNativeStyleProperties :=
  match v with
  | Some x => if truthy_num x then dict_set style k (VNum x) else style
  | None => style
  end.

(** [if (v !== undefined) style[k] = v]. *)
Definition set_if_defined (k : string) (v : option number)
  (style : ReactNativeStyleProperties) : ReactNativeStyleProperties :=
  match v with
  | Some x => dict_set style k (VNum x)
  | None => style
  end.

Definition textStyleToReactNative (textStyle : FigmaTextStyle.t)
  (fills : option (list FigmaFill.t)) : ReactNativeStyleProperties :=
  let style : ReactNativeStyleProperties := [] in
  let style := set_if_str "fontFamily" (Some (FigmaTextStyle.fontFamily textStyle)) VStr style in
  let style := set_if_num "fontSize" (Some (FigmaTextStyle.fontSize textStyle)) style in
  let style :=
    if truthy_num (FigmaTextStyle.fontWeight textStyle)
    then dict_set style "fontWeight"
           (VStr (lookup_or weightMap
                    (Number_toString (FigmaTextStyle.fontWeight textStyle)) "normal"))
    else style in
  let style :=
    set_if_str "textAlign" (FigmaTextStyle.textAlignHorizontal textStyle)
      (fun v => VStr (lookup_or [("LEFT", "left"); ("CENTER", "center");
                                 ("RIGHT", "right"); ("JUSTIFIED", "justify")] v "left"))
      style in
  let style :=
    set_if_str "textAlignVertical" (FigmaTextStyle.textAlignVertical textStyle)
      (fun v => VStr (lookup_or [("TOP", "top"); ("CENTER", "center");
                                 ("BOTTOM", "bottom")] v "auto"))
      style in
  let style := set_if_num "letterSpacing" (FigmaTextStyle.letterSpacing textStyle) style in
  let style := set_if_num "lineHeight" (FigmaTextStyle.lineHeightPx textStyle) style in
  let style :=
    set_if_str "textDecorationLine" (FigmaTextStyle.textDecoration textStyle)
      (fun v => VStr (lookup_or [("NONE", "none"); ("UNDERLINE", "underline");
                                 ("STRIKETHROUGH", "line-through")] v "none"))
      style in
  let style :=
    set_if_str "textTransform" (FigmaTextStyle.textCase textStyle)
      (fun v => VStr (lookup_or [("ORIGINAL", "none"); ("UPPER", "uppercase");
                                 ("LOWER", "lowercase"); ("TITLE", "capitalize")] v "none"))
      style in
  match fills with
  | Some (f :: fs) =>
      match fillToBackgroundColor (f :: fs) with
      | Some textColor =>
          if truthy_str textColor then dict_set style "color" (VStr textColor) else style
      | None => style
      end
  | _ => style
  end.

(** The border block of [nodeToStyles]: the stroke at index 0 decides. *)
Definition strokeToBorder (strokes : option (list FigmaStroke.t))
  (styles : ReactNativeStyleProperties) : ReactNativeStyleProperties :=
  match strokes with
  | Some (stroke :: _) =>
      match FigmaStroke.color stroke with
      | Some c =>
          let styles := dict_set styles "borderColor" (VStr (colorToString c)) in
          let styles := dict_set styles "borderWidth" (VNum 1%float) in
          dict_set styles "borderStyle" (VStr "solid")
      | None => styles
      end
  | _ => styles
  end.

(** The auto-layout block of [nodeToStyles]. *)
Definition layoutToFlex (node : FigmaNode.t)
  (styles : ReactNativeStyleProperties) : ReactNativeStyleProperties :=
  match FigmaNode.layoutMode node with
  | Some mode =>
      if truthy_str mode then
        let styles :=
          if String.eqb mode "HORIZONTAL" then dict_set styles "flexDirection" (VStr "row")
          else if String.eqb mode "VERTICAL" then dict_set styles "flexDirection" (VStr "column")
          else styles in
        let styles := set_if_defined "paddingLeft" (FigmaNode.paddingLeft node) styles in
        let styles := set_if_defined "paddingRight" (FigmaNode.paddingRight node) styles in
        let styles := set_if_defined "paddingTop" (FigmaNode.paddingTop node) styles in
        let styles := set_if_defined "paddingBottom" (FigmaNode.paddingBottom node) styles in
        let styles := set_if_defined "itemSpacing" (FigmaNode.itemSpacing node) styles in
        let styles :=
          set_if_str "justifyContent" (FigmaNode.primaryAxisAlignItems node)
            (fun v => VStr (lookup_or [("MIN", "flex-start"); ("CENTER", "center");
                                       ("MAX", "flex-end");
                                       ("SPACE_BETWEEN", "space-between")] v "flex-start"))
            styles in
        set_if_str "alignItems" (FigmaNode.counterAxisAlignItems node)
          (fun v => VStr (lookup_or [("MIN", "flex-start"); ("CENTER", "center");
                                     ("MAX", "flex-end")] v "flex-start"))
          styles
      else styles
  | None => styles
  end.

(** [x || d] for an optional number. *)
Definition num_or (x : option number) (d : number) : number :=
  match x with
  | Some v => if truthy_num v then v else d
  | None => d
  end.

(** The shadow block of [nodeToStyles]. *)
Definition effectsToShadow (effects : option (list FigmaEffect.t))
  (styles : ReactNativeStyleProperties) : ReactNativeStyleProperties :=
  match effects with
  | Some (e :: es) =>
      match find (fun effect => String.eqb (FigmaEffect.type effect) "DROP_SHADOW"
                                && not_false (FigmaEffect.visible effect)) (e :: es) with
      | Some shadowEffect =>
          let styles :=
            match FigmaEffect.color shadowEffect with
            | Some c => dict_set styles "shadowColor" (VStr (colorToString c))
            | None => styles
            end in
          let styles :=
            match FigmaEffect.offset shadowEffect with
            | Some off =>
                dict_set styles "shadowOffset"
                  (VObj [("width", PNum (FigmaVector.x off));
                         ("height", PNum (FigmaVector.y off))])
            | None => styles
            end in
          let styles := set_if_defined "shadowRadius" (FigmaEffect.radius shadowEffect) styles in
          let styles :=
            dict_set styles "shadowOpacity"
              (VNum (num_or match FigmaEffect.color shadowEffect with
                            | Some c => FigmaColor.a c
                            | None => None
                            end 0x1.3333333333333p-2%float)) in
          dict_set styles "elevation" (VNum (num_or (FigmaEffect.radius shadowEffect) 3%float))
      | None => styles
      end
  | _ => styles
  end.

Definition nodeToStyles (node : FigmaNode.t) : ReactNativeStyleProperties :=
  let styles : ReactNativeStyleProperties := [] in
  let styles := set_if_defined "left" (FigmaNode.x node) styles in
  let styles := set_if_defined "top" (FigmaNode.y node) styles in
  let styles := set_if_defined "width" (FigmaNode.width node) styles in
  let styles := set_if_defined "height" (FigmaNode.height node) styles in
  let styles :=
    match FigmaNode.fills node with
    | Some fills =>
        match fillToBackgroundColor fills with
        | Some backgroundColor =>
            if truthy_str backgroundColor
            then dict_set styles "backgroundColor" (VStr backgroundColor) else styles
        | None => styles
        end
    | None => styles
    end in
  let styles := set_if_defined "borderRadius" (FigmaNode.cornerRadius node) styles in
  let styles := strokeToBorder (FigmaNode.strokes node) styles in
  let styles :=
    match FigmaNode.opacity node with
    | Some o => if negb (strict_eq o 1%float) then dict_set styles "opacity" (VNum o) else styles
    | None => styles
    end in
  let styles := layoutToFlex node styles in
  let styles :=
    match FigmaNode.style node with
    | Some textStyle =>
        dict_assign styles (textStyleToReactNative textStyle (FigmaNode.fills node))
    | None => styles
    end in
  effectsToShadow (FigmaNode.effects node) styles.

(** [s.slice(2)]. *)
Definition slice2 (s : string) : string := slice1 (slice1 s).

Definition stylesToString (styles : ReactNativeStyleProperties) (indentLevel : nat) : string :=
  let indent := repeat_string "  " indentLevel in
  match styles with
  | [] => "{}"
  | _ =>
      let styleStrings :=
        map (fun kv =>
               let valueStr :=
                 match snd kv with
                 | VStr value => "'" ++ value ++ "'"
                 | VObj value =>
                     "{ " ++ join ", "
                       (map (fun nkv =>
                               fst nkv ++ ": "
                                 ++ match snd nkv with
                                    | PStr s => "'" ++ s ++ "'"
                                    | PNum x => Number_toString x
                                    end) value) ++ " }"
                 | VNum value => Number_toString value
                 end in
               indent ++ fst kv ++ ": " ++ valueStr) styles in
      "{" ++ nl ++ join ("," ++ nl) styleStrings ++ nl ++ slice2 indent ++ "}"
  end.

(** [if (optimized[k] === v) delete optimized[k]]. *)
Definition delete_if_eq (k : string) (v : number)
  (optimized : ReactNativeStyleProperties) : ReactNativeStyleProperties :=
  match dict_get optimized k with
  | Some (VNum x) => if strict_eq x v then dict_delete optimized k else optimized
  | _ => optimized
  end.

Definition optimizeStyles (styles : ReactNativeStyleProperties) : ReactNativeStyleProperties :=
  let optimized := styles in
  let optimized := delete_if_eq "opacity" 1%float optimized in
  let optimized := delete_if_eq "borderWidth" 0%float optimized in
  let optimized := delete_if_eq "borderRadius" 0%float optimized in
  let optimized := delete_if_eq "padding" 0%float optimized in
  let optimized := delete_if_eq "margin" 0%float optimized in
  let optimized := delete_if_eq "flex" 0%float optimized in
  optimized.

(** [mergeStyles(...styles)]: [Object.assign({}, ...styles)]. *)
Definition mergeStyles (styles : list ReactNativeStyleProperties)
  : ReactNativeStyleProperties :=
  fold_left dict_assign styles [].


End StyleParser.

(* ================================================================= *)
(** ** [ReactNativeGenerator] *)

Module ReactNativeGenerator.

Import ComponentParser StyleParser.

(** [GenerationOptions] as the caller passes them; [outputPath] and
    [componentName] are not read by the generator. *)
Record GenerationOptions := mkGenerationOptions {
  opt_includeTypes : option bool;
  opt_useStyleSheet : option bool;
  opt_generateTests : option bool;
  opt_formatCode : option bool
}.

(** [this.options] once the constructor has spread the caller's options over
    the defaults; [None] in [GenerationOptions] is an option the caller
    left out (an option passed as an explicit [undefined] is not
    represented). *)
Module Options.
Record t := mk {
  includeTypes : bool;
  useStyleSheet : bool;
  generateTests : bool;
  formatCode : bool
}.
End Options.

(** The generator object: its three private fields. *)
Record Generator := mkGenerator {
  options : Options.t;
  generatedStyles : dict ReactNativeStyleProperties;
  componentCounter : nat
}.

Definition or_default (v : option bool) (d : bool) : bool :=
  match v with Some b => b | None => d end.

Definition constructor (o : GenerationOptions) : Generator :=
  mkGenerator
    (Options.mk (or_default (opt_includeTypes o) true)
               (or_default (opt_useStyleSheet o) true)
               (or_default (opt_generateTests o) false)
               (or_default (opt_formatCode o) true))
    [] 0.

Record ReactNativeComponentSpec := mkSpec {
  name : string;
  imports : list string;
  interfaces : list string;
  component : string;
  styles : string;
  exports : list string
}.

Record GenerationError := mkGenerationError {
  message : string;
  errorComponentName : option string
}.

(** The outcome of a method that may throw. *)
Inductive Result (A : Type) :=
| Ok (value : A)
| Throw (error : GenerationError).
Arguments Ok {A} value.
Arguments Throw {A} error.

Definition with_styles (this : Generator) (s : dict ReactNativeStyleProperties) : Generator :=
  mkGenerator (options this) s (componentCounter this).

(** *** [generateImports] *)

Definition generateImports (this : Generator) (analysis : Analysis) : list string :=
  let rnComponents := ["View"] in
  let rnComponents := if hasText analysis then push rnComponents "Text" else rnComponents in
  let rnComponents :=
    if Options.useStyleSheet (options this) then push rnComponents "StyleSheet" else rnComponents in
  let rnComponents :=
    if Options.includeTypes (options this) then
      let rnComponents := push rnComponents "ViewStyle" in
      if hasText analysis then push rnComponents "TextStyle" else rnComponents
    else rnComponents in
  [ "import React from 'react';";
    "import { " ++ join ", " (sort_strings rnComponents) ++ " } from 'react-native';" ].

(** *** [generateStyleForNode] *)

(** The [while (this.generatedStyles.has(styleName))] loop; [fuel] bounds the
    number of turns ([styleNameFor_spec] shows the bound given by the caller
    is never reached: the loop ends on a free name). *)
Fixpoint uniqueStyleName (registry : dict ReactNativeStyleProperties)
  (baseStyleName styleName : string) (counter fuel : nat) : string :=
  match fuel with
  | O => styleName
  | S fuel' =>
      if dict_has registry styleName
      then uniqueStyleName registry baseStyleName
             (baseStyleName ++ digits_of_nat counter) (S counter) fuel'
      else styleName
  end.

(** The base name and the registry key [generateStyleForNode] settles on. *)
Definition baseStyleNameOf (node : FigmaNode.t) (isRoot : bool) : string :=
  if isRoot then "container" else generateStyleName (FigmaNode.name node).

Definition styleNameFor (this : Generator) (node : FigmaNode.t) (isRoot : bool) : string :=
  let baseStyleName := baseStyleNameOf node isRoot in
  uniqueStyleName (generatedStyles this) baseStyleName baseStyleName 1
    (S (List.length (generatedStyles this))).

(** The style properties [generateStyleForNode] stores. *)
Definition stylePropsFor (node : FigmaNode.t) (isRoot : bool) : ReactNativeStyleProperties :=
  let styleProps := nodeToStyles node in
  let styleProps :=
    if isRoot then
      let styleProps := dict_set styleProps "alignSelf" (VStr "stretch") in
      dict_delete (dict_delete styleProps "left") "top"
    else if truthy_ostr (FigmaNode.layoutMode node) then
      dict_delete (dict_delete styleProps "left") "top"
    else styleProps in
  let styleProps :=
    match dict_get styleProps "itemSpacing" with
    | Some (VNum spacing) =>
        if truthy_ostr (FigmaNode.layoutMode node) && truthy_num spacing then
          let styleProps := dict_delete styleProps "itemSpacing" in
          if match FigmaNode.layoutMode node with
             | Some mode => String.eqb mode "HORIZONTAL"
             | None => false
             end
          then dict_set styleProps "marginRight" (VNum spacing)
          else dict_set styleProps "marginBottom" (VNum spacing)
        else styleProps
    | _ => styleProps
    end in
  optimizeStyles styleProps.

Definition generateStyleForNode (this : Generator) (node : FigmaNode.t) (isRoot : bool)
  : string * Generator :=
  let styleName := styleNameFor this node isRoot in
  let styleProps := stylePropsFor node isRoot in
  (styleName, with_styles this (dict_set (generatedStyles this) styleName styleProps)).

(** *** [generateNodeJSX] and [generateChildrenJSX] *)

(** [styles.<name>] under a style sheet, else the inline literal
    [{JSON.stringify(this.generatedStyles.get(name))}]. *)
Definition plainStyleReference (this : Generator) (styleName : string) : string :=
  if Options.useStyleSheet (options this) then "styles." ++ styleName
  else "{" ++ match dict_get (generatedStyles this) styleName with
              | Some s => JSON_stringify_styles s
              | None => "undefined"
              end ++ "}".

(** The [styleReference] of the container branch. *)
Definition containerStyleReference (this : Generator) (isRoot : bool) (styleName : string)
  : string :=
  if isRoot && Options.includeTypes (options this)
  then "[" ++ plainStyleReference this styleName ++ ", style]"
  else plainStyleReference this styleName.

Definition indentOf (depth : nat) : string := repeat_string "    " (depth + 1).

Definition textJSX (indent styleReference textContent : string) : string :=
  indent ++ "<Text style={" ++ styleReference ++ "}>" ++ nl
    ++ indent ++ "  {" ++ JSON_stringify_string textContent ++ "}" ++ nl
    ++ indent ++ "</Text>".

Definition imageJSX (indent styleReference : string) : string :=
  indent ++ "<View style={" ++ styleReference ++ "}>" ++ nl
    ++ indent ++ "  {/* TODO: Replace with Image component for vector graphics */}" ++ nl
    ++ indent ++ "</View>".

Definition containerJSX (indent componentType styleReference childrenJSX : string) : string :=
  if truthy_str (trim childrenJSX) then
    indent ++ "<" ++ componentType ++ " style={" ++ styleReference ++ "}>" ++ nl
      ++ childrenJSX ++ nl
      ++ indent ++ "</" ++ componentType ++ ">"
  else
    indent ++ "<" ++ componentType ++ " style={" ++ styleReference ++ "} />".

(** [.filter(jsx => jsx.trim() !== '').join('\n')] *)
Definition joinNonBlank (jsxs : list string) : string :=
  join nl (filter (fun jsx => negb (String.eqb (trim jsx) "")) jsxs).

(** [l.map(f)] for a callback that updates the generator: the calls run in
    the order of [l], each on the generator the previous one left. *)
Section MapThreaded.
Variable f : Generator -> FigmaNode.t -> string * Generator.

Fixpoint mapThreaded (this : Generator) (l : list FigmaNode.t)
  : list string * Generator :=
  match l with
  | [] => ([], this)
  | child :: rest =>
      let '(jsx, this) := f this child in
      let '(more, this) := mapThreaded this rest in
      (jsx :: more, this)
  end.

(** [l.filter(shouldRenderNode).map(f)], the filter fused into the walk
    ([mapRendered_filter] states the equation). *)
Fixpoint mapRendered (this : Generator) (l : list FigmaNode.t)
  : list string * Generator :=
  match l with
  | [] => ([], this)
  | child :: rest =>
      if shouldRenderNode child then
        let '(jsx, this) := f this child in
        let '(more, this) := mapRendered this rest in
        (jsx :: more, this)
      else mapRendered this rest
  end.
End MapThreaded.

(** [generateNodeJSX] and [generateChildrenJSX] call each other down the
    tree.  The recursion is on the node, with the body of
    [generateChildrenJSX] written in place; [generateChildrenJSX] is stated
    below and [generateNodeJSX_unfold] gives the source's form. *)
Fixpoint generateNodeJSX (this : Generator) (node : FigmaNode.t) (depth : nat)
  (isRoot : bool) {struct node} : string * Generator :=
  let indent := indentOf depth in
  if negb (shouldRenderNode node) then ("", this)
  else
    let componentType := getComponentType node in
    let '(styleName, this) := generateStyleForNode this node isRoot in
    if String.eqb (FigmaNode.type node) "TEXT" then
      (textJSX indent (plainStyleReference this styleName) (extractTextContent node), this)
    else if shouldRenderAsImage node then
      (imageJSX indent (plainStyleReference this styleName), this)
    else
      let '(childrenJSX, this) :=
        match FigmaNode.children node with
        | None => ("", this)
        | Some [] => ("", this)
        | Some children =>
            let '(jsxs, this) :=
              mapRendered
                (fun this child => generateNodeJSX this child (depth + 1) false)
                this children in
            (joinNonBlank jsxs, this)
        end in
      (containerJSX indent componentType
         (containerStyleReference this isRoot styleName) childrenJSX, this).

Definition generateChildrenJSX (this : Generator) (node : FigmaNode.t) (depth : nat)
  : string * Generator :=
  match FigmaNode.children node with
  | None => ("", this)
  | Some [] => ("", this)
  | Some children =>
      let '(jsxs, this) :=
        mapThreaded (fun this child => generateNodeJSX this child depth false)
          this (filter shouldRenderNode children) in
      (joinNonBlank jsxs, this)
  end.

(** *** [generateComponentJSX], [generateStyles], [generateComponent] *)

Definition generateComponentJSX (this : Generator) (node : FigmaNode.t)
  (componentName : string) (analysis : Analysis) : string * Generator :=
  let propsType :=
    if Options.includeTypes (options this) then ": React.FC<" ++ componentName ++ "Props>" else "" in
  let props := if Options.includeTypes (options this) then "{ style, ...props }" else "props" in
  let '(componentBody, this) := generateNodeJSX this node 0 true in
  ("const " ++ componentName ++ propsType ++ " = (" ++ props ++ ") => {" ++ nl
     ++ "  return (" ++ nl ++ componentBody ++ nl ++ "  );" ++ nl
     ++ "};", this).

Definition generateStyles (this : Generator) : string :=
  match generatedStyles this with
  | [] => ""
  | entries =>
      if negb (Options.useStyleSheet (options this)) then ""
      else
        let styleEntries :=
          join ("," ++ nl)
            (map (fun entry => "  " ++ fst entry ++ ": " ++ stylesToString (snd entry) 2)
                 entries) in
        "const styles = StyleSheet.create({" ++ nl ++ styleEntries ++ nl ++ "});"
  end.

(** The body of [generateComponent] from the test of the validation result
    on.  The only [throw] the embedded code can reach is the one on an
    invalid result; the [catch] re-throws it unchanged. *)
Definition generateValidated (this : Generator) (node : FigmaNode.t)
  (finalComponentName : string) (analysis : Analysis) (validation : Validation)
  : Result ReactNativeComponentSpec * Generator :=
  if negb (isValid validation) then
    (Throw (mkGenerationError
              ("Component validation failed: " ++ join ", " (errors validation))
              (Some finalComponentName)), this)
  else
    let imports := generateImports this analysis in
    let interfaces :=
      if Options.includeTypes (options this)
      then [generatePropsInterface finalComponentName analysis] else [] in
    let '(componentJSX, this) := generateComponentJSX this node finalComponentName analysis in
    let styles := generateStyles this in
    let exports := ["export default " ++ finalComponentName ++ ";"] in
    (Ok (mkSpec finalComponentName imports interfaces componentJSX styles exports), this).

Definition generateComponent (this : Generator) (node : FigmaNode.t)
  (componentName : option string) : Result ReactNativeComponentSpec * Generator :=
  let this := mkGenerator (options this) [] 0 in
  let finalComponentName :=
    match componentName with
    | Some n => if truthy_str n then n else generateComponentName (FigmaNode.name node)
    | None => generateComponentName (FigmaNode.name node)
    end in
  let analysis := analyzeComponent node in
  let validation := validateComponent node in
  generateValidated this node finalComponentName analysis validation.

(** *** [generateFileContent] and [formatCode] *)

(** [code.replace(/\n\n\n+/g, '\n\n')]: of a run of line feeds the first two
    are kept; [k] counts the line feeds just passed. *)
Fixpoint collapseBlankLines (k : nat) (code : string) : string :=
  match code with
  | EmptyString => EmptyString
  | String c rest =>
      if Ascii.eqb c LF then
        if (k <? 2)%nat then String c (collapseBlankLines (S k) rest)
        else collapseBlankLines k rest
      else String c (collapseBlankLines 0 rest)
  end.

(** Does the run of white space at the head of [s] hold a line feed? *)
Fixpoint blankRunHasLF (s : string) : bool :=
  match s with
  | EmptyString => false
  | String c rest => isWhiteSpace c && (Ascii.eqb c LF || blankRunHasLF rest)
  end.

(** [code.replace(/^\s*\n/gm, '\n')]: from the start of a line, a run of
    white space up to its last line feed becomes one line feed. *)
Fixpoint stripBlankLineStarts (atLineStart : bool) (code : string) : string :=
  match code with
  | EmptyString => EmptyString
  | String c rest =>
      if atLineStart && blankRunHasLF code then
        if blankRunHasLF rest then stripBlankLineStarts true rest
        else String LF (stripBlankLineStarts true rest)
      else String c (stripBlankLineStarts (isLineTerminator c) rest)
  end.

Definition formatCode (code : string) : string :=
  trim (stripBlankLineStarts true (collapseBlankLines 0 code)) ++ nl.

Definition generateFileContent (this : Generator) (componentSpec : ReactNativeComponentSpec)
  : string * Generator :=
  let sections :=
    ([ join nl (imports componentSpec); "" ]
       ++ (if (0 <? List.length (interfaces componentSpec))%nat
           then [ join (nl ++ nl) (interfaces componentSpec); "" ] else [])
       ++ [ component componentSpec; "" ]
       ++ (if truthy_str (styles componentSpec) then [ styles componentSpec; "" ] else [])
       ++ [ join nl (exports componentSpec) ])%list in
  let content := join nl (filter (fun section => negb (String.eqb section "")) sections) in
  let content := if Options.formatCode (options this) then formatCode content else content in
  (content, this).

(** *** [getStats] *)

Record Stats := mkStats {
  stylesGenerated : nat;
  componentsGenerated : nat;
  linesOfCode : nat
}.

Definition getStats (this : Generator) : Stats :=
  mkStats (List.length (generatedStyles this)) (componentCounter this) 0.


End ReactNativeGenerator.

(* ================================================================= *)
(** ** [ComponentParser.extractColors]

    It comes after [StyleParser], whose [colorToString] it calls. *)

Module ComponentParserColors.
Import StyleParser.

(** [colors.add(c)] on a [Set], kept in insertion order. *)
Definition set_add (colors : list string) (c : string) : list string :=
  if existsb (String.eqb c) colors then colors else push colors c.

(** The closure [extractFromNode] of [extractColors]; [colors] is the set
    the closure fills. *)
Fixpoint extractFromNode (n : FigmaNode.t) (colors : list string) : list string :=
  let colors :=
    match FigmaNode.fills n with
    | Some fills =>
        fold_left (fun colors fill =>
                     match FigmaFill.color fill with
                     | Some c =>
                         if String.eqb (FigmaFill.type fill) "SOLID"
                            && not_false (FigmaFill.visible fill)
                         then set_add colors (colorToString c) else colors
                     | None => colors
                     end) fills colors
    | None => colors
    end in
  let colors :=
    match FigmaNode.strokes n with
    | Some strokes =>
        fold_left (fun colors stroke =>
                     match FigmaStroke.color stroke with
                     | Some c =>
                         if String.eqb (FigmaStroke.type stroke) "SOLID"
                            && not_false (FigmaStroke.visible stroke)
                         then set_add colors (colorToString c) else colors
                     | None => colors
                     end) strokes colors
    | None => colors
    end in
  let colors :=
    match FigmaNode.effects n with
    | Some effects =>
        fold_left (fun colors effect =>
                     match FigmaEffect.color effect with
                     | Some c =>
                         if not_false (FigmaEffect.visible effect)
                         then set_add colors (colorToString c) else colors
                     | None => colors
                     end) effects colors
    | None => colors
    end in
  match FigmaNode.children n with
  | Some children =>
      fold_left (fun colors child => extractFromNode child colors) children colors
  | None => colors
  end.

Definition extractColors (node : FigmaNode.t) : list string := extractFromNode node [].

End ComponentParserColors.

(* ================================================================= *)
(** ** The class [StringUtils] *)

(** Every character of [s] passes [p]. *)
Fixpoint every (p : ascii -> bool) (s : string) : bool :=
  match s with
  | EmptyString => true
  | String c r => p c && every p r
  end.

Module StringUtils.

(** [s.replace(/[^a-zA-Z0-9\s]/g, ' ')]. *)
Definition blank_non_alnum_ws (s : string) : string :=
  string_map
    (fun c => if isUpperAZ c || isLowerAZ c || isDigit09 c || isWhiteSpace c
              then c else " "%char) s.

(** [s.split(/\s+/).filter(word => word.length > 0)]. *)
Definition words (s : string) : list string :=
  filter (fun word => (0 <? String.length word)%nat) (split_ws s).

Definition toPascalCase (str : string) : string :=
  join ""
    (map (fun word => toUpperCase (charAt0 word) ++ toLowerCase (slice1 word))
       (words (blank_non_alnum_ws str))).

Definition toCamelCase (str : string) : string :=
  let pascalCase := toPascalCase str in
  toLowerCase (charAt0 pascalCase) ++ slice1 pascalCase.

(** [/^[0-9]/.test(s)]. *)
Definition starts_digit (s : string) : bool :=
  match s with EmptyString => false | String c _ => isDigit09 c end.

Definition sanitizeIdentifier (str : string) : string :=
  let identifier := trim (blank_non_alnum_ws str) in
  let identifier := toCamelCase identifier in
  let identifier :=
    if starts_digit identifier then "component" ++ toPascalCase identifier
    else identifier in
  if (String.length identifier =? 0)%nat then "component" else identifier.

(** [s.endsWith(suffix)]. *)
Definition endsWith (s suffix : string) : bool :=
  (String.length suffix <=? String.length s)%nat
  && String.eqb (substring (String.length s - String.length suffix)
                   (String.length suffix) s) suffix.

(** [s.slice(0, -k)] for a positive [k]. *)
Definition dropEnd (s : string) (k : nat) : string :=
  substring 0 (String.length s - k) s.

Definition pluralize (word : string) : string :=
  if endsWith word "y" then dropEnd word 1 ++ "ies"
  else if endsWith word "s" || endsWith word "sh" || endsWith word "ch"
          || endsWith word "x" || endsWith word "z"
  then word ++ "es"
  else word ++ "s".

Definition singularize (word : string) : string :=
  if endsWith word "ies" then dropEnd word 3 ++ "y"
  else if endsWith word "es" then dropEnd word 2
  else if endsWith word "s" && negb (endsWith word "ss") then dropEnd word 1
  else word.

(** [/^[a-zA-Z_$][a-zA-Z0-9_$]*$/.test(str)]. *)
Definition isValidIdentifier (str : string) : bool :=
  match str with
  | EmptyString => false
  | String c r =>
      (isLowerAZ c || isUpperAZ c || Ascii.eqb c "_" || Ascii.eqb c "$")
      && every (fun c => isLowerAZ c || isUpperAZ c || isDigit09 c
                         || Ascii.eqb c "_" || Ascii.eqb c "$") r
  end.

End StringUtils.

(* ================================================================= *)
(** ** The class [FigmaUtils] *)

Module FigmaUtils.

Import StringUtils.

(** [nodeId.replace(/[-:]/g, ':')] *)
Definition normalizeNodeId (nodeId : string) : string :=
  string_map (fun c => if Ascii.eqb c "-" || Ascii.eqb c ":" then ":"%char else c) nodeId.

(** [nodeId.replace(/:/g, '-')] *)
Definition formatNodeIdForUrl (nodeId : string) : string :=
  string_map (fun c => if Ascii.eqb c ":" then "-"%char else c) nodeId.




End FigmaUtils.

(* ================================================================= *)
(** ** The style utilities *)

Module StyleUtils.

(** [figmaColorToRN]; a color without [a] fails the test [a < 1]. *)
Definition figmaColorToRN (color : FigmaColor.t) : string :=
  let r := Math_round (FigmaColor.r color * 255)%float in
  let g := Math_round (FigmaColor.g color * 255)%float in
  let b := Math_round (FigmaColor.b color * 255)%float in
  match FigmaColor.a color with
  | Some a =>
      if PrimFloat.ltb a 1%float then
        "rgba(" ++ Number_toString r ++ ", " ++ Number_toString g ++ ", "
          ++ Number_toString b ++ ", " ++ Number_toString a ++ ")"
      else
        "rgb(" ++ Number_toString r ++ ", " ++ Number_toString g ++ ", "
          ++ Number_toString b ++ ")"
  | None =>
      "rgb(" ++ Number_toString r ++ ", " ++ Number_toString g ++ ", "
        ++ Number_toString b ++ ")"
  end.

End StyleUtils.

(* ================================================================= *)
(** ** The specification's own wording of two rules

    Used to compare the code with the rule as the specification states it. *)

Module Spec.

(** [rgb(R, G, B)] when the alpha is exactly 1, [rgba(R, G, B, A)]
    otherwise. *)
Definition colorText (R G B A : number) : string :=
  if strict_eq A 1%float then
    "rgb(" ++ Number_toString R ++ ", " ++ Number_toString G ++ ", "
      ++ Number_toString B ++ ")"
  else
    "rgba(" ++ Number_toString R ++ ", " ++ Number_toString G ++ ", "
      ++ Number_toString B ++ ", " ++ Number_toString A ++ ")".

(** [round(channel * 255)]. *)
Definition channel (c : number) : number := Math_round (c * 255)%float.

Definition default_one (v : option number) : number :=
  match v with Some x => x | None => 1%float end.

(** The color's own alpha (default 1) times the fill-level opacity
    (default 1). *)
Definition finalAlpha (c : FigmaColor.t) (fill : FigmaFill.t) : number :=
  (default_one (FigmaColor.a c) * default_one (FigmaFill.opacity fill))%float.

Definition fillColorText (fill : FigmaFill.t) : option string :=
  match FigmaFill.color fill with
  | Some c =>
      Some (colorText (channel (FigmaColor.r c)) (channel (FigmaColor.g c))
              (channel (FigmaColor.b c)) (finalAlpha c fill))
  | None => None
  end.

(** A fill whose type is solid and that is not explicitly hidden. *)
Definition solidNotHidden (fill : FigmaFill.t) : bool :=
  String.eqb (FigmaFill.type fill) "SOLID" && not_false (FigmaFill.visible fill).

(** Background-color resolution as worded: the first solid, not hidden
    fill decides. *)
Definition backgroundColor (fills : list FigmaFill.t) : option string :=
  match find solidNotHidden fills with
  | Some fill => fillColorText fill
  | None => None
  end.

(** Layout classification as worded: [flex] with an auto-layout block,
    else [mixed] exactly when more than one child is positioned, there are
    more than three children in total and some child carries x and y, else
    [absolute]. *)
Definition layoutClassification (node : FigmaNode.t) : ComponentParser.LayoutType :=
  if truthy_ostr (FigmaNode.layoutMode node) then ComponentParser.flex
  else
    match FigmaNode.children node with
    | Some children =>
        if (1 <? List.length (filter ComponentParser.has_xy children))%nat
           && (3 <? List.length children)%nat
           && existsb ComponentParser.has_xy children
        then ComponentParser.mixed else ComponentParser.absolute
    | None => ComponentParser.absolute
    end.

End Spec.

(* ================================================================= *)
(** ** Concrete inputs used below *)

Module Examples.

(** A solid fill that carries no color, and a solid red one. *)
Definition colourlessSolid : FigmaFill.t := FigmaFill.mk "SOLID" None None None.
Definition redSolid : FigmaFill.t :=
  FigmaFill.mk "SOLID" (Some (FigmaColor.mk 1%float 0%float 0%float None)) None None.

(** A node with the given name, type tag, position (used for both [x] and
    [y]), visibility, fills, strokes, characters and children; every other
    optional field is absent. *)
Definition node (name type : string) (pos : option number) (visible : option bool)
  (fills : option (list FigmaFill.t)) (strokes : option (list FigmaStroke.t))
  (characters : option string) (children : option (list FigmaNode.t)) : FigmaNode.t :=
  FigmaNode.mk "0:0" name type pos pos None None children fills strokes None None
    characters None visible None None None None None None None None None.

(** A visible, filled rectangle and a hidden one, both positioned. *)
Definition shownBox (name : string) : FigmaNode.t :=
  node name "RECTANGLE" (Some 0%float) None (Some [redSolid]) None None None.
Definition hiddenBox (name : string) : FigmaNode.t :=
  node name "RECTANGLE" (Some 0%float) (Some false) (Some [redSolid]) None None None.

(** A frame without auto-layout whose four children all carry x and y, two
    of them hidden. *)
Definition fourPositionedTwoShown : FigmaNode.t :=
  node "Card" "FRAME" None None None None None
    (Some [shownBox "A"; hiddenBox "B"; shownBox "C"; hiddenBox "D"]).

(** A root marked invisible, with nothing under it. *)
Definition hiddenRoot : FigmaNode.t :=
  node "Ghost" "FRAME" None (Some false) None None None None.

(** A rectangle with a red fill whose only stroke is solid blue and
    hidden. *)
Definition hiddenStroke : FigmaStroke.t :=
  FigmaStroke.mk "SOLID" (Some (FigmaColor.mk 0%float 0%float 1%float None)) None
    (Some false).
Definition hiddenStrokeBox : FigmaNode.t :=
  node "Box" "RECTANGLE" None None (Some [redSolid]) (Some [hiddenStroke]) None None.

(** A generator with the default options, and one without type
    declarations. *)
Definition defaultGenerator : ReactNativeGenerator.Generator :=
  ReactNativeGenerator.constructor
    (ReactNativeGenerator.mkGenerationOptions None None None None).
Definition untypedGenerator : ReactNativeGenerator.Generator :=
  ReactNativeGenerator.constructor
    (ReactNativeGenerator.mkGenerationOptions (Some false) None None None).

(** A filled frame without children. *)
Definition card : FigmaNode.t :=
  node "Card" "FRAME" None None (Some [redSolid]) None None None.

(** A root with two children both named Icon. *)
Definition twoIcons : FigmaNode.t :=
  node "Toolbar" "FRAME" None None None None None
    (Some [shownBox "Icon"; shownBox "Icon"]).

(** A root with children named Icon, Icon, Icon1, Icon1. *)
Definition iconClash : FigmaNode.t :=
  node "Toolbar" "FRAME" None None None None None
    (Some [shownBox "Icon"; shownBox "Icon"; shownBox "Icon1"; shownBox "Icon1"]).


(** A text node at the root: red fill, a text style, no children. *)
Definition redLabel : FigmaNode.t :=
  FigmaNode.mk "1:2" "Title" "TEXT" None None None None None (Some [redSolid]) None
    (Some (FigmaTextStyle.mk "Inter" 16%float 400%float None None None None None None))
    None (Some "Hello") None None None None None None None None None None None.


End Examples.

(* ================================================================= *)
(** ** Vocabulary of the statements *)

(** The entry of the style mapping under [k], if any, is not the number
    [v]. *)
Definition keeps (s : ReactNativeStyleProperties) (k : string) (v : number) : Prop :=
  match dict_get s k with
  | Some (VNum x) => strict_eq x v = false
  | _ => True
  end.

(** The [k]-th name the uniqueness loop of [generateStyleForNode] tries for
    a base name: the base name itself, then the base name followed by 1, 2,
    3, ... *)
Definition candidate (base : string) (k : nat) : string :=
  match k with O => base | S _ => base ++ digits_of_nat k end.

(** The base style name of a registration, that is of a node and the
    [isRoot] flag it is registered with. *)
Definition baseOf (r : FigmaNode.t * bool) : string :=
  ReactNativeGenerator.baseStyleNameOf (fst r) (snd r).

(** [generateStyleForNode] called on each registration in turn: the keys
    handed out and the generator left. *)
Fixpoint registerAll (this : ReactNativeGenerator.Generator)
  (regs : list (FigmaNode.t * bool)) : list string * ReactNativeGenerator.Generator :=
  match regs with
  | [] => ([], this)
  | (node, isRoot) :: rest =>
      let '(key, this) := ReactNativeGenerator.generateStyleForNode this node isRoot in
      let '(keys, this) := registerAll this rest in
      (key :: keys, this)
  end.

(** The registrations [generateNodeJSX] makes on a node, in order: the node
    itself when it renders, then (for a container) those of its children,
    left to right. *)
Fixpoint renderOrder (node : FigmaNode.t) (isRoot : bool) : list (FigmaNode.t * bool) :=
  if negb (ComponentParser.shouldRenderNode node) then []
  else
    (node, isRoot)
      :: (if String.eqb (FigmaNode.type node) "TEXT" then []
          else if ComponentParser.shouldRenderAsImage node then []
          else match FigmaNode.children node with
               | Some children => flat_map (fun child => renderOrder child false) children
               | None => []
               end).

(** The number of nodes of a tree. *)
Fixpoint node_size (node : FigmaNode.t) : nat :=
  S (match FigmaNode.children node with
     | Some children => list_sum (map node_size children)
     | None => 0
     end).

(** Markup that starts with its indentation and an opening angle bracket. *)
Definition startsWithTag (s : string) : Prop :=
  exists depth rest, s = ReactNativeGenerator.indentOf depth ++ String "<" rest.

(** The reference to the style a node is registered with from generator
    [this]: [styles.<key>] under a style sheet, else the inline literal of
    the stored mapping. *)
Definition registeredStyleReference (this : ReactNativeGenerator.Generator)
  (node : FigmaNode.t) (isRoot : bool) : string :=
  if ReactNativeGenerator.Options.useStyleSheet (ReactNativeGenerator.options this)
  then "styles." ++ ReactNativeGenerator.styleNameFor this node isRoot
  else "{" ++ JSON_stringify_styles (ReactNativeGenerator.stylePropsFor node isRoot) ++ "}".

(** *** Trees *)

(** [d] is [n] or lies under it, and neither [d] nor a node on the way down
    to it is hidden. *)
Inductive ShownPath : FigmaNode.t -> FigmaNode.t -> Prop :=
| shown_here n : not_false (FigmaNode.visible n) = true -> ShownPath n n
| shown_below n children child d :
    not_false (FigmaNode.visible n) = true ->
    FigmaNode.children n = Some children -> In child children ->
    ShownPath child d -> ShownPath n d.

(** [d] lies under [n], and [d] and every node between the two pass
    [shouldRenderNode]. *)
Inductive RenderedBelow : FigmaNode.t -> FigmaNode.t -> Prop :=
| rendered_child n children child :
    FigmaNode.children n = Some children -> In child children ->
    ComponentParser.shouldRenderNode child = true -> RenderedBelow n child
| rendered_deeper n children child d :
    FigmaNode.children n = Some children -> In child children ->
    ComponentParser.shouldRenderNode child = true -> RenderedBelow child d -> RenderedBelow n d.

(** The flags after the three tests of [analyzeNodeRecursively] on the node
    itself. *)
Definition visitNode (n : FigmaNode.t) (fl : ComponentParser.Flags) : ComponentParser.Flags :=
  let fl1 :=
    if String.eqb (FigmaNode.type n) "TEXT"
    then ComponentParser.mkFlags true (ComponentParser.f_hasImages fl) (ComponentParser.f_hasInteractiveElements fl) else fl in
  let fl2 :=
    if ComponentParser.shouldRenderAsImage n
    then ComponentParser.mkFlags (ComponentParser.f_hasText fl1) true (ComponentParser.f_hasInteractiveElements fl1) else fl1 in
  if ComponentParser.looks_interactive (FigmaNode.name n)
  then ComponentParser.mkFlags (ComponentParser.f_hasText fl2) (ComponentParser.f_hasImages fl2) true else fl2.

(** [d] is [n] or one of the nodes under it. *)
Inductive Subtree : FigmaNode.t -> FigmaNode.t -> Prop :=
| subtree_here n : Subtree n n
| subtree_below n children child d :
    FigmaNode.children n = Some children -> In child children ->
    Subtree child d -> Subtree n d.

(** The colors a node carries itself: those of its solid fills and solid
    strokes and of its effects, the hidden ones left out. *)
Definition ownColors (n : FigmaNode.t) : list string :=
  (flat_map (fun fill =>
               match FigmaFill.color fill with
               | Some c =>
                   if String.eqb (FigmaFill.type fill) "SOLID"
                      && not_false (FigmaFill.visible fill)
                   then [StyleParser.colorToString c] else []
               | None => []
               end)
     (match FigmaNode.fills n with Some fills => fills | None => [] end)
   ++ flat_map (fun stroke =>
                  match FigmaStroke.color stroke with
                  | Some c =>
                      if String.eqb (FigmaStroke.type stroke) "SOLID"
                         && not_false (FigmaStroke.visible stroke)
                      then [StyleParser.colorToString c] else []
                  | None => []
                  end)
        (match FigmaNode.strokes n with Some strokes => strokes | None => [] end)
   ++ flat_map (fun effect =>
                  match FigmaEffect.color effect with
                  | Some c =>
                      if not_false (FigmaEffect.visible effect)
                      then [StyleParser.colorToString c] else []
                  | None => []
                  end)
        (match FigmaNode.effects n with Some effects => effects | None => [] end))%list.

(** *** Names *)

(** A letter of A-Z or a-z or a digit. *)
Definition alnum (c : ascii) : bool := isUpperAZ c || isLowerAZ c || isDigit09 c.

(** *** Style keys *)

(** [k] is none of [keys]. *)
Definition outside (keys : list string) (k : string) : Prop :=
  existsb (String.eqb k) keys = false.

(** The keys the blocks of [nodeToStyles] and [optimizeStyles] write or
    delete. *)
Definition borderKeys : list string := ["borderColor"; "borderWidth"; "borderStyle"].
Definition flexKeys : list string :=
  ["flexDirection"; "paddingLeft"; "paddingRight"; "paddingTop"; "paddingBottom";
   "itemSpacing"; "justifyContent"; "alignItems"].
Definition textKeys : list string :=
  ["fontFamily"; "fontSize"; "fontWeight"; "textAlign"; "textAlignVertical";
   "letterSpacing"; "lineHeight"; "textDecorationLine"; "textTransform"; "color"].
Definition shadowKeys : list string :=
  ["shadowColor"; "shadowOffset"; "shadowRadius"; "shadowOpacity"; "elevation"].
Definition optimizedKeys : list string :=
  ["opacity"; "borderWidth"; "borderRadius"; "padding"; "margin"; "flex"].

(** The blocks of [nodeToStyles] and [generateStyleForNode] that the
    embedding writes in place, by name ([nodeToStyles_blocks] and
    [stylePropsFor_blocks] give the two functions in these terms). *)
Definition backgroundBlock (node : FigmaNode.t) (styles : ReactNativeStyleProperties)
  : ReactNativeStyleProperties :=
  match FigmaNode.fills node with
  | Some fills =>
      match StyleParser.fillToBackgroundColor fills with
      | Some backgroundColor =>
          if truthy_str backgroundColor
          then dict_set styles "backgroundColor" (VStr backgroundColor) else styles
      | None => styles
      end
  | None => styles
  end.

Definition opacityBlock (node : FigmaNode.t) (styles : ReactNativeStyleProperties)
  : ReactNativeStyleProperties :=
  match FigmaNode.opacity node with
  | Some o => if negb (strict_eq o 1%float) then dict_set styles "opacity" (VNum o) else styles
  | None => styles
  end.

Definition textBlock (node : FigmaNode.t) (styles : ReactNativeStyleProperties)
  : ReactNativeStyleProperties :=
  match FigmaNode.style node with
  | Some textStyle =>
      dict_assign styles
        (StyleParser.textStyleToReactNative textStyle (FigmaNode.fills node))
  | None => styles
  end.

Definition positionBlock (node : FigmaNode.t) (isRoot : bool)
  (styleProps : ReactNativeStyleProperties) : ReactNativeStyleProperties :=
  if isRoot then
    dict_delete (dict_delete (dict_set styleProps "alignSelf" (VStr "stretch")) "left") "top"
  else if truthy_ostr (FigmaNode.layoutMode node) then
    dict_delete (dict_delete styleProps "left") "top"
  else styleProps.

Definition spacingBlock (node : FigmaNode.t) (styleProps : ReactNativeStyleProperties)
  : ReactNativeStyleProperties :=
  match dict_get styleProps "itemSpacing" with
  | Some (VNum spacing) =>
      if truthy_ostr (FigmaNode.layoutMode node) && truthy_num spacing then
        let styleProps := dict_delete styleProps "itemSpacing" in
        if match FigmaNode.layoutMode node with
           | Some mode => String.eqb mode "HORIZONTAL"
           | None => false
           end
        then dict_set styleProps "marginRight" (VNum spacing)
        else dict_set styleProps "marginBottom" (VNum spacing)
      else styleProps
  | _ => styleProps
  end.

(** The fill color of a node, as [fillToBackgroundColor] resolves it. *)
Definition fillColor (node : FigmaNode.t) : option string :=
  match FigmaNode.fills node with
  | Some fills => StyleParser.fillToBackgroundColor fills
  | None => None
  end.

(** The color of the stroke at index 0. *)
Definition firstStrokeColor (node : FigmaNode.t) : option FigmaColor.t :=
  match FigmaNode.strokes node with
  | Some (stroke :: _) => FigmaStroke.color stroke
  | _ => None
  end.

(** The effect the shadow is taken from: the first drop shadow that is not
    hidden. *)
Definition dropShadow (node : FigmaNode.t) : option FigmaEffect.t :=
  match FigmaNode.effects node with
  | Some effects =>
      find (fun effect => String.eqb (FigmaEffect.type effect) "DROP_SHADOW"
                          && not_false (FigmaEffect.visible effect)) effects
  | None => None
  end.

(* ================================================================= *)
(** * Properties *)

(** ** Binary64 facts *)

Lemma iter_shr_52 (m : positive) :
  iter_pos shr_1 52
    (Build_shr_record (Z.pos (Pos.mul 4503599627370496 m)) false false)
  = Build_shr_record (Z.pos m) false false.
Proof. reflexivity. Qed.

Lemma digits_shift_52 (m : positive) :
  Z.pos (digits2_pos (Pos.mul 4503599627370496 m)) = Z.pos (digits2_pos m) + 52.
Proof. cbn [Pos.mul digits2_pos]. lia. Qed.

(** Multiplying by 1 is exact: the product's mantissa is the operand's
    shifted left by 52 bits, and rounding shifts it back without loss. *)
Lemma SF64mul_one_l (s : spec_float) :
  valid_binary s = true -> SF64mul (Prim2SF 1%float) s = s.
Proof.
  intros Hv.
  change (Prim2SF 1%float) with (S754_finite false 4503599627370496 (-52)).
  destruct s as [sg | sg | | sg m e]; try reflexivity.
  unfold SF64mul, SFmul. cbn [xorb].
  unfold valid_binary, SpecFloat.valid_binary, bounded, canonical_mantissa in Hv.
  apply andb_prop in Hv. destruct Hv as [Hc Hb].
  apply Z.eqb_eq in Hc.
  unfold binary_round_aux, shr_fexp, Zdigits2.
  rewrite digits_shift_52.
  replace (Z.pos (digits2_pos m) + 52 + (-52 + e)) with (Z.pos (digits2_pos m) + e) by lia.
  rewrite Hc.
  replace (e - (-52 + e)) with 52 by lia.
  cbn [shr_record_of_loc shr].
  rewrite iter_shr_52.
  cbn [shr_m loc_of_shr_record round_nearest_even].
  replace (-52 + e + 52) with e by lia.
  rewrite Hc. rewrite Z.sub_diag. cbn [shr shr_record_of_loc shr_m].
  rewrite Hb. reflexivity.
Qed.

Lemma float_mul_1_l (x : number) : (1 * x)%float = x.
Proof.
  apply Prim2SF_inj. rewrite FloatAxioms.mul_spec. apply SF64mul_one_l. apply Prim2SF_valid.
Qed.

(** ** Colors and fills (C1, C9) *)

Section Colors.
Import StyleParser Examples.

Lemma find_ext {A} (p q : A -> bool) (l : list A) :
  (forall x, p x = q x) -> find p l = find q l.
Proof.
  intros E. induction l as [| x l IH]; simpl; [reflexivity |].
  rewrite E, IH. reflexivity.
Qed.

Lemma colorToString_colorText (c : FigmaColor.t) :
  colorToString c
  = Spec.colorText (Spec.channel (FigmaColor.r c)) (Spec.channel (FigmaColor.g c))
      (Spec.channel (FigmaColor.b c)) (Spec.default_one (FigmaColor.a c)).
Proof. reflexivity. Qed.

(** C1, as stated, fails: the first solid and not hidden fill of
    [[colourlessSolid; redSolid]] is the colourless one, yet the code answers
    with the color of the second fill. *)
Lemma fillToBackgroundColor_skips_colourless_fill :
  find Spec.solidNotHidden [colourlessSolid; redSolid] = Some colourlessSolid
  /\ fillToBackgroundColor [colourlessSolid; redSolid] = Some "rgb(255, 0, 0)"
  /\ fillToBackgroundColor [colourlessSolid; redSolid]
     <> Spec.backgroundColor [colourlessSolid; redSolid].
Proof.
  split; [reflexivity | split; [vm_compute; reflexivity |]].
  vm_compute. discriminate.
Qed.

(** C1 (amended): for every fill list, background-color resolution picks the
    first fill that is solid, not explicitly hidden and carries a color; the
    final alpha is the color's own alpha (default 1) times the fill-level
    opacity (default 1); the text is [rgb(R, G, B)] when that alpha is
    exactly 1 and [rgba(R, G, B, A)] otherwise, with R, G, B the rounded
    channels times 255 and A the alpha itself.  No such fill: no color. *)
Theorem fillToBackgroundColor_resolution (fills : list FigmaFill.t) :
  fillToBackgroundColor fills
  = match find (fun fill => Spec.solidNotHidden fill && defined (FigmaFill.color fill))
               fills with
    | Some fill =>
        match FigmaFill.color fill with
        | Some c =>
            Some (Spec.colorText (Spec.channel (FigmaColor.r c))
                    (Spec.channel (FigmaColor.g c)) (Spec.channel (FigmaColor.b c))
                    (Spec.finalAlpha c fill))
        | None => None
        end
    | None => None
    end.
Proof.
  unfold fillToBackgroundColor.
  rewrite (find_ext isVisibleSolidFill
             (fun fill => Spec.solidNotHidden fill && defined (FigmaFill.color fill))).
  2:{ intros f. unfold isVisibleSolidFill, Spec.solidNotHidden.
      rewrite (andb_comm (not_false _)). reflexivity. }
  destruct fills as [| f fs]; [reflexivity |].
  destruct (find _ (f :: fs)) as [fill |]; [| reflexivity].
  destruct (FigmaFill.color fill) as [c |]; [| reflexivity].
  rewrite colorToString_colorText. cbn [FigmaColor.r FigmaColor.g FigmaColor.b FigmaColor.a].
  unfold Spec.finalAlpha, Spec.default_one.
  destruct (FigmaColor.a c) as [a |]; [reflexivity |].
  rewrite float_mul_1_l. reflexivity.
Qed.

(** C9: a color whose alpha field is absent is formatted as [rgb(R, G, B)]:
    the alpha counts as exactly 1 and the [rgba] form is never used. *)
Theorem colorToString_absent_alpha (r g b : number) :
  colorToString (FigmaColor.mk r g b None)
  = "rgb(" ++ Number_toString (Math_round (r * 255)%float) ++ ", "
      ++ Number_toString (Math_round (g * 255)%float) ++ ", "
      ++ Number_toString (Math_round (b * 255)%float) ++ ")"
  /\ prefix "rgba(" (colorToString (FigmaColor.mk r g b None)) = false.
Proof.
  unfold colorToString. cbn [FigmaColor.a FigmaColor.r FigmaColor.g FigmaColor.b].
  change (strict_eq 1%float 1%float) with true. cbv iota.
  split; reflexivity.
Qed.

End Colors.

(** ** Ordered dictionaries *)

Section DictFacts.
Context {V : Type}.
Implicit Types (d : dict V) (k : string).

Lemma dict_get_delete_same d k : dict_get (dict_delete d k) k = None.
Proof.
  induction d as [| [k' v'] d IH]; [reflexivity |].
  unfold dict_delete in *. cbn [filter fst].
  destruct (String.eqb k' k) eqn:E; cbn [negb]; [exact IH |].
  cbn [dict_get]. rewrite E. exact IH.
Qed.

Lemma dict_get_delete_other d k k' :
  k' <> k -> dict_get (dict_delete d k) k' = dict_get d k'.
Proof.
  intros Hne. induction d as [| [k0 v0] d IH]; [reflexivity |].
  unfold dict_delete in *. cbn [filter fst dict_get].
  destruct (String.eqb k0 k) eqn:E; cbn [negb dict_get].
  - apply String.eqb_eq in E. subst k0.
    destruct (String.eqb k k') eqn:E'; [| exact IH].
    apply String.eqb_eq in E'. congruence.
  - rewrite IH. reflexivity.
Qed.

Lemma dict_get_delete d k k' :
  dict_get (dict_delete d k) k' = None
  \/ dict_get (dict_delete d k) k' = dict_get d k'.
Proof.
  destruct (string_dec k' k) as [-> | Hne].
  - left. apply dict_get_delete_same.
  - right. apply dict_get_delete_other. exact Hne.
Qed.

(** Membership, by [dict_has] and by the list of keys. *)
Lemma dict_has_In d k : dict_has d k = true -> In k (dict_keys d).
Proof.
  unfold dict_has, dict_keys. induction d as [| [k' v] d IH]; cbn; [discriminate |].
  destruct (String.eqb k' k) eqn:E.
  - apply String.eqb_eq in E. auto.
  - auto.
Qed.

Lemma dict_has_false d k : dict_has d k = false -> ~ In k (dict_keys d).
Proof.
  unfold dict_has, dict_keys. induction d as [| [k' v] d IH]; cbn; [tauto |].
  destruct (String.eqb k' k) eqn:E; [discriminate |].
  intros H [-> | Hin]; [rewrite String.eqb_refl in E; discriminate | exact (IH H Hin)].
Qed.

Lemma dict_keys_length d : List.length (dict_keys d) = List.length d.
Proof. apply length_map. Qed.

(** Setting a key: membership afterwards, and the shape of the result when
    the key is new. *)
Lemma dict_has_set d k v k' :
  dict_has (dict_set d k v) k' = String.eqb k k' || dict_has d k'.
Proof.
  unfold dict_has. induction d as [| [k0 v0] d IH]; cbn [dict_set dict_get].
  - destruct (String.eqb k k'); reflexivity.
  - destruct (String.eqb k0 k) eqn:E; cbn [dict_get].
    + apply String.eqb_eq in E. subst k0. destruct (String.eqb k k'); reflexivity.
    + destruct (String.eqb k0 k') eqn:E'; [| exact IH].
      destruct (String.eqb k k'); reflexivity.
Qed.

Lemma dict_set_fresh d k v : dict_has d k = false -> dict_set d k v = (d ++ [(k, v)])%list.
Proof.
  unfold dict_has. induction d as [| [k' v'] d IH]; cbn; [reflexivity |].
  destruct (String.eqb k' k); [discriminate |]. intros H. rewrite IH by exact H. reflexivity.
Qed.

Lemma dict_get_set_fresh d k v k' v' :
  dict_has d k = false -> dict_get d k' = Some v' -> dict_get (dict_set d k v) k' = Some v'.
Proof.
  unfold dict_has. induction d as [| [k0 v0] d IH]; cbn; [discriminate |].
  destruct (String.eqb k0 k) eqn:E; [discriminate |]. cbn [dict_get].
  destruct (String.eqb k0 k'); auto.
Qed.

Lemma dict_get_set_same d k v : dict_get (dict_set d k v) k = Some v.
Proof.
  induction d as [| [k0 v0] d IH]; cbn; [rewrite String.eqb_refl; reflexivity |].
  destruct (String.eqb k0 k) eqn:E; cbn [dict_get]; rewrite E; [reflexivity | exact IH].
Qed.

End DictFacts.

(** ** The optimization pass (C10) *)

Section Optimize.
Import StyleParser.
Implicit Types (s : ReactNativeStyleProperties) (k : string) (v : number).

Lemma delete_if_eq_get s k v k' :
  dict_get (delete_if_eq k v s) k' = None
  \/ dict_get (delete_if_eq k v s) k' = dict_get s k'.
Proof.
  unfold delete_if_eq.
  destruct (dict_get s k) as [[x | |] |]; auto.
  destruct (strict_eq x v); auto using dict_get_delete.
Qed.

Lemma delete_if_eq_keeps s k v : keeps (delete_if_eq k v s) k v.
Proof.
  unfold keeps, delete_if_eq.
  destruct (dict_get s k) as [[x | |] |] eqn:G; try (rewrite G; exact I).
  destruct (strict_eq x v) eqn:E.
  - rewrite dict_get_delete_same. exact I.
  - rewrite G. exact E.
Qed.

Lemma keeps_delete_if_eq s k v k' v' :
  keeps s k v -> keeps (delete_if_eq k' v' s) k v.
Proof.
  unfold keeps. intros H.
  destruct (delete_if_eq_get s k' v' k) as [-> | ->]; [exact I | exact H].
Qed.

Lemma delete_if_eq_id s k v : keeps s k v -> delete_if_eq k v s = s.
Proof.
  unfold keeps, delete_if_eq.
  destruct (dict_get s k) as [[x | |] |]; try reflexivity.
  intros ->. reflexivity.
Qed.

Create HintDb optimize.
#[local] Hint Resolve delete_if_eq_keeps keeps_delete_if_eq : optimize.

(** C10: the optimization pass is idempotent, and a key of a style mapping
    is either deleted by it or keeps its value. *)
Theorem optimizeStyles_idempotent s :
  optimizeStyles (optimizeStyles s) = optimizeStyles s
  /\ forall k, dict_get (optimizeStyles s) k = None
               \/ dict_get (optimizeStyles s) k = dict_get s k.
Proof.
  split.
  - assert (K : keeps (optimizeStyles s) "opacity" 1%float
                /\ keeps (optimizeStyles s) "borderWidth" 0%float
                /\ keeps (optimizeStyles s) "borderRadius" 0%float
                /\ keeps (optimizeStyles s) "padding" 0%float
                /\ keeps (optimizeStyles s) "margin" 0%float
                /\ keeps (optimizeStyles s) "flex" 0%float)
      by (unfold optimizeStyles; repeat split; auto 10 with optimize).
    destruct K as (K1 & K2 & K3 & K4 & K5 & K6).
    unfold optimizeStyles at 1.
    rewrite (delete_if_eq_id _ _ _ K1), (delete_if_eq_id _ _ _ K2),
      (delete_if_eq_id _ _ _ K3), (delete_if_eq_id _ _ _ K4),
      (delete_if_eq_id _ _ _ K5), (delete_if_eq_id _ _ _ K6).
    reflexivity.
  - intros k. unfold optimizeStyles.
    repeat match goal with
           | |- context [dict_get (delete_if_eq ?k' ?v' ?t) k] =>
               destruct (delete_if_eq_get t k' v' k) as [-> | ->]; [left; reflexivity |]
           end.
    right. reflexivity.
Qed.

End Optimize.

(** ** Layout classification (C4) *)

Section Layout.
Import ComponentParser Examples.

(** C4, as stated, fails: [fourPositionedTwoShown] has no auto-layout, four
    children in total, all four positioned, yet it is classified [absolute]:
    the code counts the children that render, here two. *)
Lemma layoutType_counts_rendered_children :
  FigmaNode.layoutMode fourPositionedTwoShown = None
  /\ option_map (@List.length _) (FigmaNode.children fourPositionedTwoShown) = Some 4%nat
  /\ option_map (fun cs => List.length (filter has_xy cs))
       (FigmaNode.children fourPositionedTwoShown) = Some 4%nat
  /\ childCount (analyzeComponent fourPositionedTwoShown) = 2%nat
  /\ layoutType (analyzeComponent fourPositionedTwoShown) = absolute
  /\ Spec.layoutClassification fourPositionedTwoShown = mixed.
Proof. repeat split; vm_compute; reflexivity. Qed.

(** C4 (amended): the layout classification is [flex] when the node carries
    an auto-layout block; otherwise it is [mixed] exactly when more than
    three of the node's children render and at least one child (rendering or
    not) carries explicit x and y, and [absolute] in every other case. *)
Theorem analyzeComponent_layoutType (node : FigmaNode.t) :
  layoutType (analyzeComponent node)
  = if truthy_ostr (FigmaNode.layoutMode node) then flex
    else
      match FigmaNode.children node with
      | Some children =>
          if (3 <? List.length (filter shouldRenderNode children))%nat
             && existsb has_xy children
          then mixed else absolute
      | None => absolute
      end.
Proof.
  unfold analyzeComponent.
  destruct (FigmaNode.children node) as [children |]; cbn [layoutType].
  2:{ destruct (truthy_ostr _); reflexivity. }
  destruct (truthy_ostr (FigmaNode.layoutMode node)); cbn [negb andb].
  - rewrite andb_false_r. reflexivity.
  - rewrite andb_true_r.
    destruct (1 <? _)%nat eqn:E1; destruct (3 <? _)%nat eqn:E3;
      destruct (existsb has_xy children); try reflexivity.
    apply Nat.ltb_lt in E3. apply Nat.ltb_ge in E1. lia.
Qed.

End Layout.

(** ** Validation and generation errors (C2) *)

Section Validation.
Import ComponentParser ReactNativeGenerator Examples.

Lemma In_push {A} (l : list A) (x y : A) : In x (push l y) <-> In x l \/ x = y.
Proof.
  unfold push. rewrite in_app_iff. cbn [In]. intuition congruence.
Qed.

Lemma In_push_keep {A} (c : bool) (l : list A) (x y : A) :
  In x l -> In x (if c then push l y else l).
Proof. destruct c; [rewrite In_push |]; auto. Qed.

Lemma In_push_new {A} (l : list A) (y : A) : In y (push l y).
Proof. rewrite In_push. auto. Qed.

(** C2, as stated, fails: [hiddenRoot] has no renderable root, yet
    validation reports no blocking error and generation returns a
    ComponentSpec. *)
Lemma generateComponent_accepts_unrenderable_root :
  shouldRenderNode hiddenRoot = false
  /\ isValid (validateComponent hiddenRoot) = true
  /\ exists spec this',
       generateComponent (constructor (mkGenerationOptions None None None None))
         hiddenRoot None = (Ok spec, this').
Proof.
  split; [reflexivity | split; [reflexivity |]].
  do 2 eexists. vm_compute. reflexivity.
Qed.

(** C2 (amended): generation raises a generation error, before anything is
    emitted, exactly when the validation result it is given reports a
    blocking error, and validation never reports one: whatever the node,
    the error list is empty and generation returns a ComponentSpec.
    Missing dimensions, more than 20 children, nesting deeper than 10 levels
    and an invisible root each add a warning only. *)
Theorem generateComponent_never_blocked (this : Generator) (node : FigmaNode.t)
  (componentName : option string) :
  (forall finalName analysis validation,
     (exists e, generateValidated this node finalName analysis validation = (Throw e, this))
     <-> isValid validation = false)
  /\ isValid (validateComponent node) = true
  /\ errors (validateComponent node) = []
  /\ (exists spec this', generateComponent this node componentName = (Ok spec, this'))
  /\ (FigmaNode.width node = None \/ FigmaNode.height node = None ->
      In "Component has undefined dimensions" (warnings (validateComponent node)))
  /\ (forall children, FigmaNode.children node = Some children ->
      (20 < List.length children)%nat ->
      In ("Component has many children (" ++ digits_of_nat (List.length children)
            ++ "), consider breaking it down")
         (warnings (validateComponent node)))
  /\ ((10 < getDepth node 0)%nat ->
      In ("Component has deep nesting (" ++ digits_of_nat (getDepth node 0)
            ++ " levels), consider flattening")
         (warnings (validateComponent node)))
  /\ (FigmaNode.visible node = Some false ->
      In "Component is marked as invisible" (warnings (validateComponent node))).
Proof.
  split; [| split; [reflexivity | split; [reflexivity | split]]].
  { intros finalName analysis validation. unfold generateValidated.
    destruct (isValid validation); cbn [negb].
    - destruct (generateComponentJSX _ node _ _) as [jsx this'].
      split; [intros (e & He); discriminate He | discriminate].
    - split; [reflexivity | intros _; eexists; reflexivity]. }
  { unfold generateComponent, generateValidated.
    cbn [validateComponent isValid List.length Nat.eqb negb].
    destruct (generateComponentJSX _ node _ _) as [jsx this']. eauto. }
  unfold validateComponent. cbn [warnings].
  repeat split.
  - intros Hdim. apply In_push_keep. apply In_push_keep.
    replace (negb (defined (FigmaNode.width node)) || negb (defined (FigmaNode.height node)))
      with true.
    + apply In_push_new.
    + destruct Hdim as [-> | ->]; cbn [defined negb orb]; [reflexivity |].
      rewrite orb_true_r. reflexivity.
  - intros children Hc Hlen. do 3 apply In_push_keep.
    rewrite Hc. apply Nat.ltb_lt in Hlen. rewrite Hlen. apply In_push_new.
  - intros Hd. apply Nat.ltb_lt in Hd. rewrite Hd. apply In_push_new.
  - intros Hv. apply In_push_keep. rewrite Hv. cbn [not_false negb]. apply In_push_new.
Qed.

(** The witness of C2's theorem: [fourPositionedTwoShown], which has no
    dimensions. *)
Lemma generateComponent_never_blocked_witness :
  In "Component has undefined dimensions"
     (warnings (validateComponent fourPositionedTwoShown))
  /\ exists spec this',
       generateComponent (constructor (mkGenerationOptions None None None None))
         fourPositionedTwoShown None = (Ok spec, this').
Proof.
  pose proof (generateComponent_never_blocked
                (constructor (mkGenerationOptions None None None None))
                fourPositionedTwoShown None) as (_ & _ & _ & Hok & Hdim & _).
  split; [apply Hdim; left; reflexivity | exact Hok].
Defined.

End Validation.

(** ** Strings: appending, decimal digits, candidate names *)

Section NameFacts.
Local Open Scope nat_scope.

Lemma append_assoc (a b c : string) : (a ++ b) ++ c = a ++ (b ++ c).
Proof. induction a as [| x a IH]; cbn; [reflexivity | rewrite IH; reflexivity]. Qed.

Lemma append_inj_l (a b c : string) : a ++ b = a ++ c -> b = c.
Proof. induction a as [| x a IH]; cbn; [auto | intros [= H]; auto]. Qed.

Lemma append_self_l (a b : string) : a = a ++ b -> b = "".
Proof.
  intros H. apply (append_inj_l a). rewrite <- H.
  clear. induction a; cbn; congruence.
Qed.

Lemma to_uint_nonnil n : Nat.to_uint n <> Decimal.Nil.
Proof.
  intros H. pose proof (Unsigned.of_to n) as E. rewrite H in E. cbn in E. subst n.
  discriminate H.
Qed.

(** Distinct counters print differently, and never as the empty string. *)
Lemma digits_of_nat_inj i j : digits_of_nat i = digits_of_nat j -> i = j.
Proof.
  unfold digits_of_nat. intros H.
  apply (f_equal NilZero.uint_of_string) in H.
  rewrite !NilZero.usu in H by apply to_uint_nonnil.
  injection H as H. apply Unsigned.to_uint_inj. exact H.
Qed.

Lemma digits_of_nat_nonempty n : digits_of_nat n <> "".
Proof.
  unfold digits_of_nat. intros H.
  pose proof (NilZero.usu (Nat.to_uint n) (to_uint_nonnil n)) as E.
  rewrite H in E. discriminate E.
Qed.

(** The names the uniqueness loop tries for one base name are pairwise
    distinct. *)
Lemma candidate_inj base i j : candidate base i = candidate base j -> i = j.
Proof.
  destruct i as [| i], j as [| j]; cbn [candidate]; intros H.
  - reflexivity.
  - apply append_self_l in H. now apply digits_of_nat_nonempty in H.
  - symmetry in H. apply append_self_l in H. now apply digits_of_nat_nonempty in H.
  - apply append_inj_l in H. now apply digits_of_nat_inj.
Qed.

End NameFacts.

(** ** The generator: fresh keys, registration order, markup shape *)

Section GeneratorFacts.
Import ComponentParser StyleParser ReactNativeGenerator.
Local Open Scope nat_scope.

(** *** The uniqueness loop *)

(** The loop tries [candidate base k], [candidate base (k + 1)], ... and
    stops at the first free one, or when the fuel is spent. *)
Lemma uniqueStyleName_spec registry base fuel : forall k,
  exists j,
    uniqueStyleName registry base (candidate base k) (S k) fuel = candidate base j
    /\ k <= j <= k + fuel
    /\ (forall i, k <= i < j -> dict_has registry (candidate base i) = true)
    /\ (j < k + fuel -> dict_has registry (candidate base j) = false).
Proof.
  induction fuel as [| fuel IH]; intros k; cbn [uniqueStyleName].
  - exists k. repeat split; intros; lia.
  - destruct (dict_has registry (candidate base k)) eqn:E.
    + destruct (IH (S k)) as (j & Hj & Hr & Hall & Hfree).
      exists j. cbn [candidate] in Hj. rewrite Hj. repeat split; try lia.
      * intros i Hi. destruct (Nat.eq_dec i k) as [-> | Hne]; [exact E | apply Hall; lia].
      * intros Hlt. apply Hfree. lia.
    + exists k. repeat split; intros; try lia. exact E.
Qed.

(** A registry of [n] entries cannot hold all of the first [n + 1]
    candidates. *)
Lemma candidates_not_all_taken (registry : dict ReactNativeStyleProperties) base :
  ~ (forall i, i < S (List.length registry) -> dict_has registry (candidate base i) = true).
Proof.
  intros H.
  assert (L : List.length (map (candidate base) (seq 0 (S (List.length registry))))
              <= List.length (dict_keys registry)).
  { apply NoDup_incl_length.
    - apply Injective_map_NoDup; [| apply seq_NoDup].
      intros i j. apply candidate_inj.
    - intros x Hx. apply in_map_iff in Hx. destruct Hx as (i & <- & Hi).
      apply in_seq in Hi. apply dict_has_In. apply H. lia. }
  rewrite length_map, length_seq, dict_keys_length in L. lia.
Qed.

(** So the fuel given by [styleNameFor] is never spent: the name it settles
    on is the first free candidate. *)
Lemma styleNameFor_spec this node isRoot :
  exists j,
    styleNameFor this node isRoot = candidate (baseStyleNameOf node isRoot) j
    /\ (forall i, i < j ->
          dict_has (generatedStyles this) (candidate (baseStyleNameOf node isRoot) i) = true)
    /\ dict_has (generatedStyles this) (candidate (baseStyleNameOf node isRoot) j) = false.
Proof.
  unfold styleNameFor.
  destruct (uniqueStyleName_spec (generatedStyles this) (baseStyleNameOf node isRoot)
              (S (List.length (generatedStyles this))) 0) as (j & Hj & Hr & Hall & Hfree).
  exists j. cbn [candidate] in Hj. split; [exact Hj |]. split.
  - intros i Hi. apply Hall. lia.
  - apply Hfree. cbn [Nat.add].
    destruct (Nat.eq_dec j (S (List.length (generatedStyles this)))) as [-> | Hne]; [| lia].
    exfalso. apply (candidates_not_all_taken (generatedStyles this) (baseStyleNameOf node isRoot)).
    intros i Hi. apply Hall. lia.
Qed.

Lemma styleNameFor_free this node isRoot :
  dict_has (generatedStyles this) (styleNameFor this node isRoot) = false.
Proof.
  destruct (styleNameFor_spec this node isRoot) as (j & -> & _ & H). exact H.
Qed.

(** *** The source's form of the recursive functions *)

Lemma mapRendered_filter f l : forall this,
  mapRendered f this l = mapThreaded f this (filter shouldRenderNode l).
Proof.
  induction l as [| c l IH]; intros this; [reflexivity |].
  cbn [mapRendered filter]. destruct (shouldRenderNode c); [| apply IH].
  cbn [mapThreaded]. destruct (f this c) as [jsx this1]. rewrite IH. reflexivity.
Qed.

Lemma generateNodeJSX_unfold this node depth isRoot :
  generateNodeJSX this node depth isRoot
  = if negb (shouldRenderNode node) then ("", this)
    else
      let '(styleName, this1) := generateStyleForNode this node isRoot in
      if String.eqb (FigmaNode.type node) "TEXT" then
        (textJSX (indentOf depth) (plainStyleReference this1 styleName)
           (extractTextContent node), this1)
      else if shouldRenderAsImage node then
        (imageJSX (indentOf depth) (plainStyleReference this1 styleName), this1)
      else
        let '(childrenJSX, this2) := generateChildrenJSX this1 node (depth + 1) in
        (containerJSX (indentOf depth) (getComponentType node)
           (containerStyleReference this2 isRoot styleName) childrenJSX, this2).
Proof.
  destruct node. cbn [generateNodeJSX].
  match goal with |- context [generateStyleForNode _ ?n _] => set (node := n) end.
  destruct (negb (shouldRenderNode node)); [reflexivity |].
  destruct (generateStyleForNode this node isRoot) as [styleName this1].
  destruct (String.eqb (FigmaNode.type node) "TEXT"); [reflexivity |].
  destruct (shouldRenderAsImage node); [reflexivity |].
  unfold generateChildrenJSX.
  destruct (FigmaNode.children node) as [[| c cs] |]; try reflexivity.
  rewrite mapRendered_filter. reflexivity.
Qed.

Lemma renderOrder_unfold node isRoot :
  renderOrder node isRoot
  = if negb (shouldRenderNode node) then []
    else
      (node, isRoot)
        :: (if String.eqb (FigmaNode.type node) "TEXT" then []
            else if shouldRenderAsImage node then []
            else match FigmaNode.children node with
                 | Some children => flat_map (fun child => renderOrder child false) children
                 | None => []
                 end).
Proof. destruct node; reflexivity. Qed.

Lemma node_size_child node children child :
  FigmaNode.children node = Some children -> In child children ->
  node_size child < node_size node.
Proof.
  intros Hc Hin. destruct node. cbn in Hc. subst. cbn [node_size FigmaNode.children].
  apply Nat.lt_succ_r.
  induction children as [| c cs IH]; [destruct Hin |].
  cbn [map list_sum fold_right]. fold (list_sum (map node_size cs)).
  destruct Hin as [-> | Hin]; [lia |].
  specialize (IH Hin). lia.
Qed.

(** *** Registrations *)

Lemma registerAll_app regs1 : forall this regs2,
  registerAll this (regs1 ++ regs2)
  = let '(keys1, this1) := registerAll this regs1 in
    let '(keys2, this2) := registerAll this1 regs2 in
    ((keys1 ++ keys2)%list, this2).
Proof.
  induction regs1 as [| [n r] regs1 IH]; intros this regs2; cbn [registerAll app].
  - destruct (registerAll this regs2); reflexivity.
  - destruct (generateStyleForNode this n r) as [k t]. rewrite IH.
    destruct (registerAll t regs1) as [k1 t1]. destruct (registerAll t1 regs2). reflexivity.
Qed.

(** Emitting a node changes the generator as registering the nodes of
    [renderOrder] does, one after the other. *)
Lemma generateNodeJSX_registers : forall node this depth isRoot,
  snd (generateNodeJSX this node depth isRoot)
  = snd (registerAll this (renderOrder node isRoot)).
Proof.
  intros node. remember (node_size node) as n eqn:Hn. revert node Hn.
  induction n as [n IH] using lt_wf_ind. intros node Hn this depth isRoot.
  rewrite generateNodeJSX_unfold, renderOrder_unfold.
  destruct (negb (shouldRenderNode node)); [reflexivity |].
  cbn [registerAll].
  destruct (generateStyleForNode this node isRoot) as [styleName this1].
  destruct (String.eqb (FigmaNode.type node) "TEXT"); [reflexivity |].
  destruct (shouldRenderAsImage node); [reflexivity |].
  unfold generateChildrenJSX.
  destruct (FigmaNode.children node) as [children |] eqn:Hc; [| reflexivity].
  assert (K : forall cs this0, incl cs children ->
            snd (mapThreaded (fun this child => generateNodeJSX this child (depth + 1) false)
                   this0 (filter shouldRenderNode cs))
            = snd (registerAll this0 (flat_map (fun child => renderOrder child false) cs))).
  { induction cs as [| c cs IHcs]; intros this0 Hincl; [reflexivity |].
    cbn [filter flat_map]. rewrite registerAll_app.
    assert (Hin : In c children) by (apply Hincl; left; reflexivity).
    assert (Hincl' : incl cs children) by (intros x Hx; apply Hincl; right; exact Hx).
    pose proof (IH (node_size c) ltac:(subst n; eapply node_size_child; eauto) c eq_refl
                  this0 (depth + 1) false) as Hch.
    destruct (shouldRenderNode c) eqn:Hr.
    - cbn [mapThreaded].
      destruct (generateNodeJSX this0 c (depth + 1) false) as [jsx t1]. cbn [snd] in Hch.
      destruct (registerAll this0 (renderOrder c false)) as [k1 t1']. cbn [snd] in Hch. subst t1'.
      specialize (IHcs t1 Hincl').
      destruct (mapThreaded _ t1 _) as [more t2]. cbn [snd] in IHcs |- *.
      destruct (registerAll t1 _) as [k2 t2']. cbn [snd] in IHcs |- *. exact IHcs.
    - rewrite renderOrder_unfold, Hr. cbn [negb registerAll].
      specialize (IHcs this0 Hincl').
      destruct (registerAll this0 _) as [k2 t2']. exact IHcs. }
  specialize (K children this1 (incl_refl _)).
  destruct children as [| c cs].
  - cbn [flat_map registerAll]. reflexivity.
  - destruct (mapThreaded _ this1 _) as [jsxs this2]. cbn [snd] in K |- *.
    destruct (registerAll this1 _) as [ks t]. cbn [snd] in K |- *. exact K.
Qed.

Lemma mapThreaded_registers depth cs : forall this,
  snd (mapThreaded (fun this child => generateNodeJSX this child depth false) this cs)
  = snd (registerAll this (flat_map (fun child => renderOrder child false) cs)).
Proof.
  induction cs as [| c cs IH]; intros this; [reflexivity |].
  cbn [mapThreaded flat_map]. rewrite registerAll_app.
  pose proof (generateNodeJSX_registers c this depth false) as Hc.
  destruct (generateNodeJSX this c depth false) as [jsx t1].
  destruct (registerAll this (renderOrder c false)) as [k1 t1']. cbn [snd] in Hc. subst t1'.
  specialize (IH t1).
  destruct (mapThreaded _ t1 cs) as [more t2]. destruct (registerAll t1 _) as [k2 t2'].
  exact IH.
Qed.

Lemma generateChildrenJSX_registers this node depth :
  exists regs, snd (generateChildrenJSX this node depth) = snd (registerAll this regs).
Proof.
  unfold generateChildrenJSX.
  destruct (FigmaNode.children node) as [[| c cs] |]; try (exists []; reflexivity).
  pose proof (mapThreaded_registers depth (filter shouldRenderNode (c :: cs)) this) as H.
  destruct (mapThreaded _ this _) as [jsxs this2]. eexists. exact H.
Qed.

Lemma generateComponent_registry this node componentName :
  snd (generateComponent this node componentName)
  = snd (registerAll (mkGenerator (options this) [] 0) (renderOrder node true)).
Proof.
  rewrite <- generateNodeJSX_registers with (depth := 0).
  unfold generateComponent, generateValidated.
  cbn [validateComponent isValid List.length Nat.eqb negb].
  unfold generateComponentJSX.
  destruct (generateNodeJSX _ node 0 true) as [body this']. reflexivity.
Qed.

Lemma registerAll_length regs : forall this,
  List.length (fst (registerAll this regs)) = List.length regs.
Proof.
  induction regs as [| [n r] regs IH]; intros this; [reflexivity |].
  cbn [registerAll]. unfold generateStyleForNode.
  specialize (IH (with_styles this (dict_set (generatedStyles this) (styleNameFor this n r) (stylePropsFor n r)))).
  destruct (registerAll _ regs). cbn [fst List.length] in *. congruence.
Qed.

Lemma registerAll_options regs : forall this,
  options (snd (registerAll this regs)) = options this.
Proof.
  induction regs as [| [n r] regs IH]; intros this; [reflexivity |].
  cbn [registerAll]. unfold generateStyleForNode.
  specialize (IH (with_styles this (dict_set (generatedStyles this) (styleNameFor this n r) (stylePropsFor n r)))).
  destruct (registerAll _ regs). cbn [snd] in *. exact IH.
Qed.

Lemma registerAll_keys regs : forall this,
  dict_keys (generatedStyles (snd (registerAll this regs)))
  = (dict_keys (generatedStyles this) ++ fst (registerAll this regs))%list.
Proof.
  induction regs as [| [n r] regs IH]; intros this.
  - cbn. rewrite app_nil_r. reflexivity.
  - cbn [registerAll]. unfold generateStyleForNode.
    specialize (IH (with_styles this (dict_set (generatedStyles this) (styleNameFor this n r) (stylePropsFor n r)))).
    destruct (registerAll _ regs) as [keys this2]. cbn [fst snd] in *.
    rewrite IH. cbn [with_styles generatedStyles].
    rewrite dict_set_fresh by apply styleNameFor_free.
    unfold dict_keys. rewrite map_app, <- app_assoc. reflexivity.
Qed.

Lemma registerAll_get regs : forall this k v,
  dict_get (generatedStyles this) k = Some v ->
  dict_get (generatedStyles (snd (registerAll this regs))) k = Some v.
Proof.
  induction regs as [| [n r] regs IH]; intros this k v H; [exact H |].
  cbn [registerAll]. unfold generateStyleForNode.
  specialize (IH (with_styles this (dict_set (generatedStyles this) (styleNameFor this n r) (stylePropsFor n r))) k v).
  destruct (registerAll _ regs) as [keys this2]. cbn [fst snd] in *.
  apply IH. cbn [with_styles generatedStyles].
  apply dict_get_set_fresh; [apply styleNameFor_free | exact H].
Qed.

Lemma registerAll_NoDup regs : forall this,
  NoDup (dict_keys (generatedStyles this)) ->
  NoDup (dict_keys (generatedStyles (snd (registerAll this regs)))).
Proof.
  induction regs as [| [n r] regs IH]; intros this H; [exact H |].
  cbn [registerAll]. unfold generateStyleForNode.
  specialize (IH (with_styles this (dict_set (generatedStyles this) (styleNameFor this n r) (stylePropsFor n r)))).
  destruct (registerAll _ regs) as [keys this2]. cbn [fst snd] in *.
  apply IH. cbn [with_styles generatedStyles].
  rewrite dict_set_fresh by apply styleNameFor_free.
  unfold dict_keys. rewrite map_app. cbn [map fst].
  apply NoDup_app; [exact H | repeat constructor; intros [] | ].
  intros x Hx [<- | []]. revert Hx. apply dict_has_false. apply styleNameFor_free.
Qed.

(** Each key is the first of [base], [base1], [base2], ... that is neither
    in the registry at the start nor handed out earlier. *)
Lemma registerAll_least regs : forall this i r key,
  nth_error regs i = Some r ->
  nth_error (fst (registerAll this regs)) i = Some key ->
  exists k,
    key = candidate (baseOf r) k
    /\ ~ In key (dict_keys (generatedStyles this)
                   ++ firstn i (fst (registerAll this regs)))%list
    /\ forall j, j < k ->
         In (candidate (baseOf r) j)
            (dict_keys (generatedStyles this)
               ++ firstn i (fst (registerAll this regs)))%list.
Proof.
  induction regs as [| [n r0] regs IH]; intros this i r key Hr Hk;
    [destruct i; discriminate |].
  cbn [registerAll] in *. unfold generateStyleForNode in *.
  set (key0 := styleNameFor this n r0) in *.
  set (this1 := with_styles this (dict_set (generatedStyles this) key0 (stylePropsFor n r0))) in *.
  specialize (IH this1).
  assert (Hkeys1 : dict_keys (generatedStyles this1)
                   = (dict_keys (generatedStyles this) ++ [key0])%list).
  { subst this1. cbn [with_styles generatedStyles].
    rewrite dict_set_fresh by apply styleNameFor_free.
    unfold dict_keys. rewrite map_app. reflexivity. }
  destruct (registerAll this1 regs) as [keys this2]. cbn [fst] in *.
  destruct i as [| i]; cbn [nth_error firstn] in *.
  - injection Hr as <-. injection Hk as <-. rewrite app_nil_r.
    destruct (styleNameFor_spec this n r0) as (k & Hkey & Hall & Hfree).
    exists k. split; [exact Hkey |]. split.
    + fold key0 in Hkey. rewrite Hkey. apply dict_has_false. exact Hfree.
    + intros j Hj. apply dict_has_In. apply Hall. exact Hj.
  - destruct (IH i r key Hr Hk) as (k & Hkey & Hfresh & Hall).
    rewrite Hkeys1, <- app_assoc in Hfresh, Hall.
    exists k. auto.
Qed.

(** With the candidates of [b] below [j] taken and no node of another base
    name receiving a candidate of [b], the nodes of base name [b] receive
    the candidates from [j] on, in order. *)
Lemma registerAll_sequence regs : forall this b j,
  (forall k, dict_has (generatedStyles this) (candidate b k) = true <-> k < j) ->
  (forall r key, In (r, key) (combine regs (fst (registerAll this regs))) ->
                 baseOf r <> b -> forall k, key <> candidate b k) ->
  map snd (filter (fun rk => String.eqb (baseOf (fst rk)) b)
             (combine regs (fst (registerAll this regs))))
  = map (candidate b)
      (seq j (List.length (filter (fun r => String.eqb (baseOf r) b) regs))).
Proof.
  induction regs as [| [n r] regs IH]; intros this b j Inv Hother; [reflexivity |].
  cbn [registerAll] in *. unfold generateStyleForNode in *.
  set (key := styleNameFor this n r) in *.
  set (this1 := with_styles this (dict_set (generatedStyles this) key (stylePropsFor n r))) in *.
  specialize (IH this1 b).
  destruct (registerAll this1 regs) as [keys this2]. cbn [fst combine filter] in *.
  destruct (String.eqb (baseOf (n, r)) b) eqn:E.
  - apply String.eqb_eq in E.
    assert (Hkey : key = candidate b j).
    { destruct (styleNameFor_spec this n r) as (j' & Hj' & Hall & Hfree).
      unfold baseOf in E. cbn [fst snd] in E. rewrite E in *. fold key in Hj'.
      rewrite Hj'. f_equal.
      assert (~ j' < j) by (intros Hlt; apply Inv in Hlt; congruence).
      assert (~ j < j') by (intros Hlt; specialize (Hall j Hlt); apply Inv in Hall; lia).
      lia. }
    cbn [map List.length seq snd]. f_equal; [exact Hkey |].
    apply IH.
    + intros k. subst this1. cbn [with_styles generatedStyles].
      rewrite dict_has_set, orb_true_iff, Inv, Hkey, String.eqb_eq.
      split.
      * intros [Hc | Hlt]; [apply candidate_inj in Hc; lia | lia].
      * intros Hlt. destruct (Nat.eq_dec k j) as [-> | Hne]; [left; reflexivity | right; lia].
    + intros r0 key0 Hin. apply Hother. right. exact Hin.
  - apply IH.
    + intros k. subst this1. cbn [with_styles generatedStyles].
      rewrite dict_has_set, <- Inv.
      assert (Hne : String.eqb key (candidate b k) = false).
      { apply String.eqb_neq. apply (Hother (n, r) key); [left; reflexivity |].
        apply String.eqb_neq. exact E. }
      rewrite Hne. reflexivity.
    + intros r0 key0 Hin. apply Hother. right. exact Hin.
Qed.

(** *** Style references *)

(** What a node's own style reference reads once its children are
    emitted: the entry stored at registration is still there. *)
Lemma plainStyleReference_after_children this node isRoot depth :
  plainStyleReference
    (snd (generateChildrenJSX (snd (generateStyleForNode this node isRoot)) node depth))
    (fst (generateStyleForNode this node isRoot))
  = registeredStyleReference this node isRoot.
Proof.
  destruct (generateChildrenJSX_registers (snd (generateStyleForNode this node isRoot))
              node depth) as (regs & ->).
  unfold plainStyleReference, registeredStyleReference.
  rewrite registerAll_options. cbn [generateStyleForNode fst snd with_styles options].
  destruct (Options.useStyleSheet (options this)); [reflexivity |].
  erewrite registerAll_get; [reflexivity |].
  cbn [with_styles generatedStyles]. apply dict_get_set_same.
Qed.

Lemma plainStyleReference_registered this node isRoot :
  plainStyleReference (snd (generateStyleForNode this node isRoot))
    (fst (generateStyleForNode this node isRoot))
  = registeredStyleReference this node isRoot.
Proof.
  unfold plainStyleReference, registeredStyleReference.
  cbn [generateStyleForNode fst snd with_styles options generatedStyles].
  rewrite dict_get_set_same. reflexivity.
Qed.

(** *** The shape of emitted markup *)

Lemma trimStart_spaces n rest :
  trimStart (repeat_string "    " n ++ String "<" rest) = String "<" rest.
Proof. induction n as [| n IH]; [reflexivity |]. cbn. exact IH. Qed.

Lemma trimEnd_tag rest : trimEnd (String "<" rest) <> "".
Proof. cbn. destruct (trimEnd rest); discriminate. Qed.

Lemma startsWithTag_trim s : startsWithTag s -> truthy_str (trim s) = true.
Proof.
  intros (d & rest & ->). unfold trim, indentOf. rewrite trimStart_spaces.
  pose proof (trimEnd_tag rest) as H. destruct (trimEnd (String "<" rest)); [congruence | reflexivity].
Qed.


(** The markup of a rendering node starts with its indentation and a tag. *)
Lemma generateNodeJSX_startsWithTag this node depth isRoot :
  shouldRenderNode node = true ->
  startsWithTag (fst (generateNodeJSX this node depth isRoot)).
Proof.
  intros Hr. rewrite generateNodeJSX_unfold, Hr. cbn [negb].
  destruct (generateStyleForNode this node isRoot) as [styleName this1].
  destruct (String.eqb _ "TEXT"); [eexists _, _; reflexivity |].
  destruct (shouldRenderAsImage node); [eexists _, _; reflexivity |].
  destruct (generateChildrenJSX _ _ _) as [cj this2]. cbn [fst].
  unfold containerJSX. destruct (truthy_str _); eexists _, _; reflexivity.
Qed.

End GeneratorFacts.

(** ** The style registry (C5) *)

Section Registry.
Import ComponentParser StyleParser ReactNativeGenerator Examples.
Local Open Scope nat_scope.

(** The registry keys of one generation run, in registration order. *)
Lemma run_keys this node componentName :
  dict_keys (generatedStyles (snd (generateComponent this node componentName)))
  = fst (registerAll (mkGenerator (options this) [] 0) (renderOrder node true)).
Proof.
  rewrite generateComponent_registry, registerAll_keys. reflexivity.
Qed.

(** C5, as stated, fails: under [iconClash] the nodes named Icon, Icon,
    Icon1, Icon1 are registered, in this order, with the base names icon,
    icon, icon1, icon1; the two nodes that share the base name icon1 receive
    icon11 and icon12, neither of them the unadorned base name. *)
Lemma shared_base_name_without_unadorned_key :
  map baseOf (renderOrder iconClash true)
  = ["container"; "icon"; "icon"; "icon1"; "icon1"]
  /\ dict_keys (generatedStyles (snd (generateComponent defaultGenerator iconClash None)))
     = ["container"; "icon"; "icon1"; "icon11"; "icon12"].
Proof. split; vm_compute; reflexivity. Qed.

(** C5 (amended): within one generation run every registered node receives
    a registry key of its own, and no two nodes receive the same key: the
    key is the first of the sanitized base name, the base name followed by
    1, by 2, by 3, ... that no node registered earlier received.  For a
    base name [b] such that no node with another base name receives [b] or
    [b] followed by an integer, the nodes sharing [b] receive, in
    registration order, [b], then [b] with the suffixes 1, 2, 3, ... *)
Theorem registry_keys_of_a_run (this : Generator) (node : FigmaNode.t)
  (componentName : option string) :
  let regs := renderOrder node true in
  let keys :=
    dict_keys (generatedStyles (snd (generateComponent this node componentName))) in
  List.length keys = List.length regs
  /\ NoDup keys
  /\ (forall i r key,
        nth_error regs i = Some r -> nth_error keys i = Some key ->
        exists k,
          key = candidate (baseOf r) k
          /\ ~ In key (firstn i keys)
          /\ forall j, j < k -> In (candidate (baseOf r) j) (firstn i keys))
  /\ forall b,
       (forall r key, In (r, key) (combine regs keys) ->
                      baseOf r <> b -> forall k, key <> candidate b k) ->
       map snd (filter (fun rk => String.eqb (baseOf (fst rk)) b) (combine regs keys))
       = map (candidate b)
           (seq 0 (List.length (filter (fun r => String.eqb (baseOf r) b) regs))).
Proof.
  cbv zeta. rewrite run_keys.
  split; [apply registerAll_length | split; [| split]].
  - rewrite <- run_keys with (componentName := componentName).
    rewrite generateComponent_registry. apply registerAll_NoDup. constructor.
  - intros i r key Hr Hk.
    exact (registerAll_least _ (mkGenerator (options this) [] 0) i r key Hr Hk).
  - intros b Hother. apply registerAll_sequence; [| exact Hother].
    intros k. cbn. split; [discriminate | lia].
Qed.

(** The witness of C5's theorem, the scenario of the specification: under
    [twoIcons] the two siblings named Icon receive icon and icon1. *)
Lemma registry_keys_of_a_run_witness :
  dict_keys (generatedStyles (snd (generateComponent defaultGenerator twoIcons None)))
  = ["container"; "icon"; "icon1"]
  /\ map snd
       (filter (fun rk => String.eqb (baseOf (fst rk)) "icon")
          (combine (renderOrder twoIcons true)
             (dict_keys
                (generatedStyles (snd (generateComponent defaultGenerator twoIcons None))))))
     = map (candidate "icon") (seq 0 2).
Proof.
  split; [vm_compute; reflexivity |].
  refine (proj2 (proj2 (proj2
            (registry_keys_of_a_run defaultGenerator twoIcons None))) "icon" _).
  intros r key Hin Hbase k.
  change (In (r, key)
            [ ((twoIcons, true), "container");
              ((shownBox "Icon", false), "icon");
              ((shownBox "Icon", false), "icon1") ]) in Hin.
  destruct Hin as [[= <- <-] | [[= <- <-] | [[= <- <-] | []]]].
  - destruct k; cbn; discriminate.
  - exfalso. apply Hbase. reflexivity.
  - exfalso. apply Hbase. reflexivity.
Defined.

End Registry.

(** ** The markup emitter (C6, C7) *)

Section Markup.
Import ComponentParser StyleParser ReactNativeGenerator Examples.
Local Open Scope nat_scope.

(** C6, as stated, fails: without type declarations the root's markup
    references its registered style alone, not a composition with the
    override style prop. *)
Lemma root_reference_without_types :
  Options.includeTypes (options untypedGenerator) = false
  /\ fst (generateNodeJSX untypedGenerator card 0 true)
     = "    <View style={styles.container} />".
Proof. split; vm_compute; reflexivity. Qed.

(** C6 (amended): with type declarations enabled, the markup of a root that
    is emitted as a container references the two-element composition
    [[registered style, style]]; with type declarations disabled it
    references the registered style alone; and the markup of every non-root
    node (text, image placeholder or container) references only the style
    the node itself was registered with. *)
Theorem style_reference_of_a_node (this : Generator) (node : FigmaNode.t) (depth : nat) :
  shouldRenderNode node = true ->
  (FigmaNode.type node <> "TEXT" -> shouldRenderAsImage node = false ->
   exists childrenJSX this',
     generateNodeJSX this node depth true
     = (containerJSX (indentOf depth) (getComponentType node)
          (if Options.includeTypes (options this)
           then "[" ++ registeredStyleReference this node true ++ ", style]"
           else registeredStyleReference this node true)
          childrenJSX, this'))
  /\ exists childrenJSX this',
       generateNodeJSX this node depth false
       = (if String.eqb (FigmaNode.type node) "TEXT" then
            textJSX (indentOf depth) (registeredStyleReference this node false)
              (extractTextContent node)
          else if shouldRenderAsImage node then
            imageJSX (indentOf depth) (registeredStyleReference this node false)
          else
            containerJSX (indentOf depth) (getComponentType node)
              (registeredStyleReference this node false) childrenJSX,
          this').
Proof.
  intros Hr. split.
  - intros Htext Himg. apply String.eqb_neq in Htext.
    rewrite generateNodeJSX_unfold, Hr, Htext, Himg. cbn [negb].
    pose proof (plainStyleReference_after_children this node true (depth + 1)) as Href.
    pose proof (generateChildrenJSX_registers (snd (generateStyleForNode this node true))
                  node (depth + 1)) as (regs & Hregs).
    destruct (generateStyleForNode this node true) as [styleName this1] eqn:Hs.
    cbn [fst snd] in Href, Hregs.
    destruct (generateChildrenJSX this1 node (depth + 1)) as [childrenJSX this2].
    cbn [snd] in Href, Hregs.
    exists childrenJSX, this2. unfold containerStyleReference. cbn [andb].
    rewrite Href. rewrite Hregs, registerAll_options.
    apply (f_equal snd) in Hs. cbn [generateStyleForNode snd] in Hs. subst this1.
    reflexivity.
  - rewrite generateNodeJSX_unfold, Hr. cbn [negb].
    pose proof (plainStyleReference_after_children this node false (depth + 1)) as Href.
    pose proof (plainStyleReference_registered this node false) as Href1.
    destruct (generateStyleForNode this node false) as [styleName this1].
    cbn [fst snd] in Href, Href1.
    destruct (String.eqb (FigmaNode.type node) "TEXT").
    { exists "", this1. rewrite Href1. reflexivity. }
    destruct (shouldRenderAsImage node).
    { exists "", this1. rewrite Href1. reflexivity. }
    destruct (generateChildrenJSX this1 node (depth + 1)) as [childrenJSX this2].
    cbn [snd] in Href.
    exists childrenJSX, this2. unfold containerStyleReference. cbn [andb].
    rewrite Href. reflexivity.
Qed.

(** The witness of C6's theorem: [twoIcons] as the root under the default
    options, and its first child as a non-root node. *)
Lemma style_reference_of_a_node_witness :
  shouldRenderNode twoIcons = true
  /\ fst (generateNodeJSX defaultGenerator twoIcons 0 true)
     = containerJSX (indentOf 0) "View" "[styles.container, style]"
         (fst (generateChildrenJSX
                 (snd (generateStyleForNode defaultGenerator twoIcons true)) twoIcons 1))
  /\ exists childrenJSX this',
       generateNodeJSX defaultGenerator twoIcons 0 true
       = (containerJSX (indentOf 0) (getComponentType twoIcons)
            (if Options.includeTypes (options defaultGenerator)
             then "[" ++ registeredStyleReference defaultGenerator twoIcons true ++ ", style]"
             else registeredStyleReference defaultGenerator twoIcons true)
            childrenJSX, this').
Proof.
  assert (Hr : shouldRenderNode twoIcons = true) by reflexivity.
  split; [exact Hr | split; [vm_compute; reflexivity |]].
  refine (proj1 (style_reference_of_a_node defaultGenerator twoIcons 0 Hr) _ _).
  - discriminate.
  - reflexivity.
Defined.








End Markup.

(** ** File assembly (C8) *)

Section Assembly.
Import ReactNativeGenerator.

(** C8: [generateFileContent] reads the options and the ComponentSpec only
    and leaves the generator as it found it, so a second call on the same
    ComponentSpec, right after the first or after any change to the style
    registry and the counter, returns the same text. *)
Theorem generateFileContent_repeatable (this : Generator)
  (componentSpec : ReactNativeComponentSpec) :
  (let '(text1, this1) := generateFileContent this componentSpec in
   let '(text2, this2) := generateFileContent this1 componentSpec in
   text1 = text2 /\ this1 = this /\ this2 = this)
  /\ forall registry counter,
       fst (generateFileContent (mkGenerator (options this) registry counter) componentSpec)
       = fst (generateFileContent this componentSpec).
Proof.
  split.
  - unfold generateFileContent. repeat split.
  - intros registry counter. reflexivity.
Qed.

End Assembly.

(** ** Strokes and borders (C3) *)

Section Borders.
Import ComponentParser StyleParser Examples.

(** C3 at its failing input: the only stroke of [hiddenStrokeBox] is
    hidden, so the node has no visible solid stroke (its fill alone makes it
    render), yet its style mapping carries a border in the hidden stroke's
    color. *)
Lemma nodeToStyles_hidden_stroke_border :
  option_map (existsb (fun stroke => not_false (FigmaStroke.visible stroke)))
    (FigmaNode.strokes hiddenStrokeBox) = Some false
  /\ shouldRenderNode hiddenStrokeBox = true
  /\ nodeToStyles hiddenStrokeBox
     = [ ("backgroundColor", VStr "rgb(255, 0, 0)");
         ("borderColor", VStr "rgb(0, 0, 255)");
         ("borderWidth", VNum 1%float);
         ("borderStyle", VStr "solid") ].
Proof. repeat split; vm_compute; reflexivity. Qed.

End Borders.

(* ================================================================= *)
(** ** The formatter *)

Section FormatFacts.
Import ReactNativeGenerator.
Local Open Scope nat_scope.

Lemma collapseBlankLines_length code : forall k,
  String.length (collapseBlankLines k code) <= String.length code.
Proof.
  induction code as [| c rest IH]; intros k; cbn [collapseBlankLines String.length]; [lia |].
  destruct (Ascii.eqb c LF); [destruct (k <? 2) |]; cbn [String.length];
    try (specialize (IH (S k)); lia); try (specialize (IH k); lia); specialize (IH 0); lia.
Qed.

Lemma stripBlankLineStarts_length code : forall atLineStart,
  String.length (stripBlankLineStarts atLineStart code) <= String.length code.
Proof.
  induction code as [| c rest IH]; intros a; cbn [stripBlankLineStarts String.length]; [lia |].
  destruct (a && blankRunHasLF (String c rest)); [destruct (blankRunHasLF rest) |];
    cbn [String.length]; try (specialize (IH true); lia); specialize (IH (isLineTerminator c)); lia.
Qed.

Lemma LF_isWhiteSpace : isWhiteSpace LF = true.
Proof. reflexivity. Qed.

Lemma isLineTerminator_isWhiteSpace c : isLineTerminator c = true -> isWhiteSpace c = true.
Proof.
  destruct c as [[] [] [] [] [] [] [] []]; try discriminate; reflexivity.
Qed.

Lemma blankRunHasLF_cons c rest :
  blankRunHasLF (String c rest) = isWhiteSpace c && (Ascii.eqb c LF || blankRunHasLF rest).
Proof. reflexivity. Qed.

(** Stripping leaves a head run of white space without line feed as it is. *)
Lemma blankRunHasLF_strip code : forall atLineStart,
  blankRunHasLF code = false ->
  blankRunHasLF (stripBlankLineStarts atLineStart code) = false.
Proof.
  induction code as [| c rest IH]; intros a H; [reflexivity |].
  cbn [stripBlankLineStarts]. rewrite H, andb_false_r.
  rewrite blankRunHasLF_cons in *.
  destruct (isWhiteSpace c); [| reflexivity]. cbn [andb] in *.
  apply orb_false_iff in H. destruct H as [Hc Hr]. rewrite Hc. cbn [orb].
  apply IH. exact Hr.
Qed.

Lemma stripBlankLineStarts_idempotent code : forall atLineStart,
  stripBlankLineStarts atLineStart (stripBlankLineStarts atLineStart code)
  = stripBlankLineStarts atLineStart code.
Proof.
  induction code as [| c rest IH]; intros a; [reflexivity |].
  cbn [stripBlankLineStarts].
  destruct (a && blankRunHasLF (String c rest)) eqn:M.
  - apply andb_prop in M. destruct M as [-> M].
    destruct (blankRunHasLF rest) eqn:R; [apply IH |].
    cbn [stripBlankLineStarts]. rewrite blankRunHasLF_cons, LF_isWhiteSpace, Ascii.eqb_refl.
    cbn [andb orb]. rewrite (blankRunHasLF_strip rest true R), IH. reflexivity.
  - cbn [stripBlankLineStarts].
    assert (M' : a && blankRunHasLF (String c (stripBlankLineStarts (isLineTerminator c) rest)) = false).
    { destruct a; [| reflexivity]. cbn [andb] in *.
      rewrite blankRunHasLF_cons in *. destruct (isWhiteSpace c); [| reflexivity].
      cbn [andb] in *. apply orb_false_iff in M. destruct M as [Hc Hr]. rewrite Hc. cbn [orb].
      apply blankRunHasLF_strip. exact Hr. }
    rewrite M', IH. reflexivity.
Qed.

Lemma collapseBlankLines_idempotent code : forall k,
  collapseBlankLines k (collapseBlankLines k code) = collapseBlankLines k code.
Proof.
  induction code as [| c rest IH]; intros k; [reflexivity |].
  cbn [collapseBlankLines]. destruct (Ascii.eqb c LF) eqn:E.
  - destruct (k <? 2) eqn:K; [| apply IH].
    cbn [collapseBlankLines]. rewrite E, K, IH. reflexivity.
  - cbn [collapseBlankLines]. rewrite E, IH. reflexivity.
Qed.

(** Stripping never leaves three line feeds in a row: its result is a fixed
    point of the collapse, whatever number [k] of line feeds came before as
    long as the state of the two passes agree. *)
Lemma collapse_strip code : forall k atLineStart,
  k = 0 \/ (k <= 1 /\ atLineStart = true) \/ blankRunHasLF code = false ->
  collapseBlankLines k (stripBlankLineStarts atLineStart code)
  = stripBlankLineStarts atLineStart code.
Proof.
  induction code as [| c rest IH]; intros k a H; [reflexivity |].
  cbn [stripBlankLineStarts].
  destruct (a && blankRunHasLF (String c rest)) eqn:M.
  - apply andb_prop in M. destruct M as [-> M].
    assert (Hk : k <= 1) by (destruct H as [-> | [[H _] | H]]; [lia | exact H | congruence]).
    destruct (blankRunHasLF rest) eqn:R.
    + apply IH. right. left. split; [exact Hk | reflexivity].
    + cbn [collapseBlankLines]. rewrite Ascii.eqb_refl.
      replace (k <? 2) with true by (symmetry; apply Nat.ltb_lt; lia).
      rewrite IH; [reflexivity | right; right; reflexivity].
  - cbn [collapseBlankLines]. destruct (Ascii.eqb c LF) eqn:E.
    + apply Ascii.eqb_eq in E. subst c.
      rewrite blankRunHasLF_cons, LF_isWhiteSpace, Ascii.eqb_refl in M. cbn [andb orb] in M.
      rewrite andb_true_r in M. subst a.
      assert (Hk : k = 0).
      { destruct H as [-> | [[_ H] | H]]; [reflexivity | discriminate |].
        rewrite blankRunHasLF_cons, LF_isWhiteSpace, Ascii.eqb_refl in H. discriminate. }
      subst k. cbn [Nat.ltb Nat.leb]. rewrite IH; [reflexivity |].
      right. left. split; [lia | reflexivity].
    + rewrite IH; [reflexivity | left; reflexivity].
Qed.

(** A fixed point of both passes, one character further on. *)
Lemma fixed_point_step c rest k a :
  collapseBlankLines k (String c rest) = String c rest ->
  stripBlankLineStarts a (String c rest) = String c rest ->
  exists k' a',
    collapseBlankLines k' rest = rest
    /\ stripBlankLineStarts a' rest = rest
    /\ forall x, blankRunHasLF x = blankRunHasLF rest ->
         collapseBlankLines k (String c x) = String c (collapseBlankLines k' x)
         /\ stripBlankLineStarts a (String c x) = String c (stripBlankLineStarts a' x).
Proof.
  intros HC HS.
  assert (Hk : exists k', collapseBlankLines k' rest = rest
             /\ forall x, collapseBlankLines k (String c x) = String c (collapseBlankLines k' x)).
  { cbn [collapseBlankLines] in *. destruct (Ascii.eqb c LF).
    - destruct (k <? 2).
      + exists (S k). split; [congruence | reflexivity].
      + exfalso. pose proof (collapseBlankLines_length rest k) as L.
        rewrite HC in L. cbn [String.length] in L. lia.
    - exists 0. split; [congruence | reflexivity]. }
  destruct Hk as (k' & Hk1 & Hk2). exists k'.
  cbn [stripBlankLineStarts] in HS. rewrite blankRunHasLF_cons in HS.
  destruct (a && (isWhiteSpace c && (Ascii.eqb c LF || blankRunHasLF rest))) eqn:M.
  - destruct (blankRunHasLF rest) eqn:R.
    + exfalso. pose proof (stripBlankLineStarts_length rest true) as L.
      rewrite HS in L. cbn [String.length] in L. lia.
    + injection HS as Hc HS. exists true. split; [exact Hk1 | split; [exact HS |]].
      intros x Hx. split; [apply Hk2 |].
      cbn [stripBlankLineStarts]. rewrite blankRunHasLF_cons, Hx, M, Hc. reflexivity.
  - exists (isLineTerminator c). split; [exact Hk1 | split; [congruence |]].
    intros x Hx. split; [apply Hk2 |].
    cbn [stripBlankLineStarts]. rewrite blankRunHasLF_cons, Hx, M. reflexivity.
Qed.

Lemma trimStart_fixed_point code : forall k a,
  collapseBlankLines k code = code ->
  stripBlankLineStarts a code = code ->
  collapseBlankLines 0 (trimStart code) = trimStart code
  /\ stripBlankLineStarts true (trimStart code) = trimStart code.
Proof.
  induction code as [| c rest IH]; intros k a HC HS; [split; reflexivity |].
  cbn [trimStart]. destruct (isWhiteSpace c) eqn:W.
  - destruct (fixed_point_step c rest k a HC HS) as (k' & a' & HC' & HS' & _).
    exact (IH k' a' HC' HS').
  - assert (E : Ascii.eqb c LF = false).
    { destruct (Ascii.eqb c LF) eqn:E; [| reflexivity].
      apply Ascii.eqb_eq in E. subst c. discriminate W. }
    split.
    + cbn [collapseBlankLines] in *. rewrite E in *. exact HC.
    + cbn [stripBlankLineStarts] in *. rewrite blankRunHasLF_cons, W in *.
      cbn [andb] in *. rewrite andb_false_r in HS. exact HS.
Qed.

Lemma blankRunHasLF_trimEnd code u :
  trimEnd code <> "" -> blankRunHasLF (trimEnd code ++ u) = blankRunHasLF code.
Proof.
  induction code as [| c rest IH]; intros H; [contradiction |].
  cbn [trimEnd] in *. destruct (trimEnd rest) as [| c2 t] eqn:T.
  - destruct (isWhiteSpace c) eqn:W; [contradiction |].
    cbn [append]. rewrite !blankRunHasLF_cons, W. reflexivity.
  - cbn [append].
    rewrite (blankRunHasLF_cons c (String c2 (t ++ u))), (blankRunHasLF_cons c rest).
    change (String c2 (t ++ u)) with (String c2 t ++ u). rewrite IH by discriminate.
    reflexivity.
Qed.

Lemma trimEnd_fixed_point code : forall k a,
  collapseBlankLines k code = code ->
  stripBlankLineStarts a code = code ->
  trimEnd code <> "" ->
  collapseBlankLines k (trimEnd code ++ nl) = trimEnd code ++ nl
  /\ stripBlankLineStarts a (trimEnd code ++ nl) = trimEnd code ++ nl.
Proof.
  induction code as [| c rest IH]; intros k a HC HS H; [contradiction |].
  cbn [trimEnd] in *. destruct (trimEnd rest) as [| c2 t] eqn:T.
  - destruct (isWhiteSpace c) eqn:W; [contradiction |].
    assert (E : Ascii.eqb c LF = false).
    { destruct (Ascii.eqb c LF) eqn:E; [| reflexivity].
      apply Ascii.eqb_eq in E. subst c. discriminate W. }
    assert (Lt : isLineTerminator c = false).
    { destruct (isLineTerminator c) eqn:Lt; [| reflexivity].
      apply isLineTerminator_isWhiteSpace in Lt. congruence. }
    split.
    + unfold nl. cbn [append collapseBlankLines]. rewrite E, Ascii.eqb_refl. reflexivity.
    + unfold nl. cbn [append stripBlankLineStarts]. rewrite blankRunHasLF_cons, W, Lt.
      cbn [andb]. rewrite andb_false_r. reflexivity.
  - destruct (fixed_point_step c rest k a HC HS) as (k' & a' & HC' & HS' & Hstep).
    assert (Hne : String c2 t <> "") by discriminate.
    destruct (IH k' a' HC' HS' Hne) as [IH1 IH2].
    assert (Hx : blankRunHasLF (String c2 t ++ nl) = blankRunHasLF rest).
    { rewrite <- T. apply blankRunHasLF_trimEnd. rewrite T. exact Hne. }
    destruct (Hstep (String c2 t ++ nl) Hx) as [S1 S2].
    change (String c (String c2 t) ++ nl) with (String c (String c2 t ++ nl)).
    rewrite S1, S2, IH1, IH2. split; reflexivity.
Qed.

Lemma trimEnd_append_nl s : trimEnd (s ++ nl) = trimEnd s.
Proof.
  induction s as [| c r IH]; [reflexivity |].
  cbn [append trimEnd]. rewrite IH. reflexivity.
Qed.

Lemma trimEnd_idempotent s : trimEnd (trimEnd s) = trimEnd s.
Proof.
  induction s as [| c r IH]; [reflexivity |].
  cbn [trimEnd]. destruct (trimEnd r) as [| c2 t] eqn:T.
  - destruct (isWhiteSpace c) eqn:W; [reflexivity |]. cbn. rewrite W. reflexivity.
  - cbn [trimEnd] in *. rewrite IH. reflexivity.
Qed.

Lemma trimStart_head s :
  trimStart s = "" \/ exists c r, trimStart s = String c r /\ isWhiteSpace c = false.
Proof.
  induction s as [| c r IH]; [left; reflexivity |].
  cbn [trimStart]. destruct (isWhiteSpace c) eqn:W; [exact IH |].
  right. exists c, r. split; [reflexivity | exact W].
Qed.

Lemma trim_head s :
  trim s = "" \/ exists c r, trim s = String c r /\ isWhiteSpace c = false.
Proof.
  unfold trim. destruct (trimStart_head s) as [-> | (c & r & -> & W)]; [left; reflexivity |].
  right. cbn [trimEnd]. destruct (trimEnd r); rewrite ?W; eauto.
Qed.

Lemma trim_idempotent s : trim (trim s) = trim s.
Proof.
  destruct (trim_head s) as [E | (c & r & E & W)]; [rewrite E; reflexivity |].
  unfold trim at 1. rewrite E. cbn [trimStart]. rewrite W. rewrite <- E.
  unfold trim. apply trimEnd_idempotent.
Qed.

Lemma trim_append_nl s : trim (trim s ++ nl) = trim s.
Proof.
  destruct (trim_head s) as [E | (c & r & E & W)]; [rewrite E; reflexivity |].
  unfold trim at 1. rewrite E. cbn [append trimStart]. rewrite W.
  change (String c (r ++ nl)) with (String c r ++ nl). rewrite <- E.
  rewrite trimEnd_append_nl. unfold trim. apply trimEnd_idempotent.
Qed.

(** The text [formatCode] returns is a fixed point of its two replacement
    passes. *)
Lemma formatCode_fixed_point code :
  collapseBlankLines 0 (formatCode code) = formatCode code
  /\ stripBlankLineStarts true (formatCode code) = formatCode code.
Proof.
  unfold formatCode.
  set (X := stripBlankLineStarts true (collapseBlankLines 0 code)).
  assert (HC : collapseBlankLines 0 X = X) by (apply collapse_strip; left; reflexivity).
  assert (HS : stripBlankLineStarts true X = X) by apply stripBlankLineStarts_idempotent.
  destruct (trimStart_fixed_point X 0 true HC HS) as [HC' HS'].
  unfold trim. destruct (trimEnd (trimStart X)) eqn:T; [split; reflexivity |].
  rewrite <- T. apply trimEnd_fixed_point; [exact HC' | exact HS' | rewrite T; discriminate].
Qed.

(** X1: formatting formatted text changes nothing. *)
Theorem formatCode_idempotent code : formatCode (formatCode code) = formatCode code.
Proof.
  destruct (formatCode_fixed_point code) as [HC HS].
  unfold formatCode at 1. rewrite HC, HS.
  unfold formatCode. rewrite trim_append_nl. reflexivity.
Qed.

Lemma prefix_LF_more s t : prefix t s = false -> prefix (t ++ nl) s = false.
Proof.
  revert s. induction t as [| c t IH]; intros s H; [destruct s; discriminate H |].
  destruct s as [| d s]; [reflexivity |].
  cbn [prefix append] in *. destruct (ascii_dec c d); [apply IH; exact H | reflexivity].
Qed.

Lemma prefix_LF_cons t r : prefix (nl ++ t) (String LF r) = prefix t r.
Proof.
  unfold nl. cbn [append prefix]. destruct (ascii_dec LF LF); [reflexivity | congruence].
Qed.

Lemma prefix_LF_other t c r : Ascii.eqb c LF = false -> prefix (nl ++ t) (String c r) = false.
Proof.
  intros E. unfold nl. cbn [append prefix].
  destruct (ascii_dec LF c) as [<- | _]; [| reflexivity].
  rewrite Ascii.eqb_refl in E. discriminate.
Qed.

Lemma no_triple_LF s : forall k,
  k <= 2 -> collapseBlankLines k s = s ->
  prefix (repeat_string nl (3 - k)) s = false /\ includes s (nl ++ nl ++ nl) = false.
Proof.
  induction s as [| c r IH]; intros k Hk H.
  - split; [| reflexivity]. destruct k as [| [| [| k]]]; try lia; reflexivity.
  - pose proof (collapseBlankLines_length r k) as L.
    cbn [collapseBlankLines] in H. destruct (Ascii.eqb c LF) eqn:E.
    + apply Ascii.eqb_eq in E. subst c.
      destruct (k <? 2) eqn:K; [| rewrite H in L; cbn [String.length] in L; lia].
      apply Nat.ltb_lt in K. injection H as H.
      destruct (IH (S k) ltac:(lia) H) as [P I].
      assert (P2 : prefix (nl ++ nl) r = false).
      { destruct k as [| [| k]]; try lia; cbn [Nat.sub repeat_string] in P.
        - exact P.
        - apply (prefix_LF_more r nl). exact P. }
      split.
      * destruct k as [| [| k]]; try lia; cbn [Nat.sub repeat_string] in *;
          rewrite prefix_LF_cons; exact P.
      * cbn [includes]. rewrite I, orb_false_r, prefix_LF_cons. exact P2.
    + injection H as H. destruct (IH 0 ltac:(lia) H) as [P I].
      split.
      * destruct k as [| [| [| k]]]; try lia; cbn [Nat.sub repeat_string];
          apply prefix_LF_other; exact E.
      * cbn [includes]. rewrite I, orb_false_r. apply prefix_LF_other. exact E.
Qed.

(** X2: formatted text is a body without white space at either end,
    followed by one line feed, and holds no three line feeds in a row. *)
Theorem formatCode_shape code :
  exists body,
    formatCode code = body ++ nl
    /\ trim body = body
    /\ includes (formatCode code) (nl ++ nl ++ nl) = false.
Proof.
  exists (trim (stripBlankLineStarts true (collapseBlankLines 0 code))).
  split; [reflexivity | split; [apply trim_idempotent |]].
  apply (no_triple_LF _ 0); [lia | apply formatCode_fixed_point].
Qed.

End FormatFacts.

(* ================================================================= *)
(** ** Rendered nodes and the analysis flags *)

Section TreeFacts.
Import ComponentParser.
Local Open Scope nat_scope.

Lemma shouldRenderNode_unfold node :
  shouldRenderNode node
  = if negb (not_false (FigmaNode.visible node)) then false
    else if negb (hasVisualContent node) && negb (hasRenderableChildren node) then false
    else true.
Proof. destruct node; reflexivity. Qed.

(** X3: a node renders exactly when it or a node under it has visual
    content and neither that node nor a node on the way down to it is
    hidden. *)
Theorem shouldRenderNode_iff node :
  shouldRenderNode node = true
  <-> exists d, ShownPath node d /\ hasVisualContent d = true.
Proof.
  split.
  - remember (node_size node) as m eqn:Hm. revert node Hm.
    induction m as [m IH] using lt_wf_ind. intros node Hm R.
    rewrite shouldRenderNode_unfold in R.
    destruct (not_false (FigmaNode.visible node)) eqn:V; [| discriminate]. cbn [negb] in R.
    destruct (hasVisualContent node) eqn:C.
    + exists node. split; [constructor; exact V | exact C].
    + cbn [negb andb] in R. unfold hasRenderableChildren in R.
      destruct (FigmaNode.children node) as [children |] eqn:Ch; [| discriminate].
      destruct (existsb _ children) eqn:Ex; [| discriminate].
      apply existsb_exists in Ex as (child & Hin & Hc).
      apply andb_true_iff in Hc as [_ Rc].
      destruct (IH (node_size child)
                  ltac:(subst m; eapply node_size_child; eassumption)
                  child eq_refl Rc) as (d & P & Cd).
      exists d. split; [econstructor; eassumption | exact Cd].
  - intros (d & P & C). induction P as [n V | n children child d V Ch Hin P IH].
    + rewrite shouldRenderNode_unfold, V, C. reflexivity.
    + rewrite shouldRenderNode_unfold, V. cbn [negb].
      assert (H : hasRenderableChildren n = true).
      { unfold hasRenderableChildren. rewrite Ch. apply existsb_exists.
        exists child. split; [exact Hin |].
        specialize (IH C). rewrite IH, andb_true_r.
        rewrite shouldRenderNode_unfold in IH.
        destruct (not_false (FigmaNode.visible child)); [reflexivity | discriminate]. }
      rewrite H. destruct (hasVisualContent n); reflexivity.
Qed.

Lemma analyzeNodeRecursively_unfold n fl :
  analyzeNodeRecursively n fl
  = match FigmaNode.children n with
    | Some children =>
        fold_left (fun acc child =>
                     if shouldRenderNode child
                     then analyzeNodeRecursively child acc else acc)
                  children (visitNode n fl)
    | None => visitNode n fl
    end.
Proof. destruct n; reflexivity. Qed.

Section Flag.
(** One of the three flags, with the test that raises it. *)
Variables (flag : Flags -> bool) (test : FigmaNode.t -> bool).
Hypothesis visit_flag : forall n fl, flag (visitNode n fl) = flag fl || test n.

Lemma fold_flag (children : list FigmaNode.t) :
  (forall child, In child children -> forall fl,
     flag (analyzeNodeRecursively child fl) = true
     <-> flag fl = true \/ test child = true
         \/ exists d, RenderedBelow child d /\ test d = true) ->
  forall fl,
    flag (fold_left (fun acc child =>
                       if shouldRenderNode child
                       then analyzeNodeRecursively child acc else acc) children fl) = true
    <-> flag fl = true
        \/ exists child, In child children /\ shouldRenderNode child = true
             /\ (test child = true \/ exists d, RenderedBelow child d /\ test d = true).
Proof.
  induction children as [| c cs IH]; intros Hc fl; cbn [fold_left].
  - split; [auto | intros [H | (? & [] & _)]; exact H].
  - rewrite IH by (intros; apply Hc; right; assumption).
    destruct (shouldRenderNode c) eqn:R.
    + rewrite (Hc c (or_introl eq_refl)). split.
      * intros [[H | [H | H]] | (child & Hin & H)]; auto.
        -- right. exists c. split; [left; reflexivity | auto].
        -- right. exists c. split; [left; reflexivity | auto].
        -- right. exists child. split; [right; exact Hin | exact H].
      * intros [H | (child & [<- | Hin] & Rc & [H | H])]; auto.
        -- right. exists child. auto.
        -- right. exists child. auto.
    + split.
      * intros [H | (child & Hin & H)]; auto.
        right. exists child. split; [right; exact Hin | exact H].
      * intros [H | (child & [<- | Hin] & Rc & H)]; auto.
        -- rewrite R in Rc. discriminate.
        -- right. exists child. auto.
Qed.

Lemma below_children n children :
  FigmaNode.children n = Some children ->
  (exists child, In child children /\ shouldRenderNode child = true
     /\ (test child = true \/ exists d, RenderedBelow child d /\ test d = true))
  <-> exists d, RenderedBelow n d /\ test d = true.
Proof.
  intros Ch. split.
  - intros (child & Hin & R & [T | (d & B & T)]).
    + exists child. split; [econstructor; eassumption | exact T].
    + exists d. split; [eapply rendered_deeper; eassumption | exact T].
  - intros (d & B & T). inversion B as [? cs child Ch' Hin R | ? cs child ? Ch' Hin R B']; subst;
      rewrite Ch in Ch'; injection Ch' as <-.
    + exists d. auto.
    + exists child. split; [exact Hin | split; [exact R | right; exists d; auto]].
Qed.

Lemma analyzeNodeRecursively_flag : forall n fl,
  flag (analyzeNodeRecursively n fl) = true
  <-> flag fl = true \/ test n = true \/ exists d, RenderedBelow n d /\ test d = true.
Proof.
  intros n. remember (node_size n) as m eqn:Hm. revert n Hm.
  induction m as [m IH] using lt_wf_ind. intros n Hm fl.
  rewrite analyzeNodeRecursively_unfold.
  destruct (FigmaNode.children n) as [children |] eqn:Ch.
  - rewrite fold_flag.
    + rewrite (below_children n children Ch), visit_flag, orb_true_iff. tauto.
    + intros child Hin fl'. apply (IH (node_size child)); [| reflexivity].
      subst m. eapply node_size_child; eassumption.
  - rewrite visit_flag, orb_true_iff. split.
    + tauto.
    + intros [H | [H | (d & B & _)]]; auto.
      inversion B; congruence.
Qed.

Lemma analyzeComponent_flag (node : FigmaNode.t) :
  flag match FigmaNode.children node with
       | Some children =>
           fold_left (fun acc child =>
                        if shouldRenderNode child
                        then analyzeNodeRecursively child acc else acc)
                     children (mkFlags false false false)
       | None => mkFlags false false false
       end = true
  <-> flag (mkFlags false false false) = true
      \/ exists d, RenderedBelow node d /\ test d = true.
Proof.
  destruct (FigmaNode.children node) as [children |] eqn:Ch.
  - rewrite fold_flag.
    + rewrite (below_children node children Ch). tauto.
    + intros child _ fl. apply analyzeNodeRecursively_flag.
  - split; [auto |]. intros [H | (d & B & _)]; [exact H |]. inversion B; congruence.
Qed.
End Flag.

Lemma visitNode_hasText n fl :
  f_hasText (visitNode n fl) = f_hasText fl || String.eqb (FigmaNode.type n) "TEXT".
Proof.
  unfold visitNode.
  destruct (String.eqb (FigmaNode.type n) "TEXT"), (shouldRenderAsImage n),
    (looks_interactive (FigmaNode.name n)); cbn; rewrite ?orb_true_r, ?orb_false_r;
    reflexivity.
Qed.

Lemma visitNode_hasImages n fl :
  f_hasImages (visitNode n fl) = f_hasImages fl || shouldRenderAsImage n.
Proof.
  unfold visitNode.
  destruct (String.eqb (FigmaNode.type n) "TEXT"), (shouldRenderAsImage n),
    (looks_interactive (FigmaNode.name n)); cbn; rewrite ?orb_true_r, ?orb_false_r;
    reflexivity.
Qed.

Lemma visitNode_hasInteractiveElements n fl :
  f_hasInteractiveElements (visitNode n fl)
  = f_hasInteractiveElements fl || looks_interactive (FigmaNode.name n).
Proof.
  unfold visitNode.
  destruct (String.eqb (FigmaNode.type n) "TEXT"), (shouldRenderAsImage n),
    (looks_interactive (FigmaNode.name n)); cbn; rewrite ?orb_true_r, ?orb_false_r;
    reflexivity.
Qed.

Lemma analyzeComponent_flags node :
  let fl :=
    match FigmaNode.children node with
    | Some children =>
        fold_left (fun acc child =>
                     if shouldRenderNode child
                     then analyzeNodeRecursively child acc else acc)
                  children (mkFlags false false false)
    | None => mkFlags false false false
    end in
  hasText (analyzeComponent node) = f_hasText fl
  /\ hasImages (analyzeComponent node) = f_hasImages fl
  /\ hasInteractiveElements (analyzeComponent node) = f_hasInteractiveElements fl.
Proof.
  unfold analyzeComponent. destruct (FigmaNode.children node); cbn; auto.
Qed.

(** X4: each flag of the analysis is raised exactly by a node under the
    root that is reached through rendered nodes; the root itself raises
    none. *)
Theorem analyzeComponent_flags_iff node :
  (hasText (analyzeComponent node) = true
   <-> exists d, RenderedBelow node d /\ FigmaNode.type d = "TEXT")
  /\ (hasImages (analyzeComponent node) = true
      <-> exists d, RenderedBelow node d /\ shouldRenderAsImage d = true)
  /\ (hasInteractiveElements (analyzeComponent node) = true
      <-> exists d, RenderedBelow node d /\ looks_interactive (FigmaNode.name d) = true).
Proof.
  destruct (analyzeComponent_flags node) as (-> & -> & ->).
  split; [| split].
  - rewrite (analyzeComponent_flag f_hasText
               (fun n => String.eqb (FigmaNode.type n) "TEXT") visitNode_hasText).
    cbn [f_hasText]. split.
    + intros [H | (d & B & T)]; [discriminate |].
      exists d. split; [exact B | apply String.eqb_eq; exact T].
    + intros (d & B & T). right. exists d. split; [exact B | apply String.eqb_eq; exact T].
  - rewrite (analyzeComponent_flag f_hasImages shouldRenderAsImage visitNode_hasImages).
    cbn [f_hasImages]. split; [intros [H | H]; [discriminate | exact H] | auto].
  - rewrite (analyzeComponent_flag f_hasInteractiveElements
               (fun n => looks_interactive (FigmaNode.name n))
               visitNode_hasInteractiveElements).
    cbn [f_hasInteractiveElements]. split; [intros [H | H]; [discriminate | exact H] | auto].
Qed.

End TreeFacts.

(* ================================================================= *)
(** ** Names *)

Section NamingFacts.
Import ComponentParser StringUtils.
Local Open Scope nat_scope.

Ltac by_ascii c :=
  destruct c as [[] [] [] [] [] [] [] []]; vm_compute; intuition discriminate.

Lemma alnum_lower c : alnum c = true -> alnum (lower_char c) = true.
Proof. by_ascii c. Qed.

Lemma alnum_upper c : alnum c = true -> alnum (upper_char c) = true.
Proof. by_ascii c. Qed.

Lemma alnum_not_ws c : alnum c = true -> isWhiteSpace c = false.
Proof. by_ascii c. Qed.

Lemma every_append p a b : every p (a ++ b) = every p a && every p b.
Proof.
  induction a as [| c a IH]; cbn [append every]; [reflexivity |].
  rewrite IH, andb_assoc. reflexivity.
Qed.

Lemma every_impl (p q : ascii -> bool) s :
  (forall c, p c = true -> q c = true) -> every p s = true -> every q s = true.
Proof.
  intros I. induction s as [| c s IH]; cbn [every]; [reflexivity |].
  intros H. apply andb_true_iff in H as [H1 H2]. rewrite (I c H1), (IH H2). reflexivity.
Qed.

Lemma every_map p f s :
  (forall c, p c = true -> p (f c) = true) -> every p s = true ->
  every p (string_map f s) = true.
Proof.
  intros I. induction s as [| c s IH]; cbn [every string_map]; [reflexivity |].
  intros H. apply andb_true_iff in H as [H1 H2]. rewrite (I c H1), (IH H2). reflexivity.
Qed.

Lemma every_join p sep l :
  every p sep = true -> Forall (fun s => every p s = true) l -> every p (join sep l) = true.
Proof.
  intros S. induction 1 as [| x l Hx Hl IH]; [reflexivity |].
  destruct l as [| y l]; [exact Hx |].
  change (join sep (x :: y :: l)) with (x ++ sep ++ join sep (y :: l)).
  rewrite !every_append, Hx, S, IH. reflexivity.
Qed.

(** The pieces [split] cuts hold no white space. *)
Lemma split_ws_from_alnum s : forall cur in_ws,
  every alnum cur = true ->
  every (fun c => alnum c || isWhiteSpace c) s = true ->
  Forall (fun w => every alnum w = true) (split_ws_from cur in_ws s).
Proof.
  induction s as [| c s IH]; intros cur in_ws Hc Hs; cbn [split_ws_from].
  - constructor; [exact Hc | constructor].
  - cbn [every] in Hs. apply andb_true_iff in Hs as [H1 H2].
    destruct (isWhiteSpace c) eqn:W.
    + destruct in_ws; [apply IH; assumption |].
      constructor; [exact Hc | apply IH; [reflexivity | exact H2]].
    + apply IH; [| exact H2]. rewrite every_append, Hc. cbn [every].
      rewrite orb_false_r in H1. rewrite H1. reflexivity.
Qed.

Lemma strip_non_alnum_ws_every s :
  every (fun c => alnum c || isWhiteSpace c) (strip_non_alnum_ws s) = true.
Proof.
  unfold strip_non_alnum_ws, alnum.
  induction s as [| c s IH]; cbn [string_filter every]; [reflexivity |].
  destruct (isUpperAZ c || isLowerAZ c || isDigit09 c || isWhiteSpace c) eqn:E;
    [| exact IH].
  cbn [every]. rewrite E, IH. reflexivity.
Qed.

Lemma blank_non_alnum_ws_every s :
  every (fun c => alnum c || isWhiteSpace c) (blank_non_alnum_ws s) = true.
Proof.
  unfold blank_non_alnum_ws, alnum.
  induction s as [| c s IH]; cbn [string_map every]; [reflexivity |].
  rewrite IH, andb_true_r.
  destruct (isUpperAZ c || isLowerAZ c || isDigit09 c || isWhiteSpace c) eqn:E;
    [exact E | reflexivity].
Qed.

Lemma split_ws_alnum s :
  every (fun c => alnum c || isWhiteSpace c) s = true ->
  Forall (fun w => every alnum w = true) (split_ws s).
Proof. apply split_ws_from_alnum. reflexivity. Qed.

Lemma toLowerCase_alnum w : every alnum w = true -> every alnum (toLowerCase w) = true.
Proof. apply every_map. exact alnum_lower. Qed.

Lemma toUpperCase_alnum w : every alnum w = true -> every alnum (toUpperCase w) = true.
Proof. apply every_map. exact alnum_upper. Qed.

Lemma charAt0_slice1 w : charAt0 w ++ slice1 w = w.
Proof. destruct w; reflexivity. Qed.

Lemma every_charAt0 p w : every p w = true -> every p (charAt0 w) = true.
Proof.
  destruct w as [| c w]; [reflexivity |]. cbn [every charAt0].
  intros H. apply andb_true_iff in H as [-> _]. reflexivity.
Qed.

Lemma every_slice1 p w : every p w = true -> every p (slice1 w) = true.
Proof.
  destruct w as [| c w]; [reflexivity |]. cbn [every slice1].
  intros H. apply andb_true_iff in H as [_ H]. exact H.
Qed.

Lemma capitalize_word_alnum w :
  every alnum w = true -> every alnum (capitalize_word w) = true.
Proof.
  intros H. unfold capitalize_word.
  rewrite every_append, toUpperCase_alnum, toLowerCase_alnum;
    auto using every_charAt0, every_slice1.
Qed.

Lemma camel_words_alnum l : forall i,
  Forall (fun w => every alnum w = true) l ->
  Forall (fun w => every alnum w = true) (camel_words i l).
Proof.
  induction l as [| w l IH]; intros i H; cbn [camel_words]; [constructor |].
  inversion H; subst. constructor; [| apply IH; assumption].
  destruct (i =? 0); [apply toLowerCase_alnum | apply capitalize_word_alnum]; assumption.
Qed.

Lemma map_alnum (f : string -> string) l :
  (forall w, every alnum w = true -> every alnum (f w) = true) ->
  Forall (fun w => every alnum w = true) l ->
  Forall (fun w => every alnum w = true) (map f l).
Proof. intros F. induction 1; constructor; auto. Qed.

(** A string of letters and digits that starts with a letter is an
    identifier. *)
Lemma isValidIdentifier_alnum s :
  starts_letter s = true -> every alnum s = true -> isValidIdentifier s = true.
Proof.
  destruct s as [| c s]; [discriminate |]. cbn [starts_letter every isValidIdentifier].
  intros L H. apply andb_true_iff in H as [_ H].
  apply andb_true_iff. split.
  - rewrite (orb_comm (isLowerAZ c)), L. reflexivity.
  - revert H. apply every_impl. intros c'. unfold alnum. intros A.
    rewrite (orb_comm (isLowerAZ c')), A. reflexivity.
Qed.

Lemma generateStyleName_alnum nodeName : every alnum (generateStyleName nodeName) = true.
Proof.
  unfold generateStyleName.
  set (name := join "" _).
  assert (A : every alnum name = true).
  { apply every_join; [reflexivity |]. apply camel_words_alnum, split_ws_alnum,
      strip_non_alnum_ws_every. }
  destruct (_ || _); [| exact A].
  rewrite !every_append, toUpperCase_alnum, every_slice1; auto using every_charAt0.
Qed.

(** X5: every style name is an identifier. *)
Theorem generateStyleName_isValidIdentifier nodeName :
  isValidIdentifier (generateStyleName nodeName) = true.
Proof.
  apply isValidIdentifier_alnum; [| apply generateStyleName_alnum].
  unfold generateStyleName. set (name := join "" _).
  destruct (String.length name =? 0) eqn:L; cbn [orb]; [reflexivity |].
  destruct (starts_letter name) eqn:S; cbn [negb]; [exact S | reflexivity].
Qed.





(** *** [sanitizeIdentifier] *)

Lemma words_alnum s :
  every (fun c => alnum c || isWhiteSpace c) s = true ->
  Forall (fun w => every alnum w = true) (words s).
Proof.
  intros H. unfold words. apply split_ws_alnum in H.
  induction H as [| w l Hw Hl IH]; cbn [filter]; [constructor |].
  destruct (0 <? String.length w); [constructor |]; assumption.
Qed.

Lemma toPascalCase_alnum str : every alnum (toPascalCase str) = true.
Proof.
  unfold toPascalCase. apply every_join; [reflexivity |].
  apply (map_alnum (fun word => toUpperCase (charAt0 word) ++ toLowerCase (slice1 word)));
    [exact capitalize_word_alnum |].
  apply words_alnum, blank_non_alnum_ws_every.
Qed.

Lemma toCamelCase_alnum str : every alnum (toCamelCase str) = true.
Proof.
  unfold toCamelCase. pose proof (toPascalCase_alnum str) as A.
  rewrite every_append, toLowerCase_alnum, every_slice1; auto using every_charAt0.
Qed.

Lemma alnum_cases s :
  every alnum s = true -> s = "" \/ starts_digit s = true \/ starts_letter s = true.
Proof.
  destruct s as [| c s]; [auto |]. cbn [every starts_digit starts_letter].
  intros H. apply andb_true_iff in H as [H _]. unfold alnum in H.
  destruct (isDigit09 c); [auto |]. rewrite orb_false_r in H. auto.
Qed.

(** X7: [sanitizeIdentifier] always returns an identifier. *)
Theorem sanitizeIdentifier_isValidIdentifier str :
  isValidIdentifier (sanitizeIdentifier str) = true.
Proof.
  unfold sanitizeIdentifier.
  set (identifier := toCamelCase _).
  pose proof (toCamelCase_alnum (trim (blank_non_alnum_ws str))) as A. fold identifier in A.
  destruct (starts_digit identifier) eqn:D.
  - cbn [append String.length Nat.eqb].
    apply (isValidIdentifier_alnum ("component" ++ _)); [reflexivity |].
    rewrite every_append, toPascalCase_alnum. reflexivity.
  - destruct (alnum_cases _ A) as [E | [E | E]].
    + rewrite E. reflexivity.
    + congruence.
    + destruct identifier as [| c s] eqn:I; [discriminate |].
      cbn [String.length Nat.eqb]. apply isValidIdentifier_alnum; assumption.
Qed.

End NamingFacts.

(* ================================================================= *)
(** ** A run of the generator *)

Section RunFacts.
Import ComponentParser StyleParser ReactNativeGenerator Examples.
Local Open Scope nat_scope.

Lemma registerAll_values regs : forall this,
  map snd (generatedStyles (snd (registerAll this regs)))
  = (map snd (generatedStyles this)
       ++ map (fun r => stylePropsFor (fst r) (snd r)) regs)%list.
Proof.
  induction regs as [| [n r] regs IH]; intros this.
  - cbn. rewrite app_nil_r. reflexivity.
  - cbn [registerAll]. unfold generateStyleForNode.
    specialize (IH (with_styles this (dict_set (generatedStyles this) (styleNameFor this n r)
                                        (stylePropsFor n r)))).
    destruct (registerAll _ regs) as [keys this2]. cbn [fst snd] in *.
    rewrite IH. cbn [with_styles generatedStyles map fst snd].
    rewrite dict_set_fresh by apply styleNameFor_free.
    rewrite map_app, <- app_assoc. reflexivity.
Qed.

Lemma registerAll_counter regs : forall this,
  componentCounter (snd (registerAll this regs)) = componentCounter this.
Proof.
  induction regs as [| [n r] regs IH]; intros this; [reflexivity |].
  cbn [registerAll]. unfold generateStyleForNode.
  specialize (IH (with_styles this (dict_set (generatedStyles this) (styleNameFor this n r)
                                      (stylePropsFor n r)))).
  destruct (registerAll _ regs). cbn [snd] in *. exact IH.
Qed.

(** X8: the registry after a run holds, in render order, the style of
    each rendered node; [getStats] counts these styles and no component. *)
Theorem generateComponent_registry_values this node componentName :
  let this' := snd (generateComponent this node componentName) in
  map snd (generatedStyles this')
  = map (fun r => stylePropsFor (fst r) (snd r)) (renderOrder node true)
  /\ getStats this' = mkStats (List.length (renderOrder node true)) 0 0.
Proof.
  cbv zeta. rewrite generateComponent_registry. split.
  - rewrite registerAll_values. reflexivity.
  - unfold getStats. rewrite registerAll_counter. cbn [componentCounter].
    rewrite <- (length_map snd), registerAll_values. cbn [generatedStyles map app].
    rewrite length_map. reflexivity.
Qed.

Lemma registerAll_nil_iff this regs :
  snd (registerAll this regs) = this -> regs = [].
Proof.
  intros H. apply (f_equal (fun t => List.length (map snd (generatedStyles t)))) in H.
  rewrite registerAll_values, length_app, !length_map in H.
  destruct regs; [reflexivity | cbn [List.length] in H; lia].
Qed.

(** X9: a node that does not render leaves no markup and no style
    behind; one that renders leaves markup that is not blank and changes
    the generator. *)
Theorem generateNodeJSX_blank_iff this node depth isRoot :
  (shouldRenderNode node = false
   <-> trim (fst (generateNodeJSX this node depth isRoot)) = "")
  /\ (shouldRenderNode node = false
      <-> snd (generateNodeJSX this node depth isRoot) = this).
Proof.
  split; split.
  - intros R. rewrite generateNodeJSX_unfold, R. reflexivity.
  - intros B. destruct (shouldRenderNode node) eqn:R; [| reflexivity].
    pose proof (startsWithTag_trim _ (generateNodeJSX_startsWithTag this node depth isRoot R)) as T.
    rewrite B in T. discriminate.
  - intros R. rewrite generateNodeJSX_unfold, R. reflexivity.
  - intros S. destruct (shouldRenderNode node) eqn:R; [| reflexivity].
    rewrite generateNodeJSX_registers in S. apply registerAll_nil_iff in S.
    rewrite renderOrder_unfold, R in S. discriminate.
Qed.

Lemma prefix_append a b : prefix a (a ++ b) = true.
Proof.
  induction a as [| c a IH]; cbn [append prefix]; [destruct b; reflexivity |].
  destruct (ascii_dec c c); [exact IH | congruence].
Qed.

Lemma includes_here s sub : prefix sub s = true -> includes s sub = true.
Proof. intros H. destruct s; cbn [includes]; rewrite H; reflexivity. Qed.

Lemma includes_append_r a s sub : includes s sub = true -> includes (a ++ s) sub = true.
Proof.
  intros H. induction a as [| c a IH]; [exact H |].
  cbn [append includes]. rewrite IH. apply orb_true_r.
Qed.

Lemma includes_append_l s b sub : includes s sub = true -> includes (s ++ b) sub = true.
Proof.
  assert (P : forall u s, prefix u s = true -> prefix u (s ++ b) = true).
  { induction u as [| c u IHu]; intros s0 H; [destruct (s0 ++ b); reflexivity |].
    destruct s0 as [| c0 s0]; [discriminate |]. cbn [append prefix] in *.
    destruct (ascii_dec c c0); [auto | discriminate]. }
  induction s as [| c s IH]; cbn [includes append]; intros H.
  - apply orb_true_iff in H as [H | H]; [| discriminate].
    destruct sub; [| discriminate]. destruct b; reflexivity.
  - apply orb_true_iff in H as [H | H].
    + apply (P _ (String c s)) in H. cbn [append] in H. rewrite H. reflexivity.
    + rewrite (IH H). apply orb_true_r.
Qed.

(** X10: for a text node at the root with no rendered text under it, the
    component uses [Text] and the import line does not name it. *)
Theorem root_text_node_imports this node componentName :
  FigmaNode.type node = "TEXT" ->
  shouldRenderNode node = true ->
  (forall d, RenderedBelow node d -> FigmaNode.type d <> "TEXT") ->
  exists spec this',
    generateComponent this node componentName = (Ok spec, this')
    /\ imports spec
       = [ "import React from 'react';";
           "import { "
             ++ (if Options.useStyleSheet (options this) then "StyleSheet, " else "")
             ++ "View"
             ++ (if Options.includeTypes (options this) then ", ViewStyle" else "")
             ++ " } from 'react-native';" ]
    /\ includes (component spec) "<Text style={" = true.
Proof.
  intros T R NoText.
  assert (H : hasText (analyzeComponent node) = false).
  { destruct (hasText (analyzeComponent node)) eqn:E; [| reflexivity].
    destruct (analyzeComponent_flags node) as (F & _). rewrite F in E.
    apply (analyzeComponent_flag f_hasText
             (fun n => String.eqb (FigmaNode.type n) "TEXT") visitNode_hasText) in E
      as [E | (d & B & Td)]; [discriminate |].
    apply String.eqb_eq in Td. exfalso. exact (NoText d B Td). }
  unfold generateComponent, generateValidated.
  cbn [validateComponent ComponentParser.isValid List.length Nat.eqb negb].
  unfold generateComponentJSX. cbn [options].
  rewrite generateNodeJSX_unfold, R. cbn [negb].
  destruct (generateStyleForNode _ node true) as [styleName this1] eqn:G.
  rewrite T. cbn [String.eqb Ascii.eqb Bool.eqb].
  eexists. eexists. split; [reflexivity |]. cbn [imports component]. split.
  - unfold generateImports. rewrite H. cbn [options].
    destruct (Options.useStyleSheet (options this)), (Options.includeTypes (options this));
      reflexivity.
  - repeat match goal with
           | |- includes (textJSX _ _ _ ++ _) _ = true => fail 1
           | |- includes (_ ++ _) _ = true => apply includes_append_r
           end.
    apply includes_append_l. unfold textJSX. apply includes_append_r.
    apply includes_here. apply (prefix_append "<Text style={").
Qed.

Lemma root_text_node_imports_witness :
  exists spec this',
    generateComponent defaultGenerator redLabel None = (Ok spec, this')
    /\ imports spec
       = [ "import React from 'react';";
           "import { StyleSheet, View, ViewStyle } from 'react-native';" ]
    /\ includes (component spec) "<Text style={" = true.
Proof.
  apply (root_text_node_imports defaultGenerator redLabel None);
    [reflexivity | reflexivity |].
  intros d B. inversion B; discriminate.
Defined.

End RunFacts.

(* ================================================================= *)
(** ** The style of a node, key by key *)

Section StyleFacts.
Import ComponentParser StyleParser ReactNativeGenerator Examples.
Local Open Scope nat_scope.
Implicit Types (s : ReactNativeStyleProperties) (k : string).

(** *** Lookups in a dictionary after an update *)

Lemma dict_get_set {V} (d : dict V) k v k' :
  dict_get (dict_set d k v) k' = if String.eqb k k' then Some v else dict_get d k'.
Proof.
  induction d as [| [k0 v0] d IH]; cbn [dict_set dict_get]; [reflexivity |].
  destruct (String.eqb k0 k) eqn:E; cbn [dict_get].
  - apply String.eqb_eq in E. subst k0. destruct (String.eqb k k'); reflexivity.
  - destruct (String.eqb k0 k') eqn:E'; [| exact IH].
    destruct (String.eqb k k') eqn:E2; [| reflexivity].
    apply String.eqb_eq in E', E2. subst. rewrite String.eqb_refl in E. discriminate.
Qed.

Lemma dict_get_set_other {V} (d : dict V) k v k' :
  String.eqb k k' = false -> dict_get (dict_set d k v) k' = dict_get d k'.
Proof. intros E. rewrite dict_get_set, E. reflexivity. Qed.

Lemma dict_get_delete_eqb {V} (d : dict V) k k' :
  dict_get (dict_delete d k) k' = if String.eqb k k' then None else dict_get d k'.
Proof.
  destruct (String.eqb k k') eqn:E.
  - apply String.eqb_eq in E. subst. apply dict_get_delete_same.
  - apply dict_get_delete_other. intros ->. rewrite String.eqb_refl in E. discriminate.
Qed.

Lemma dict_get_delete_miss {V} (d : dict V) k k' :
  String.eqb k k' = false -> dict_get (dict_delete d k) k' = dict_get d k'.
Proof. intros E. rewrite dict_get_delete_eqb, E. reflexivity. Qed.

Lemma dict_get_assign_none {V} (src : dict V) : forall (d : dict V) k,
  dict_get src k = None -> dict_get (dict_assign d src) k = dict_get d k.
Proof.
  unfold dict_assign.
  induction src as [| [k0 v0] src IH]; intros d k H; [reflexivity |].
  cbn [dict_get] in H. cbn [fold_left fst snd].
  destruct (String.eqb k0 k) eqn:E; [discriminate |].
  rewrite IH by exact H. rewrite dict_get_set, E. reflexivity.
Qed.

Lemma dict_get_assign_some {V} (src : dict V) : forall (d : dict V) k v,
  NoDup (dict_keys src) -> dict_get src k = Some v ->
  dict_get (dict_assign d src) k = Some v.
Proof.
  unfold dict_assign.
  induction src as [| [k0 v0] src IH]; intros d k v N H; [discriminate |].
  cbn [dict_get] in H. cbn [fold_left fst snd]. cbn [dict_keys map fst] in N.
  inversion N as [| ? ? Hn N']. subst.
  destruct (String.eqb k0 k) eqn:E.
  - apply String.eqb_eq in E. subst k0. injection H as <-.
    change (dict_get (dict_assign (dict_set d k v0) src) k = Some v0).
    rewrite dict_get_assign_none.
    + apply dict_get_set_same.
    + destruct (dict_get src k) eqn:G; [| reflexivity].
      exfalso. apply Hn. apply dict_has_In. unfold dict_has. rewrite G. reflexivity.
  - apply IH; assumption.
Qed.

Lemma dict_get_assign {V} (src d : dict V) k :
  NoDup (dict_keys src) ->
  dict_get (dict_assign d src) k
  = match dict_get src k with Some v => Some v | None => dict_get d k end.
Proof.
  intros N. destruct (dict_get src k) eqn:G.
  - apply dict_get_assign_some; assumption.
  - apply dict_get_assign_none; assumption.
Qed.

Lemma dict_keys_set {V} (d : dict V) k v :
  dict_keys (dict_set d k v)
  = if dict_has d k then dict_keys d else (dict_keys d ++ [k])%list.
Proof.
  unfold dict_has, dict_keys.
  induction d as [| [k0 v0] d IH]; cbn [dict_set dict_get map fst app]; [reflexivity |].
  destruct (String.eqb k0 k) eqn:E; cbn [map fst].
  - apply String.eqb_eq in E. subst. reflexivity.
  - rewrite IH. destruct (dict_get d k); reflexivity.
Qed.

Lemma dict_set_NoDup {V} (d : dict V) k v :
  NoDup (dict_keys d) -> NoDup (dict_keys (dict_set d k v)).
Proof.
  intros N. rewrite dict_keys_set. destruct (dict_has d k) eqn:H; [exact N |].
  apply dict_has_false in H.
  apply NoDup_rev in N. rewrite <- (rev_involutive (_ ++ _)%list).
  apply NoDup_rev. rewrite rev_app_distr. cbn [rev app].
  constructor; [rewrite <- in_rev; exact H | exact N].
Qed.

(** *** The conditional assignments *)

Lemma get_set_if_defined_other k v s k' :
  String.eqb k k' = false -> dict_get (set_if_defined k v s) k' = dict_get s k'.
Proof. intros E. destruct v; cbn [set_if_defined]; [apply dict_get_set_other, E | reflexivity]. Qed.

Lemma get_set_if_defined_same k v s :
  dict_get (set_if_defined k v s) k
  = match v with Some x => Some (VNum x) | None => dict_get s k end.
Proof. destruct v; cbn [set_if_defined]; [apply dict_get_set_same | reflexivity]. Qed.

Lemma get_set_if_str_other k v f s k' :
  String.eqb k k' = false -> dict_get (set_if_str k v f s) k' = dict_get s k'.
Proof.
  intros E. unfold set_if_str. destruct v as [x |]; [| reflexivity].
  destruct (truthy_str x); [apply dict_get_set_other, E | reflexivity].
Qed.

Lemma get_set_if_num_other k v s k' :
  String.eqb k k' = false -> dict_get (set_if_num k v s) k' = dict_get s k'.
Proof.
  intros E. unfold set_if_num. destruct v as [x |]; [| reflexivity].
  destruct (truthy_num x); [apply dict_get_set_other, E | reflexivity].
Qed.

Lemma get_delete_if_eq_other k v s k' :
  String.eqb k k' = false -> dict_get (delete_if_eq k v s) k' = dict_get s k'.
Proof.
  intros E. unfold delete_if_eq.
  destruct (dict_get s k) as [[x | |] |]; try reflexivity.
  destruct (strict_eq x v); [apply dict_get_delete_miss, E | reflexivity].
Qed.

Lemma get_delete_if_eq_same k v s :
  dict_get (delete_if_eq k v s) k
  = match dict_get s k with
    | Some (VNum x) => if strict_eq x v then None else Some (VNum x)
    | o => o
    end.
Proof.
  unfold delete_if_eq.
  destruct (dict_get s k) as [[x | |] |] eqn:G; try exact G.
  destruct (strict_eq x v); [apply dict_get_delete_same | exact G].
Qed.

(** *** Each block leaves the keys of the other blocks alone *)

Lemma outside_cons k0 keys k :
  outside (k0 :: keys) k -> String.eqb k0 k = false /\ outside keys k.
Proof.
  unfold outside. cbn [existsb]. intros H. apply orb_false_elim in H as [H1 H2].
  rewrite String.eqb_sym. auto.
Qed.

Lemma outside_app a b k : outside (a ++ b) k -> outside a k /\ outside b k.
Proof. unfold outside. rewrite existsb_app. apply orb_false_elim. Qed.

Ltac split_outside H :=
  cbv [borderKeys flexKeys textKeys shadowKeys optimizedKeys app] in H;
  repeat match type of H with
         | outside (_ :: _) _ =>
             let E := fresh "E" in apply outside_cons in H as [E H]
         end.

(** Drops from a lookup the assignments to other keys. *)
Ltac other_keys :=
  repeat first
    [ rewrite dict_get_set_other by assumption
    | rewrite dict_get_delete_miss by assumption
    | rewrite get_set_if_defined_other by assumption
    | rewrite get_set_if_str_other by assumption
    | rewrite get_set_if_num_other by assumption
    | rewrite get_delete_if_eq_other by assumption ].

Lemma backgroundBlock_frame node s k :
  String.eqb "backgroundColor" k = false ->
  dict_get (backgroundBlock node s) k = dict_get s k.
Proof.
  intros E. unfold backgroundBlock.
  destruct (FigmaNode.fills node) as [fills |]; [| reflexivity].
  destruct (fillToBackgroundColor fills) as [c |]; [| reflexivity].
  destruct (truthy_str c); other_keys; reflexivity.
Qed.

Lemma strokeToBorder_frame strokes s k :
  outside borderKeys k -> dict_get (strokeToBorder strokes s) k = dict_get s k.
Proof.
  intros H. split_outside H. unfold strokeToBorder.
  destruct strokes as [[| stroke ?] |]; try reflexivity.
  destruct (FigmaStroke.color stroke); other_keys; reflexivity.
Qed.

Lemma opacityBlock_frame node s k :
  String.eqb "opacity" k = false -> dict_get (opacityBlock node s) k = dict_get s k.
Proof.
  intros E. unfold opacityBlock.
  destruct (FigmaNode.opacity node) as [o |]; [| reflexivity].
  destruct (negb (strict_eq o 1%float)); other_keys; reflexivity.
Qed.

Lemma layoutToFlex_frame node s k :
  outside flexKeys k -> dict_get (layoutToFlex node s) k = dict_get s k.
Proof.
  intros H. split_outside H. unfold layoutToFlex.
  destruct (FigmaNode.layoutMode node) as [mode |]; [| reflexivity].
  destruct (truthy_str mode); [| reflexivity].
  other_keys.
  destruct (String.eqb mode "HORIZONTAL"); [other_keys; reflexivity |].
  destruct (String.eqb mode "VERTICAL"); other_keys; reflexivity.
Qed.

(** The last step of [textStyleToReactNative]. *)
Lemma textColor_cases (fills : option (list FigmaFill.t)) (P : ReactNativeStyleProperties -> Prop) s :
  P s -> (forall c, P (dict_set s "color" (VStr c))) ->
  P match fills with
    | Some (f :: fs) =>
        match fillToBackgroundColor (f :: fs) with
        | Some textColor =>
            if truthy_str textColor then dict_set s "color" (VStr textColor) else s
        | None => s
        end
    | _ => s
    end.
Proof.
  intros H1 H2. destruct fills as [[| f fs] |]; try exact H1.
  destruct (fillToBackgroundColor (f :: fs)) as [c |]; [| exact H1].
  destruct (truthy_str c); [apply H2 | exact H1].
Qed.

Lemma textStyle_frame textStyle fills k :
  outside textKeys k -> dict_get (textStyleToReactNative textStyle fills) k = None.
Proof.
  intros H. split_outside H. unfold textStyleToReactNative.
  apply (textColor_cases fills (fun s => dict_get s k = None)).
  - other_keys.
    destruct (truthy_num (FigmaTextStyle.fontWeight textStyle)); other_keys; reflexivity.
  - intros c. other_keys.
    destruct (truthy_num (FigmaTextStyle.fontWeight textStyle)); other_keys; reflexivity.
Qed.

Lemma textBlock_frame node s k :
  outside textKeys k -> dict_get (textBlock node s) k = dict_get s k.
Proof.
  intros H. unfold textBlock. destruct (FigmaNode.style node); [| reflexivity].
  apply dict_get_assign_none, textStyle_frame, H.
Qed.

Lemma effectsToShadow_frame effects s k :
  outside shadowKeys k -> dict_get (effectsToShadow effects s) k = dict_get s k.
Proof.
  intros H. split_outside H. unfold effectsToShadow.
  destruct effects as [[| e es] |]; try reflexivity.
  destruct (find _ (e :: es)) as [shadow |]; [| reflexivity].
  other_keys.
  destruct (FigmaEffect.offset shadow); other_keys;
    destruct (FigmaEffect.color shadow); other_keys; reflexivity.
Qed.

Lemma positionBlock_frame node isRoot s k :
  outside ["left"; "top"; "alignSelf"] k ->
  dict_get (positionBlock node isRoot s) k = dict_get s k.
Proof.
  intros H. split_outside H. unfold positionBlock.
  destruct isRoot; [| destruct (truthy_ostr (FigmaNode.layoutMode node))];
    other_keys; reflexivity.
Qed.

Lemma spacingBlock_frame node s k :
  outside ["itemSpacing"; "marginRight"; "marginBottom"] k ->
  dict_get (spacingBlock node s) k = dict_get s k.
Proof.
  intros H. split_outside H. unfold spacingBlock.
  destruct (dict_get s "itemSpacing") as [[spacing | |] |]; try reflexivity.
  destruct (truthy_ostr (FigmaNode.layoutMode node) && truthy_num spacing); [| reflexivity].
  cbv zeta.
  destruct match FigmaNode.layoutMode node with
           | Some mode => String.eqb mode "HORIZONTAL"
           | None => false
           end; other_keys; reflexivity.
Qed.

Lemma optimizeStyles_frame s k :
  outside optimizedKeys k -> dict_get (optimizeStyles s) k = dict_get s k.
Proof.
  intros H. split_outside H. unfold optimizeStyles. other_keys. reflexivity.
Qed.

(** *** The two functions as chains of blocks *)

Lemma nodeToStyles_blocks node :
  nodeToStyles node
  = effectsToShadow (FigmaNode.effects node)
      (textBlock node
         (layoutToFlex node
            (opacityBlock node
               (strokeToBorder (FigmaNode.strokes node)
                  (set_if_defined "borderRadius" (FigmaNode.cornerRadius node)
                     (backgroundBlock node
                        (set_if_defined "height" (FigmaNode.height node)
                           (set_if_defined "width" (FigmaNode.width node)
                              (set_if_defined "top" (FigmaNode.y node)
                                 (set_if_defined "left" (FigmaNode.x node) [])))))))))).
Proof. reflexivity. Qed.

Lemma stylePropsFor_blocks node isRoot :
  stylePropsFor node isRoot
  = optimizeStyles (spacingBlock node (positionBlock node isRoot (nodeToStyles node))).
Proof. reflexivity. Qed.

(** Walks a lookup down the chain, past the blocks that do not write the
    key. *)
Ltac skip_blocks :=
  repeat first
    [ rewrite optimizeStyles_frame by reflexivity
    | rewrite spacingBlock_frame by reflexivity
    | rewrite positionBlock_frame by reflexivity
    | rewrite effectsToShadow_frame by reflexivity
    | rewrite textBlock_frame by reflexivity
    | rewrite layoutToFlex_frame by reflexivity
    | rewrite opacityBlock_frame by reflexivity
    | rewrite strokeToBorder_frame by reflexivity
    | rewrite backgroundBlock_frame by reflexivity
    | rewrite get_set_if_defined_other by reflexivity
    | rewrite get_set_if_str_other by reflexivity
    | rewrite dict_get_set_other by reflexivity
    | rewrite dict_get_delete_miss by reflexivity ].

Ltac lookup := rewrite ?stylePropsFor_blocks, ?nodeToStyles_blocks; skip_blocks.

(** *** Position and size *)

Lemma positionBlock_left node isRoot s :
  dict_get (positionBlock node isRoot s) "left"
  = if isRoot || truthy_ostr (FigmaNode.layoutMode node) then None else dict_get s "left".
Proof.
  unfold positionBlock.
  destruct isRoot; [| destruct (truthy_ostr (FigmaNode.layoutMode node))]; cbn [orb];
    skip_blocks; rewrite ?dict_get_delete_same; reflexivity.
Qed.

Lemma positionBlock_top node isRoot s :
  dict_get (positionBlock node isRoot s) "top"
  = if isRoot || truthy_ostr (FigmaNode.layoutMode node) then None else dict_get s "top".
Proof.
  unfold positionBlock.
  destruct isRoot; [| destruct (truthy_ostr (FigmaNode.layoutMode node))]; cbn [orb];
    rewrite ?dict_get_delete_same; reflexivity.
Qed.

Lemma positionBlock_alignSelf node isRoot s :
  dict_get (positionBlock node isRoot s) "alignSelf"
  = if isRoot then Some (VStr "stretch") else dict_get s "alignSelf".
Proof.
  unfold positionBlock.
  destruct isRoot; [| destruct (truthy_ostr (FigmaNode.layoutMode node))];
    skip_blocks; rewrite ?dict_get_set_same; reflexivity.
Qed.

Lemma option_map_VNum (v : option number) :
  match v with Some x => Some (VNum x) | None => None end = option_map VNum v.
Proof. destruct v; reflexivity. Qed.

(** X11: the position of a node is dropped for the root and for an
    auto-layout node and copied otherwise; the root alone is stretched. *)
Theorem stylePropsFor_position node isRoot :
  dict_get (stylePropsFor node isRoot) "left"
  = (if isRoot || truthy_ostr (FigmaNode.layoutMode node) then None
     else option_map VNum (FigmaNode.x node))
  /\ dict_get (stylePropsFor node isRoot) "top"
     = (if isRoot || truthy_ostr (FigmaNode.layoutMode node) then None
        else option_map VNum (FigmaNode.y node))
  /\ dict_get (stylePropsFor node isRoot) "alignSelf"
     = (if isRoot then Some (VStr "stretch") else None).
Proof.
  split; [| split]; lookup.
  - rewrite positionBlock_left. lookup. rewrite get_set_if_defined_same, option_map_VNum.
    reflexivity.
  - rewrite positionBlock_top. lookup. rewrite get_set_if_defined_same. skip_blocks.
    rewrite option_map_VNum. reflexivity.
  - rewrite positionBlock_alignSelf. lookup. reflexivity.
Qed.

Lemma optimizeStyles_opacity s :
  dict_get (optimizeStyles s) "opacity"
  = match dict_get s "opacity" with
    | Some (VNum x) => if strict_eq x 1%float then None else Some (VNum x)
    | o => o
    end.
Proof.
  unfold optimizeStyles. rewrite !get_delete_if_eq_other by reflexivity.
  apply get_delete_if_eq_same.
Qed.

Lemma optimizeStyles_zero s k :
  In k ["borderWidth"; "borderRadius"] ->
  dict_get (optimizeStyles s) k
  = match dict_get s k with
    | Some (VNum x) => if strict_eq x 0%float then None else Some (VNum x)
    | o => o
    end.
Proof.
  unfold optimizeStyles. intros [<- | [<- | []]].
  - rewrite !get_delete_if_eq_other by reflexivity.
    rewrite get_delete_if_eq_same, get_delete_if_eq_other by reflexivity. reflexivity.
  - rewrite !get_delete_if_eq_other by reflexivity.
    rewrite get_delete_if_eq_same, !get_delete_if_eq_other by reflexivity. reflexivity.
Qed.

Lemma opacityBlock_opacity node s :
  dict_get s "opacity" = None ->
  dict_get (opacityBlock node s) "opacity"
  = match FigmaNode.opacity node with
    | Some o => if strict_eq o 1%float then None else Some (VNum o)
    | None => None
    end.
Proof.
  intros G. unfold opacityBlock. destruct (FigmaNode.opacity node) as [o |]; [| exact G].
  destruct (strict_eq o 1%float); cbn [negb]; [exact G | apply dict_get_set_same].
Qed.

(** X12: width and height are copied; a corner radius of 0 and an opacity of
    1 are dropped, any other is copied. *)
Theorem stylePropsFor_geometry node isRoot :
  dict_get (stylePropsFor node isRoot) "width" = option_map VNum (FigmaNode.width node)
  /\ dict_get (stylePropsFor node isRoot) "height" = option_map VNum (FigmaNode.height node)
  /\ dict_get (stylePropsFor node isRoot) "borderRadius"
     = match FigmaNode.cornerRadius node with
       | Some r => if strict_eq r 0%float then None else Some (VNum r)
       | None => None
       end
  /\ dict_get (stylePropsFor node isRoot) "opacity"
     = match FigmaNode.opacity node with
       | Some o => if strict_eq o 1%float then None else Some (VNum o)
       | None => None
       end.
Proof.
  split; [| split; [| split]].
  - lookup. rewrite get_set_if_defined_same. skip_blocks. apply option_map_VNum.
  - lookup. rewrite get_set_if_defined_same. skip_blocks. apply option_map_VNum.
  - rewrite stylePropsFor_blocks, optimizeStyles_zero by (cbn; auto). lookup.
    rewrite get_set_if_defined_same. skip_blocks.
    destruct (FigmaNode.cornerRadius node); reflexivity.
  - rewrite stylePropsFor_blocks, optimizeStyles_opacity. lookup.
    rewrite opacityBlock_opacity by (skip_blocks; reflexivity).
    destruct (FigmaNode.opacity node) as [o |]; [| reflexivity].
    destruct (strict_eq o 1%float) eqn:E; [reflexivity | rewrite E; reflexivity].
Qed.

(** *** Auto-layout *)

Lemma layoutToFlex_number node s k v :
  In (k, v)
     [ ("paddingLeft", FigmaNode.paddingLeft node);
       ("paddingRight", FigmaNode.paddingRight node);
       ("paddingTop", FigmaNode.paddingTop node);
       ("paddingBottom", FigmaNode.paddingBottom node);
       ("itemSpacing", FigmaNode.itemSpacing node) ] ->
  dict_get s k = None ->
  dict_get (layoutToFlex node s) k
  = if truthy_ostr (FigmaNode.layoutMode node) then option_map VNum v else None.
Proof.
  intros Hin G. unfold layoutToFlex, truthy_ostr.
  destruct (FigmaNode.layoutMode node) as [mode |]; [| exact G].
  destruct (truthy_str mode); [| exact G].
  assert (D : dict_get (if String.eqb mode "HORIZONTAL"
                        then dict_set s "flexDirection" (VStr "row")
                        else if String.eqb mode "VERTICAL"
                             then dict_set s "flexDirection" (VStr "column") else s) k = None).
  { destruct Hin as [E | [E | [E | [E | [E | []]]]]]; injection E as <- <-;
      (destruct (String.eqb mode "HORIZONTAL"); [skip_blocks; exact G |]);
      destruct (String.eqb mode "VERTICAL"); skip_blocks; exact G. }
  destruct Hin as [E | [E | [E | [E | [E | []]]]]]; injection E as <- <-;
    skip_blocks; rewrite get_set_if_defined_same; skip_blocks;
    rewrite D; apply option_map_VNum.
Qed.

Lemma layoutToFlex_flexDirection node s :
  dict_get s "flexDirection" = None ->
  dict_get (layoutToFlex node s) "flexDirection"
  = match FigmaNode.layoutMode node with
    | Some mode =>
        if String.eqb mode "HORIZONTAL" then Some (VStr "row")
        else if String.eqb mode "VERTICAL" then Some (VStr "column")
        else None
    | None => None
    end.
Proof.
  intros G. unfold layoutToFlex.
  destruct (FigmaNode.layoutMode node) as [mode |]; [| exact G].
  destruct (truthy_str mode) eqn:T.
  - skip_blocks.
    destruct (String.eqb mode "HORIZONTAL"); [apply dict_get_set_same |].
    destruct (String.eqb mode "VERTICAL"); [apply dict_get_set_same | exact G].
  - destruct mode; [exact G | discriminate].
Qed.

(** X13: the auto-layout direction and the four paddings reach the style of
    a node that has a layout mode, and of no other node. *)
Theorem stylePropsFor_layout node isRoot :
  dict_get (stylePropsFor node isRoot) "flexDirection"
  = match FigmaNode.layoutMode node with
    | Some mode =>
        if String.eqb mode "HORIZONTAL" then Some (VStr "row")
        else if String.eqb mode "VERTICAL" then Some (VStr "column")
        else None
    | None => None
    end
  /\ dict_get (stylePropsFor node isRoot) "paddingLeft"
     = (if truthy_ostr (FigmaNode.layoutMode node)
        then option_map VNum (FigmaNode.paddingLeft node) else None)
  /\ dict_get (stylePropsFor node isRoot) "paddingRight"
     = (if truthy_ostr (FigmaNode.layoutMode node)
        then option_map VNum (FigmaNode.paddingRight node) else None)
  /\ dict_get (stylePropsFor node isRoot) "paddingTop"
     = (if truthy_ostr (FigmaNode.layoutMode node)
        then option_map VNum (FigmaNode.paddingTop node) else None)
  /\ dict_get (stylePropsFor node isRoot) "paddingBottom"
     = (if truthy_ostr (FigmaNode.layoutMode node)
        then option_map VNum (FigmaNode.paddingBottom node) else None).
Proof.
  split; [lookup; apply layoutToFlex_flexDirection; skip_blocks; reflexivity |].
  repeat split; lookup;
    (apply layoutToFlex_number; [cbn [In]; tauto | skip_blocks; reflexivity]).
Qed.

Lemma nodeToStyles_itemSpacing node :
  dict_get (nodeToStyles node) "itemSpacing"
  = if truthy_ostr (FigmaNode.layoutMode node)
    then option_map VNum (FigmaNode.itemSpacing node) else None.
Proof.
  lookup. apply (layoutToFlex_number node _ "itemSpacing"); [cbn; tauto |].
  skip_blocks. reflexivity.
Qed.

(** X14: the spacing of an auto-layout node becomes a right margin (in a
    horizontal layout) or a bottom margin (in any other); a spacing of 0
    or NaN stays in the style under [itemSpacing]. *)
Theorem stylePropsFor_itemSpacing node isRoot :
  let spacing :=
    if truthy_ostr (FigmaNode.layoutMode node) then FigmaNode.itemSpacing node else None in
  let horizontal :=
    match FigmaNode.layoutMode node with
    | Some mode => String.eqb mode "HORIZONTAL"
    | None => false
    end in
  dict_get (stylePropsFor node isRoot) "itemSpacing"
  = match spacing with
    | Some v => if truthy_num v then None else Some (VNum v)
    | None => None
    end
  /\ dict_get (stylePropsFor node isRoot) "marginRight"
     = match spacing with
       | Some v => if truthy_num v && horizontal then Some (VNum v) else None
       | None => None
       end
  /\ dict_get (stylePropsFor node isRoot) "marginBottom"
     = match spacing with
       | Some v => if truthy_num v && negb horizontal then Some (VNum v) else None
       | None => None
       end.
Proof.
  intros spacing horizontal. rewrite stylePropsFor_blocks.
  rewrite !optimizeStyles_frame by reflexivity.
  set (styleProps := positionBlock node isRoot (nodeToStyles node)).
  assert (GI : dict_get styleProps "itemSpacing" = option_map VNum spacing).
  { subst styleProps spacing. rewrite positionBlock_frame by reflexivity.
    rewrite nodeToStyles_itemSpacing.
    destruct (truthy_ostr (FigmaNode.layoutMode node)); reflexivity. }
  assert (MR : dict_get styleProps "marginRight" = None).
  { subst styleProps. lookup. reflexivity. }
  assert (MB : dict_get styleProps "marginBottom" = None).
  { subst styleProps. lookup. reflexivity. }
  assert (T : spacing = None \/ truthy_ostr (FigmaNode.layoutMode node) = true).
  { subst spacing. destruct (truthy_ostr (FigmaNode.layoutMode node)); auto. }
  unfold spacingBlock. fold horizontal. rewrite GI.
  destruct spacing as [v |]; cbn [option_map]; [| auto].
  destruct T as [T | T]; [discriminate |]. rewrite T. cbn [andb].
  destruct (truthy_num v); cbn [andb]; [| auto].
  cbv zeta. destruct horizontal; cbn [negb]; repeat split; skip_blocks;
    rewrite ?dict_get_set_same, ?dict_get_delete_same; auto.
Qed.

(** *** Colors, borders and shadows *)

Lemma colorToString_truthy c : truthy_str (colorToString c) = true.
Proof. unfold colorToString. destruct (strict_eq _ _); reflexivity. Qed.

Lemma fillToBackgroundColor_truthy fills c :
  fillToBackgroundColor fills = Some c -> truthy_str c = true.
Proof.
  unfold fillToBackgroundColor. destruct fills as [| f fs]; [discriminate |].
  destruct (find isVisibleSolidFill (f :: fs)) as [fill |]; [| discriminate].
  destruct (FigmaFill.color fill); [| discriminate].
  intros H. injection H as <-. apply colorToString_truthy.
Qed.

Lemma backgroundBlock_backgroundColor node s :
  dict_get s "backgroundColor" = None ->
  dict_get (backgroundBlock node s) "backgroundColor" = option_map VStr (fillColor node).
Proof.
  intros G. unfold backgroundBlock, fillColor.
  destruct (FigmaNode.fills node) as [fills |]; [| exact G].
  destruct (fillToBackgroundColor fills) as [c |] eqn:F; [| exact G].
  rewrite (fillToBackgroundColor_truthy _ _ F). apply dict_get_set_same.
Qed.

Lemma textStyle_NoDup textStyle fills :
  NoDup (dict_keys (textStyleToReactNative textStyle fills)).
Proof.
  assert (S : forall k v f s, NoDup (dict_keys s) -> NoDup (dict_keys (set_if_str k v f s))).
  { intros k v f s N. unfold set_if_str. destruct v as [x |]; [| exact N].
    destruct (truthy_str x); [apply dict_set_NoDup |]; exact N. }
  assert (Nm : forall k v s, NoDup (dict_keys s) -> NoDup (dict_keys (set_if_num k v s))).
  { intros k v s N. unfold set_if_num. destruct v as [x |]; [| exact N].
    destruct (truthy_num x); [apply dict_set_NoDup |]; exact N. }
  unfold textStyleToReactNative.
  apply (textColor_cases fills (fun s => NoDup (dict_keys s)));
    [| intros c; apply dict_set_NoDup];
    repeat first [apply S | apply Nm];
    (destruct (truthy_num (FigmaTextStyle.fontWeight textStyle));
     [apply dict_set_NoDup |]; repeat first [apply S | apply Nm]; constructor).
Qed.

Lemma textStyle_color textStyle fills :
  dict_get (textStyleToReactNative textStyle fills) "color"
  = match fills with
    | Some fills => option_map VStr (fillToBackgroundColor fills)
    | None => None
    end.
Proof.
  assert (B : forall s, dict_get s "color" = None ->
    dict_get match fills with
             | Some (f :: fs) =>
                 match fillToBackgroundColor (f :: fs) with
                 | Some textColor =>
                     if truthy_str textColor then dict_set s "color" (VStr textColor) else s
                 | None => s
                 end
             | _ => s
             end "color"
    = match fills with
      | Some fills => option_map VStr (fillToBackgroundColor fills)
      | None => None
      end).
  { intros s G. destruct fills as [[| f fs] |]; try exact G.
    destruct (fillToBackgroundColor (f :: fs)) as [c |] eqn:F; [| exact G].
    rewrite (fillToBackgroundColor_truthy _ _ F). apply dict_get_set_same. }
  unfold textStyleToReactNative. apply B.
  skip_blocks. rewrite !get_set_if_num_other by reflexivity. skip_blocks.
  destruct (truthy_num (FigmaTextStyle.fontWeight textStyle)); skip_blocks;
    rewrite get_set_if_num_other by reflexivity; skip_blocks; reflexivity.
Qed.

Lemma textBlock_color node textStyle s :
  FigmaNode.style node = Some textStyle -> dict_get s "color" = None ->
  dict_get (textBlock node s) "color" = option_map VStr (fillColor node).
Proof.
  intros S G. unfold textBlock. rewrite S.
  rewrite dict_get_assign by apply textStyle_NoDup.
  rewrite textStyle_color. unfold fillColor.
  destruct (FigmaNode.fills node) as [fills |]; [| exact G].
  destruct (fillToBackgroundColor fills); [reflexivity | exact G].
Qed.

(** X15: a node with a text style gets the color of its fill both as text
    color and as background color. *)
Theorem text_color_is_background_color node isRoot textStyle :
  FigmaNode.style node = Some textStyle ->
  dict_get (stylePropsFor node isRoot) "color" = option_map VStr (fillColor node)
  /\ dict_get (stylePropsFor node isRoot) "backgroundColor"
     = option_map VStr (fillColor node).
Proof.
  intros S. split; lookup.
  - apply (textBlock_color node textStyle); [exact S |]. skip_blocks. reflexivity.
  - apply backgroundBlock_backgroundColor. skip_blocks. reflexivity.
Qed.

Lemma strokeToBorder_border strokes s node :
  strokes = FigmaNode.strokes node ->
  dict_get s "borderColor" = None -> dict_get s "borderWidth" = None ->
  dict_get s "borderStyle" = None ->
  dict_get (strokeToBorder strokes s) "borderColor"
  = option_map (fun c => VStr (colorToString c)) (firstStrokeColor node)
  /\ dict_get (strokeToBorder strokes s) "borderWidth"
     = option_map (fun _ => VNum 1%float) (firstStrokeColor node)
  /\ dict_get (strokeToBorder strokes s) "borderStyle"
     = option_map (fun _ => VStr "solid") (firstStrokeColor node).
Proof.
  intros -> C W S. unfold strokeToBorder, firstStrokeColor.
  destruct (FigmaNode.strokes node) as [[| stroke ?] |]; auto.
  destruct (FigmaStroke.color stroke); auto.
  repeat split; skip_blocks; apply dict_get_set_same.
Qed.

Lemma text_color_is_background_color_witness :
  fillColor redLabel = Some "rgb(255, 0, 0)"
  /\ dict_get (stylePropsFor redLabel true) "color" = option_map VStr (fillColor redLabel)
  /\ dict_get (stylePropsFor redLabel true) "backgroundColor"
     = option_map VStr (fillColor redLabel).
Proof.
  split; [vm_compute; reflexivity |].
  apply (text_color_is_background_color redLabel true
           (FigmaTextStyle.mk "Inter" 16%float 400%float None None None None None None)).
  reflexivity.
Defined.

(** X16: the stroke at index 0 alone decides the border: with a color it
    gives the border color, the width 1 and the solid style, whatever its
    type, opacity and visibility; without one there is no border. *)
Theorem stylePropsFor_border node isRoot :
  dict_get (stylePropsFor node isRoot) "borderColor"
  = option_map (fun c => VStr (colorToString c)) (firstStrokeColor node)
  /\ dict_get (stylePropsFor node isRoot) "borderWidth"
     = option_map (fun _ => VNum 1%float) (firstStrokeColor node)
  /\ dict_get (stylePropsFor node isRoot) "borderStyle"
     = option_map (fun _ => VStr "solid") (firstStrokeColor node).
Proof.
  assert (B : forall k, In k borderKeys ->
            dict_get (spacingBlock node (positionBlock node isRoot (nodeToStyles node))) k
            = dict_get (strokeToBorder (FigmaNode.strokes node)
                          (set_if_defined "borderRadius" (FigmaNode.cornerRadius node)
                             (backgroundBlock node
                                (set_if_defined "height" (FigmaNode.height node)
                                   (set_if_defined "width" (FigmaNode.width node)
                                      (set_if_defined "top" (FigmaNode.y node)
                                         (set_if_defined "left" (FigmaNode.x node) []))))))) k).
  { intros k [<- | [<- | [<- | []]]]; lookup; reflexivity. }
  match type of B with
  | forall k, _ -> _ = dict_get (strokeToBorder ?st ?s0) k =>
      destruct (strokeToBorder_border st s0 node eq_refl) as (C & W & S);
      try (skip_blocks; reflexivity)
  end.
  split; [| split].
  - rewrite stylePropsFor_blocks, optimizeStyles_frame by reflexivity.
    rewrite B by (cbn; auto). exact C.
  - rewrite stylePropsFor_blocks, (optimizeStyles_zero _ "borderWidth") by (cbn; auto).
    rewrite B by (cbn; auto). rewrite W.
    destruct (firstStrokeColor node); reflexivity.
  - rewrite stylePropsFor_blocks, optimizeStyles_frame by reflexivity.
    rewrite B by (cbn; auto). exact S.
Qed.

(** X17: the first drop shadow that is not hidden gives the shadow; an alpha
    of 0 (or none) counts as 0.3 and a radius of 0 (or none) as an
    elevation of 3. *)
Theorem stylePropsFor_shadow node isRoot :
  dict_get (stylePropsFor node isRoot) "shadowOpacity"
  = option_map
      (fun effect =>
         VNum (num_or match FigmaEffect.color effect with
                      | Some c => FigmaColor.a c
                      | None => None
                      end 0x1.3333333333333p-2%float))
      (dropShadow node)
  /\ dict_get (stylePropsFor node isRoot) "elevation"
     = option_map (fun effect => VNum (num_or (FigmaEffect.radius effect) 3%float))
         (dropShadow node)
  /\ dict_get (stylePropsFor node isRoot) "shadowRadius"
     = match dropShadow node with
       | Some effect => option_map VNum (FigmaEffect.radius effect)
       | None => None
       end
  /\ dict_get (stylePropsFor node isRoot) "shadowColor"
     = match dropShadow node with
       | Some effect =>
           option_map (fun c => VStr (colorToString c)) (FigmaEffect.color effect)
       | None => None
       end.
Proof.
  rewrite stylePropsFor_blocks. rewrite !optimizeStyles_frame by reflexivity.
  rewrite !spacingBlock_frame by reflexivity. rewrite !positionBlock_frame by reflexivity.
  rewrite nodeToStyles_blocks.
  match goal with
  | |- context [effectsToShadow _ ?s0] => set (s := s0)
  end.
  assert (G : forall k, outside (textKeys ++ flexKeys ++ borderKeys
                                   ++ ["opacity"; "borderRadius"; "backgroundColor";
                                       "height"; "width"; "top"; "left"]) k ->
              dict_get s k = None).
  { intros k H. apply outside_app in H as [HT H]. apply outside_app in H as [HF H].
    apply outside_app in H as [HB H]. split_outside H. subst s.
    rewrite textBlock_frame by exact HT. rewrite layoutToFlex_frame by exact HF.
    rewrite opacityBlock_frame by assumption. rewrite strokeToBorder_frame by exact HB.
    other_keys. rewrite backgroundBlock_frame by assumption. other_keys. reflexivity. }
  unfold effectsToShadow, dropShadow.
  destruct (FigmaNode.effects node) as [[| e es] |];
    try (cbn [find option_map]; repeat split; apply G; reflexivity).
  destruct (find _ (e :: es)) as [shadow |]; cbn [option_map];
    [| repeat split; apply G; reflexivity].
  repeat split; skip_blocks; rewrite ?dict_get_set_same; try reflexivity.
  - rewrite get_set_if_defined_same.
    destruct (FigmaEffect.radius shadow); [reflexivity |]. cbn [option_map].
    destruct (FigmaEffect.offset shadow); skip_blocks;
      destruct (FigmaEffect.color shadow); skip_blocks; apply G; reflexivity.
  - destruct (FigmaEffect.offset shadow); skip_blocks;
      destruct (FigmaEffect.color shadow); rewrite ?dict_get_set_same; try reflexivity;
      apply G; reflexivity.
Qed.

(** *** [mergeStyles] *)

(** X18: of the mappings handed to [mergeStyles] the last one that has a key
    decides its value. *)
Theorem mergeStyles_last_wins (styles : list ReactNativeStyleProperties)
  (last : ReactNativeStyleProperties) k :
  NoDup (dict_keys last) ->
  dict_get (mergeStyles (styles ++ [last])) k
  = match dict_get last k with
    | Some v => Some v
    | None => dict_get (mergeStyles styles) k
    end.
Proof.
  intros N. unfold mergeStyles. rewrite fold_left_app. cbn [fold_left].
  apply dict_get_assign. exact N.
Qed.

Lemma mergeStyles_last_wins_witness :
  dict_get (mergeStyles [ [("width", VNum 1%float); ("color", VStr "red")];
                          [("color", VStr "blue")] ]) "color"
  = Some (VStr "blue").
Proof.
  apply (mergeStyles_last_wins [ [("width", VNum 1%float); ("color", VStr "red")] ]
           [("color", VStr "blue")] "color").
  repeat constructor. cbn. tauto.
Defined.

End StyleFacts.

(* ================================================================= *)
(** ** Colors of a tree, and the second color formatter *)

Section ColorFacts.
Import StyleParser ComponentParserColors.
Local Open Scope nat_scope.

Lemma set_add_In colors c x : In x (set_add colors c) <-> In x colors \/ x = c.
Proof.
  unfold set_add. destruct (existsb (String.eqb c) colors) eqn:E.
  - split; [auto |]. intros [H | ->]; [exact H |].
    apply existsb_exists in E as (y & Hy & Ey). apply String.eqb_eq in Ey. subst. exact Hy.
  - apply In_push.
Qed.

Lemma set_add_NoDup colors c : NoDup colors -> NoDup (set_add colors c).
Proof.
  intros N. unfold set_add. destruct (existsb (String.eqb c) colors) eqn:E; [exact N |].
  unfold push. apply NoDup_rev in N. rewrite <- (rev_involutive (_ ++ _)%list).
  apply NoDup_rev. rewrite rev_app_distr. cbn [rev app]. constructor; [| exact N].
  rewrite <- in_rev. intros Hin.
  assert (T : existsb (String.eqb c) colors = true).
  { apply existsb_exists. exists c. split; [exact Hin | apply String.eqb_refl]. }
  congruence.
Qed.

(** A loop that adds to the set the colors [own x] of each [x] in turn. *)
Lemma fold_adds {A} (step : list string -> A -> list string) (own : A -> list string)
  (l : list A) :
  (forall x, In x l -> forall cs,
     (NoDup cs -> NoDup (step cs x))
     /\ forall c, In c (step cs x) <-> In c cs \/ In c (own x)) ->
  forall cs,
    (NoDup cs -> NoDup (fold_left step l cs))
    /\ forall c, In c (fold_left step l cs) <-> In c cs \/ In c (flat_map own l).
Proof.
  induction l as [| x l IH]; intros S cs; cbn [fold_left flat_map].
  - split; [auto |]. intros c. cbn. tauto.
  - destruct (S x (or_introl eq_refl) cs) as [N1 I1].
    destruct (IH (fun y Hy => S y (or_intror Hy)) (step cs x)) as [N2 I2].
    split; [auto |]. intros c. rewrite I2, I1, in_app_iff. tauto.
Qed.

Lemma paint_step (cond : bool) (color : option FigmaColor.t) cs :
  (NoDup cs ->
   NoDup match color with
         | Some c => if cond then set_add cs (colorToString c) else cs
         | None => cs
         end)
  /\ forall x,
       In x match color with
            | Some c => if cond then set_add cs (colorToString c) else cs
            | None => cs
            end
       <-> In x cs \/ In x match color with
                          | Some c => if cond then [colorToString c] else []
                          | None => []
                          end.
Proof.
  destruct color as [c |]; [destruct cond |]; cbn [In].
  - split; [apply set_add_NoDup |]. intros x. rewrite set_add_In. intuition congruence.
  - split; [auto | intros; tauto].
  - split; [auto | intros; tauto].
Qed.

Lemma Subtree_children n children :
  FigmaNode.children n = Some children ->
  forall c, (exists d, Subtree n d /\ In c (ownColors d))
            <-> In c (ownColors n)
                \/ exists child, In child children
                     /\ exists d, Subtree child d /\ In c (ownColors d).
Proof.
  intros Ch c. split.
  - intros (d & S & Hc). inversion S as [| ? cs child ? Ch' Hin S']; subst.
    + auto.
    + rewrite Ch in Ch'. injection Ch' as <-. right. exists child. eauto.
  - intros [H | (child & Hin & d & S & Hc)].
    + exists n. split; [constructor | exact H].
    + exists d. split; [econstructor; eassumption | exact Hc].
Qed.

Lemma extractFromNode_unfold n colors :
  extractFromNode n colors
  = let colors :=
      fold_left (fun colors fill =>
                   match FigmaFill.color fill with
                   | Some c =>
                       if String.eqb (FigmaFill.type fill) "SOLID"
                          && not_false (FigmaFill.visible fill)
                       then set_add colors (colorToString c) else colors
                   | None => colors
                   end)
        (match FigmaNode.fills n with Some fills => fills | None => [] end) colors in
    let colors :=
      fold_left (fun colors stroke =>
                   match FigmaStroke.color stroke with
                   | Some c =>
                       if String.eqb (FigmaStroke.type stroke) "SOLID"
                          && not_false (FigmaStroke.visible stroke)
                       then set_add colors (colorToString c) else colors
                   | None => colors
                   end)
        (match FigmaNode.strokes n with Some strokes => strokes | None => [] end) colors in
    let colors :=
      fold_left (fun colors effect =>
                   match FigmaEffect.color effect with
                   | Some c =>
                       if not_false (FigmaEffect.visible effect)
                       then set_add colors (colorToString c) else colors
                   | None => colors
                   end)
        (match FigmaNode.effects n with Some effects => effects | None => [] end) colors in
    fold_left (fun colors child => extractFromNode child colors)
      (match FigmaNode.children n with Some children => children | None => [] end) colors.
Proof.
  destruct n as [? ? ? ? ? ? ? children fills strokes ? ? ? effects ? ? ? ? ? ? ? ? ? ?].
  cbn [extractFromNode FigmaNode.fills FigmaNode.strokes FigmaNode.effects FigmaNode.children].
  destruct fills, strokes, effects, children; reflexivity.
Qed.

Lemma extractFromNode_spec : forall n cs,
  (NoDup cs -> NoDup (extractFromNode n cs))
  /\ forall c, In c (extractFromNode n cs)
               <-> In c cs \/ exists d, Subtree n d /\ In c (ownColors d).
Proof.
  intros n. remember (node_size n) as m eqn:Hm. revert n Hm.
  induction m as [m IH] using lt_wf_ind. intros n Hm cs.
  rewrite extractFromNode_unfold. cbv zeta.
  set (fillStep := fun colors fill => match FigmaFill.color fill with _ => _ end).
  set (strokeStep := fun colors stroke => match FigmaStroke.color stroke with _ => _ end).
  set (effectStep := fun colors effect => match FigmaEffect.color effect with _ => _ end).
  set (fills := match FigmaNode.fills n with Some fills => fills | None => [] end).
  set (strokes := match FigmaNode.strokes n with Some strokes => strokes | None => [] end).
  set (effects := match FigmaNode.effects n with Some effects => effects | None => [] end).
  destruct (fold_adds fillStep _ fills (fun x _ cs0 => paint_step _ (FigmaFill.color x) cs0) cs)
    as [N1 I1].
  set (cs1 := fold_left fillStep fills cs) in *.
  destruct (fold_adds strokeStep _ strokes
              (fun x _ cs0 => paint_step _ (FigmaStroke.color x) cs0) cs1) as [N2 I2].
  set (cs2 := fold_left strokeStep strokes cs1) in *.
  destruct (fold_adds effectStep _ effects
              (fun x _ cs0 => paint_step _ (FigmaEffect.color x) cs0) cs2) as [N3 I3].
  set (cs3 := fold_left effectStep effects cs2) in *.
  assert (Own : forall c, In c cs3 <-> In c cs \/ In c (ownColors n)).
  { intros c. rewrite I3, I2, I1. unfold ownColors. rewrite !in_app_iff.
    fold fills strokes effects. tauto. }
  destruct (FigmaNode.children n) as [children |] eqn:Ch.
  - assert (K : forall l cs0, incl l children ->
              (NoDup cs0 -> NoDup (fold_left (fun colors child => extractFromNode child colors) l cs0))
              /\ forall c, In c (fold_left (fun colors child => extractFromNode child colors) l cs0)
                           <-> In c cs0
                               \/ exists child, In child l
                                    /\ exists d, Subtree child d /\ In c (ownColors d)).
    { induction l as [| x l IHl]; intros cs0 Hincl; cbn [fold_left].
      - split; [auto |]. intros c. split; [auto | intros [H | (? & [] & _)]; exact H].
      - assert (Hx : In x children) by (apply Hincl; left; reflexivity).
        destruct (IH (node_size x) ltac:(subst m; eapply node_size_child; eassumption)
                    x eq_refl cs0) as [Nx Ix].
        destruct (IHl (extractFromNode x cs0)
                    (fun y Hy => Hincl y (or_intror Hy))) as [Nl Il].
        split; [auto |]. intros c. rewrite Il, Ix. split.
        + intros [[H | H] | (child & Hin & H)]; eauto.
          * right. exists x. split; [left; reflexivity | exact H].
          * right. exists child. split; [right; exact Hin | exact H].
        + intros [H | (child & [<- | Hin] & H)]; eauto. }
    destruct (K children cs3 (incl_refl _)) as [N4 I4].
    split; [auto |]. intros c.
    rewrite I4, Own, (Subtree_children n children Ch). tauto.
  - cbn [fold_left]. split; [auto |]. intros c. rewrite Own. split.
    + intros [H | H]; [auto |]. right. exists n. split; [constructor | exact H].
    + intros [H | (d & S & H)]; [auto |]. right.
      inversion S; subst; [exact H | congruence].
Qed.

(** X19: [extractColors] lists each color once, and lists exactly the
    colors carried by the node or by a node under it, hidden nodes
    included. *)
Theorem extractColors_spec node :
  NoDup (extractColors node)
  /\ forall c, In c (extractColors node)
               <-> exists d, Subtree node d /\ In c (ownColors d).
Proof.
  unfold extractColors. destruct (extractFromNode_spec node []) as [N I].
  split; [apply N; constructor |]. intros c. rewrite I. cbn [In]. tauto.
Qed.

End ColorFacts.

Section ColorFormatters.
Import StyleParser StyleUtils.

Lemma ltb_eqb_leb (a b : float) :
  (PrimFloat.leb a b = true -> PrimFloat.ltb a b = negb (PrimFloat.eqb a b))
  /\ (PrimFloat.leb a b = false -> PrimFloat.ltb a b = false /\ PrimFloat.eqb a b = false).
Proof.
  rewrite FloatAxioms.leb_spec, FloatAxioms.ltb_spec, FloatAxioms.eqb_spec.
  unfold SFleb, SFltb, SFeqb.
  destruct (SFcompare (Prim2SF a) (Prim2SF b)) as [[| |] |]; cbn; split; intros; auto;
    discriminate.
Qed.

(** X20: [figmaColorToRN] and [colorToString] give the same text exactly
    for the colors whose alpha is absent or at most 1; for any other alpha
    (one above 1, or NaN) the first gives the [rgb(...)] form and the
    second the [rgba(...)] form with that alpha. *)
Theorem figmaColorToRN_colorToString color :
  (figmaColorToRN color = colorToString color
   <-> match FigmaColor.a color with
       | Some a => PrimFloat.leb a 1%float = true
       | None => True
       end)
  /\ match FigmaColor.a color with
     | Some a =>
         if PrimFloat.leb a 1%float then True
         else
           figmaColorToRN color
           = "rgb(" ++ Number_toString (Math_round (FigmaColor.r color * 255)%float)
               ++ ", " ++ Number_toString (Math_round (FigmaColor.g color * 255)%float)
               ++ ", " ++ Number_toString (Math_round (FigmaColor.b color * 255)%float)
               ++ ")"
           /\ colorToString color
              = "rgba(" ++ Number_toString (Math_round (FigmaColor.r color * 255)%float)
                  ++ ", " ++ Number_toString (Math_round (FigmaColor.g color * 255)%float)
                  ++ ", " ++ Number_toString (Math_round (FigmaColor.b color * 255)%float)
                  ++ ", " ++ Number_toString a ++ ")"
     | None => True
     end.
Proof.
  unfold figmaColorToRN, colorToString, strict_eq.
  destruct (FigmaColor.a color) as [a |].
  - destruct (ltb_eqb_leb a 1%float) as [L N].
    destruct (PrimFloat.leb a 1%float) eqn:E.
    + rewrite (L eq_refl). destruct (PrimFloat.eqb a 1%float); cbn [negb]; tauto.
    + destruct (N eq_refl) as [-> ->]. split; [| split; reflexivity].
      split; [| discriminate].
      cbn [append]. intros H. injection H as H. discriminate.
  - change (PrimFloat.eqb 1 1)%float with true. tauto.
Qed.

(** The two formatters on a red of alpha 2 and on a red of alpha NaN. *)
Lemma figmaColorToRN_colorToString_witness :
  figmaColorToRN (FigmaColor.mk 1%float 0%float 0%float (Some 2%float)) = "rgb(255, 0, 0)"
  /\ colorToString (FigmaColor.mk 1%float 0%float 0%float (Some 2%float))
     = "rgba(255, 0, 0, 2)"
  /\ figmaColorToRN (FigmaColor.mk 1%float 0%float 0%float (Some PrimFloat.nan))
     = "rgb(255, 0, 0)"
  /\ colorToString (FigmaColor.mk 1%float 0%float 0%float (Some PrimFloat.nan))
     = "rgba(255, 0, 0, NaN)".
Proof.
  destruct (figmaColorToRN_colorToString
              (FigmaColor.mk 1%float 0%float 0%float (Some 2%float))) as [_ H2].
  destruct (figmaColorToRN_colorToString
              (FigmaColor.mk 1%float 0%float 0%float (Some PrimFloat.nan))) as [_ Hn].
  vm_compute in H2, Hn. destruct H2 as [A B]. destruct Hn as [C D].
  repeat split; vm_compute; assumption.
Defined.

End ColorFormatters.

(* ================================================================= *)
(** ** String utilities and node identifiers *)

Section SuffixFacts.
Import StringUtils.
Local Open Scope nat_scope.

Lemma length_append a b : String.length (a ++ b) = String.length a + String.length b.
Proof. induction a as [| c a IH]; cbn [append String.length]; [reflexivity | now rewrite IH]. Qed.

Lemma substring_all s : substring 0 (String.length s) s = s.
Proof. induction s as [| c s IH]; cbn; [reflexivity | now rewrite IH]. Qed.

Lemma substring_skip p u n : substring (String.length p + n) (String.length u) (p ++ u)
                             = substring n (String.length u) u.
Proof. induction p as [| c p IH]; cbn [append String.length Nat.add substring]; auto. Qed.

Lemma substring_head p u : substring 0 (String.length p) (p ++ u) = p.
Proof.
  induction p as [| c p IH]; cbn [append String.length substring].
  - destruct u; reflexivity.
  - now rewrite IH.
Qed.

Lemma substring_split s : forall n, n <= String.length s ->
  substring 0 n s ++ substring n (String.length s - n) s = s.
Proof.
  induction s as [| c s IH]; intros n Hn.
  - destruct n; reflexivity.
  - destruct n as [| n]; cbn [String.length Nat.sub substring append].
    + now rewrite substring_all.
    + cbn [String.length] in Hn. rewrite IH by lia. reflexivity.
Qed.

Lemma endsWith_append p u : endsWith (p ++ u) u = true.
Proof.
  unfold endsWith. rewrite length_append.
  replace (String.length p + String.length u - String.length u) with (String.length p + 0) by lia.
  rewrite substring_skip, substring_all, String.eqb_refl.
  apply andb_true_iff. split; [apply Nat.leb_le; lia | reflexivity].
Qed.

Lemma endsWith_split s u : endsWith s u = true -> s = dropEnd s (String.length u) ++ u.
Proof.
  unfold endsWith, dropEnd. intros H. apply andb_true_iff in H as [L E].
  apply Nat.leb_le in L. apply String.eqb_eq in E.
  pose proof (substring_split s (String.length s - String.length u) ltac:(lia)) as S.
  replace (String.length s - (String.length s - String.length u)) with (String.length u) in S
    by lia.
  rewrite E in S. symmetry. exact S.
Qed.

Lemma dropEnd_append p u : dropEnd (p ++ u) (String.length u) = p.
Proof.
  unfold dropEnd. rewrite length_append.
  replace (String.length p + String.length u - String.length u) with (String.length p) by lia.
  apply substring_head.
Qed.

Lemma endsWith_iff s u : endsWith s u = true <-> exists p, s = p ++ u.
Proof.
  split.
  - intros H. eexists. apply endsWith_split. exact H.
  - intros [p ->]. apply endsWith_append.
Qed.

Lemma snoc_inj a : forall b c c',
  a ++ String c "" = b ++ String c' "" -> a = b /\ c = c'.
Proof.
  induction a as [| x a IH]; intros [| y b] c c' H; cbn [append] in H.
  - injection H as ->. auto.
  - injection H as -> H. destruct b; discriminate.
  - injection H as -> H. destruct a; discriminate.
  - injection H as -> H. apply IH in H as [-> ->]. auto.
Qed.

Lemma endsWith_snoc w u c c' :
  endsWith (w ++ String c "") (u ++ String c' "") = Ascii.eqb c c' && endsWith w u.
Proof.
  apply eq_true_iff_eq. rewrite andb_true_iff, Ascii.eqb_eq, !endsWith_iff. split.
  - intros [p H]. rewrite <- append_assoc in H. apply snoc_inj in H as [-> ->].
    split; [reflexivity | eauto].
  - intros [-> [p ->]]. exists p. apply append_assoc.
Qed.

Lemma endsWith_snoc1 w c c' : endsWith (w ++ String c "") (String c' "") = Ascii.eqb c c'.
Proof.
  pose proof (endsWith_snoc w "" c c') as H. cbn [append] in H. rewrite H.
  replace (endsWith w "") with true; [apply andb_true_r |].
  symmetry. apply endsWith_iff. exists w. clear. induction w; cbn; congruence.
Qed.

Lemma endsWith_nil_snoc u c : endsWith "" (u ++ String c "") = false.
Proof.
  destruct (endsWith "" (u ++ String c "")) eqn:E; [| reflexivity].
  apply endsWith_iff in E as [p H]. apply (f_equal String.length) in H.
  rewrite !length_append in H. cbn in H. lia.
Qed.

(** A string is empty or ends with some character. *)
Lemma snoc_cases s : s = "" \/ exists w c, s = w ++ String c "".
Proof.
  induction s as [| x s IH]; [auto |]. right.
  destruct IH as [-> | (w & c & ->)].
  - exists "", x. reflexivity.
  - exists (String x w), c. reflexivity.
Qed.

Lemma snoc2 p a b : p ++ String a (String b "") = (p ++ String a "") ++ String b "".
Proof. rewrite append_assoc. reflexivity. Qed.

Lemma endsWith_1 w c a : endsWith (w ++ String c "") (String a "") = Ascii.eqb c a.
Proof. apply endsWith_snoc1. Qed.

Lemma endsWith_2 w c a b :
  endsWith (w ++ String c "") (String a (String b "")) = Ascii.eqb c b && endsWith w (String a "").
Proof. apply (endsWith_snoc w (String a "") c b). Qed.

Lemma endsWith_3 w c a b d :
  endsWith (w ++ String c "") (String a (String b (String d "")))
  = Ascii.eqb c d && endsWith w (String a (String b "")).
Proof. apply (endsWith_snoc w (String a (String b "")) c d). Qed.

Lemma dropEnd_1 p a : dropEnd (p ++ String a "") 1 = p.
Proof. apply (dropEnd_append p (String a "")). Qed.

Lemma dropEnd_2 p a b : dropEnd (p ++ String a (String b "")) 2 = p.
Proof. apply (dropEnd_append p (String a (String b ""))). Qed.

Lemma dropEnd_3 p a b c : dropEnd (p ++ String a (String b (String c ""))) 3 = p.
Proof. apply (dropEnd_append p (String a (String b (String c "")))). Qed.

Lemma length_substring_0 s : forall n,
  String.length (substring 0 n s) = Nat.min n (String.length s).
Proof.
  induction s as [| c s IH]; intros [| n]; cbn [substring String.length Nat.min]; auto.
Qed.

Lemma length_dropEnd s k : String.length (dropEnd s k) = String.length s - k.
Proof. unfold dropEnd. rewrite length_substring_0. lia. Qed.

Lemma endsWith_length s u : endsWith s u = true -> String.length u <= String.length s.
Proof. unfold endsWith. intros H. apply andb_true_iff in H as [H _]. apply Nat.leb_le, H. Qed.

(** X21: [singularize] undoes [pluralize] exactly on the words that do
    not end with an e. *)
Theorem singularize_pluralize word :
  singularize (pluralize word) = word <-> endsWith word "e" = false.
Proof.
  destruct (snoc_cases word) as [-> | (w & c & ->)]; [split; reflexivity |].
  set (p := w ++ String c "").
  assert (Lp : String.length p = S (String.length w)).
  { subst p. rewrite length_append. cbn. lia. }
  unfold pluralize. subst p.
  rewrite !endsWith_1, !endsWith_2.
  set (p := w ++ String c "") in *.
  destruct (Ascii.eqb c "y") eqn:Y.
  - apply Ascii.eqb_eq in Y. subst c. split; [reflexivity | intros _].
    subst p. rewrite dropEnd_1.
    unfold singularize. rewrite endsWith_append, dropEnd_3. reflexivity.
  - destruct (Ascii.eqb c "s" || Ascii.eqb c "h" && endsWith w "s"
              || Ascii.eqb c "h" && endsWith w "c" || Ascii.eqb c "x" || Ascii.eqb c "z") eqn:S.
    + assert (E : Ascii.eqb c "e" = false /\ Ascii.eqb c "i" = false).
      { destruct (Ascii.eqb c "e") eqn:E1; [apply Ascii.eqb_eq in E1; subst; discriminate |].
        destruct (Ascii.eqb c "i") eqn:E2; [apply Ascii.eqb_eq in E2; subst; discriminate |].
        auto. }
      destruct E as [E1 E2]. rewrite E1. split; [reflexivity | intros _].
      unfold singularize.
      rewrite (snoc2 p "e" "s"), endsWith_3. subst p.
      rewrite (endsWith_2 (w ++ String c "") "e" "i" "e"), endsWith_1, E2.
      cbn [andb Ascii.eqb Bool.eqb].
      rewrite <- snoc2, endsWith_append. apply dropEnd_2.
    + apply orb_false_elim in S as [S _]. apply orb_false_elim in S as [S _].
      apply orb_false_elim in S as [S _]. apply orb_false_elim in S as [S _].
      unfold singularize.
      rewrite endsWith_3, !endsWith_2, endsWith_1. cbn [Ascii.eqb Bool.eqb andb].
      subst p. rewrite ?endsWith_2, ?endsWith_1, S. cbn [negb andb].
      destruct (Ascii.eqb c "e") eqn:E; cbn [andb].
      * split; [| discriminate]. intros H. exfalso.
        apply (f_equal String.length) in H.
        destruct (endsWith w "i") eqn:I.
        -- apply endsWith_length in I. cbn [String.length] in I.
           rewrite length_append, length_dropEnd, !length_append in H. cbn in H. lia.
        -- rewrite length_dropEnd, !length_append in H. cbn in H. lia.
      * rewrite dropEnd_1. split; reflexivity.
Qed.

End SuffixFacts.

Section NodeIdFacts.
Import FigmaUtils.

Lemma string_map_map f g s : string_map f (string_map g s) = string_map (fun c => f (g c)) s.
Proof. induction s as [| c s IH]; cbn [string_map]; [reflexivity | now rewrite IH]. Qed.

Lemma string_map_ext f g s :
  (forall c, f c = g c) -> string_map f s = string_map g s.
Proof. intros E. induction s as [| c s IH]; cbn [string_map]; [reflexivity | now rewrite E, IH]. Qed.

(** X22: a node identifier comes back from its URL form with every hyphen
    turned into a colon, hence unchanged exactly when it holds no
    hyphen. *)
Theorem normalizeNodeId_formatNodeIdForUrl nodeId :
  normalizeNodeId (formatNodeIdForUrl nodeId) = normalizeNodeId nodeId
  /\ formatNodeIdForUrl (normalizeNodeId nodeId) = formatNodeIdForUrl nodeId
  /\ (normalizeNodeId (formatNodeIdForUrl nodeId) = nodeId
      <-> every (fun c => negb (Ascii.eqb c "-")) nodeId = true).
Proof.
  assert (E : normalizeNodeId (formatNodeIdForUrl nodeId) = normalizeNodeId nodeId).
  { unfold normalizeNodeId, formatNodeIdForUrl. rewrite string_map_map.
    apply string_map_ext. intros c. cbv beta.
    destruct (Ascii.eqb c ":") eqn:E; [| rewrite E; reflexivity].
    apply Ascii.eqb_eq in E. subst. reflexivity. }
  split; [exact E | split].
  - unfold normalizeNodeId, formatNodeIdForUrl. rewrite string_map_map.
    apply string_map_ext. intros c. cbv beta.
    destruct (Ascii.eqb c "-") eqn:E1; cbn [orb].
    + apply Ascii.eqb_eq in E1. subst. reflexivity.
    + destruct (Ascii.eqb c ":") eqn:E2; [reflexivity |]. rewrite E2. reflexivity.
  - rewrite E. unfold normalizeNodeId. clear E.
    induction nodeId as [| c s IH]; cbn [string_map every]; [tauto |].
    rewrite andb_true_iff, <- IH. split.
    + intros H. injection H as Hc Hs. split; [| exact Hs].
      destruct (Ascii.eqb c "-") eqn:E1; [| reflexivity].
      apply Ascii.eqb_eq in E1. subst c. discriminate.
    + intros [Hc Hs]. apply negb_true_iff in Hc. rewrite Hc, Hs. cbn [orb].
      destruct (Ascii.eqb c ":") eqn:E2; [| reflexivity].
      apply Ascii.eqb_eq in E2. subst. reflexivity.
Qed.

End NodeIdFacts.
